(** * chat-llamaindex: one conversational exchange ([app/store/session.ts])

    A shallow embedding of [callSession] and of the helpers it is built
    from.  JavaScript objects that are shared and mutated (the message
    objects held both by [session.messages] and by the callback closures)
    live in an explicit heap and are referred to by location; arrays are
    immutable lists of locations, as the source only ever replaces
    [session.messages] by a freshly built array.  Calls to collaborators
    (the update callback, the backend, the controller pool) are recorded in
    a trace; console logging is left out.  Numbers are integers: a
    clear-context index is an array index when it is set. *)

From Stdlib Require Import String Ascii ZArith Lia Bool.
From stdpp Require Import base option list gmap strings.

Local Open Scope string_scope.
Local Open Scope Z_scope.
Local Open Scope nat_scope.
Local Open Scope stdpp_scope.
Local Open Scope list_scope.

(** ** JavaScript values and operators used by the source *)

(** The dynamically typed scalars that occur as message ids, registry keys
    and configuration values. *)
Inductive JsVal : Type :=
  | JUndef
  | JStr (s : string)
  | JNum (z : Z)
  | JBool (b : bool)
  | JNaN.

#[global] Instance JsVal_eq_dec : EqDecision JsVal.
Proof. solve_decision. Defined.

Definition JsVal_encode (v : JsVal) : string + Z + bool + bool :=
  match v with
  | JStr s => inl (inl (inl s))
  | JNum z => inl (inl (inr z))
  | JBool b => inl (inr b)
  | JUndef => inr true
  | JNaN => inr false
  end.

Definition JsVal_decode (x : string + Z + bool + bool) : JsVal :=
  match x with
  | inl (inl (inl s)) => JStr s
  | inl (inl (inr z)) => JNum z
  | inl (inr b) => JBool b
  | inr true => JUndef
  | inr false => JNaN
  end.

#[global] Instance JsVal_countable : Countable JsVal.
Proof.
  refine (inj_countable' JsVal_encode JsVal_decode _).
  intros []; reflexivity.
Defined.

Definition LF : ascii := ascii_of_nat 10.

(** The two-character separator written ["\n\n"] in the source. *)
Definition blank_line : string := String LF (String LF EmptyString).

(** [String(v)] for a value that is a string or [undefined] (template
    literals and [+] on strings coerce this way). *)
Definition js_str (v : option string) : string :=
  match v with
  | Some s => s
  | None => "undefined"
  end.

(** [v + 1]: concatenation when [v] is a string, addition on numbers. *)
Definition js_add_one (v : JsVal) : JsVal :=
  match v with
  | JStr s => JStr (s +:+ "1")
  | JNum z => JNum (z + 1)
  | JBool b => JNum (if b then 2 else 1)
  | JUndef => JNaN
  | JNaN => JNaN
  end.

(** [a ?? b]. *)
Definition js_nullish (a b : JsVal) : JsVal :=
  match a with
  | JUndef => b
  | _ => a
  end.

(** [a || b] on strings: the empty string is falsy. *)
Definition js_or_str (a b : string) : string :=
  match a with
  | EmptyString => b
  | _ => a
  end.

(** [hay.includes(needle)]. *)
Fixpoint includes (needle hay : string) : bool :=
  match hay with
  | EmptyString => String.prefix needle EmptyString
  | String _ rest => String.prefix needle hay || includes needle rest
  end.

(** [Array.prototype.slice]: a relative index is counted from the end when
    negative and clamped to the bounds of the array. *)
Definition rel_index (len : nat) (i : Z) : nat :=
  if (i <? 0)%Z then Z.to_nat (Z.max (Z.of_nat len + i) 0)
  else Nat.min (Z.to_nat i) len.

Definition js_slice {A : Type} (l : list A) (start : Z) (stop : option Z) : list A :=
  let len := length l in
  let from := rel_index len start in
  let upto := match stop with
              | Some e => rel_index len e
              | None => len
              end in
  take (upto - from) (drop from l).

(** ** Data model (lines 11-46) *)

Inductive MimeType : Type :=
  | TextHtml
  | ApplicationPdf
  | TextPlain.

(** [URLDetailContent]; [ud_content = None] is an object without a
    [content] key.  [URLDetail] is the same object once the key is
    deleted. *)
Record URLDetailContent : Type := mkURLDetail {
  ud_url : string;
  ud_size : Z;
  ud_type : MimeType;
  ud_content : option string
}.

(** [delete detail["content"]]. *)
Definition delete_content (d : URLDetailContent) : URLDetailContent :=
  {| ud_url := ud_url d; ud_size := ud_size d; ud_type := ud_type d;
     ud_content := None |}.

(** [RequestMessage] as the source uses it: a role and a content. *)
Record RequestMessage : Type := mkRequest {
  rm_role : string;
  rm_content : option string
}.

(** [ChatMessage].  Optional fields are [None] when [undefined]. *)
Record ChatMessage : Type := mkMessage {
  msg_id : JsVal;
  msg_date : string;
  msg_role : string;
  msg_content : option string;
  msg_streaming : option bool;
  msg_isError : option bool;
  msg_urlDetail : option URLDetailContent
}.

(** [Partial<ChatMessage>]: [None] is an absent key.  [content] may be
    present with the value [undefined] (an extraction result without a
    body), hence the nested option. *)
Record Override : Type := mkOverride {
  o_id : option JsVal;
  o_date : option string;
  o_role : option string;
  o_content : option (option string);
  o_streaming : option bool;
  o_isError : option bool;
  o_urlDetail : option URLDetailContent
}.

Definition loc : Type := nat.

(** [ModelConfig] is declared elsewhere; it is only ever spread into the
    request, so it is kept as a JavaScript object. *)
Abbreviation ModelConfig := (gmap string JsVal).

Record Bot : Type := mkBot {
  context : list loc;
  modelConfig : ModelConfig
}.

Record ChatSession : Type := mkSession {
  sid : string;
  messages : list loc;
  clearContextIndex : option Z;
  bot : Bot
}.

Record FileWrap : Type := mkFile {
  extension : string;
  file_name : string
}.

Record Error : Type := mkError { err_message : string }.

(** The argument of [prettyObject] at both call sites. *)
Record ErrorObject : Type := mkErrorObject {
  eo_error : bool;
  eo_message : string
}.

(** An element of the history array handed to the backend: either one of
    the shared message objects, or an object literal built for the request
    that nothing else refers to. *)
Inductive Sent : Type :=
  | SentRef (l : loc)
  | SentNew (m : RequestMessage).

Record ChatRequest : Type := mkChatRequest {
  req_message : option string;
  req_chatHistory : list Sent;
  req_config : ModelConfig
}.

Definition Controller : Type := nat.

(** What the backend does during one [chat] call, as the hooks it fires. *)
Inductive BackendEvent : Type :=
  | OnController (c : Controller)
  | OnUpdate (message : string)
  | OnFinish (newMessages : list RequestMessage)
  | OnError (error : Error).

(** The value of the local variable [result] (line 206). *)
Inductive CallResult : Type :=
  | ResUndefined
  | ResMessage (l : loc)
  | ResArray (ls : list loc).

(** Calls made to the collaborators and assignments to
    [session.messages], in program order. *)
Inductive Event : Type :=
  | EvSetMessages (ms : list loc)
  | EvUpdateMessages (ms : list loc)
  | EvChat (req : ChatRequest)
  | EvAddController (s : string) (key : JsVal) (c : Controller)
  | EvRemove (s : string) (key : JsVal).

Record World : Type := mkWorld {
  heap : list ChatMessage;
  created : nat;
  session : ChatSession;
  pool : gmap (string * JsVal) Controller;
  trace : list Event
}.

Definition set_heap (h : list ChatMessage) (w : World) : World :=
  {| heap := h; created := created w; session := session w;
     pool := pool w; trace := trace w |}.

Definition set_created (n : nat) (w : World) : World :=
  {| heap := heap w; created := n; session := session w;
     pool := pool w; trace := trace w |}.

Definition set_messages (ms : list loc) (w : World) : World :=
  {| heap := heap w; created := created w;
     session := {| sid := sid (session w); messages := ms;
                   clearContextIndex := clearContextIndex (session w);
                   bot := bot (session w) |};
     pool := pool w; trace := trace w |}.

Definition set_pool (p : gmap (string * JsVal) Controller) (w : World) : World :=
  {| heap := heap w; created := created w; session := session w;
     pool := p; trace := trace w |}.

Definition log (e : Event) (w : World) : World :=
  {| heap := heap w; created := created w; session := session w;
     pool := pool w; trace := trace w ++ [e] |}.

(** ** The state monad of the embedding

    A computation reads and writes the world; [None] is a read or write
    through a location that is not allocated, which no run from a
    well-formed world reaches. *)

Definition M (A : Type) : Type := World -> option (A * World).

Definition ret {A : Type} (a : A) : M A := fun w => Some (a, w).

Definition bind {A B : Type} (c : M A) (k : A -> M B) : M B :=
  fun w => match c w with
           | Some (a, w') => k a w'
           | None => None
           end.

Declare Scope m_scope.
Delimit Scope m_scope with M.
Notation "x <- c ;; k" := (bind c (fun x => k))
  (at level 100, c at next level, right associativity) : m_scope.
Notation "c ;; k" := (bind c (fun _ => k))
  (at level 100, right associativity) : m_scope.
Local Open Scope m_scope.

Definition alloc (m : ChatMessage) : M loc :=
  fun w => Some (length (heap w), set_heap (heap w ++ [m]) w).

Definition load (l : loc) : M ChatMessage :=
  fun w => match heap w !! l with
           | Some m => Some (m, w)
           | None => None
           end.

Definition modify (l : loc) (f : ChatMessage -> ChatMessage) : M unit :=
  fun w => match heap w !! l with
           | Some m => Some (tt, set_heap (<[l := f m]> (heap w)) w)
           | None => None
           end.

Definition getSession : M ChatSession := fun w => Some (session w, w).

(** [session.messages = ms]. *)
Definition assignMessages (ms : list loc) : M unit :=
  fun w => Some (tt, log (EvSetMessages ms) (set_messages ms w)).

Definition emit (e : Event) : M unit := fun w => Some (tt, log e w).

(** The number of messages created so far; it indexes the identifier
    generator and the clock. *)
Definition tick : M nat :=
  fun w => Some (created w, set_created (S (created w)) w).

Fixpoint mapM {A B : Type} (f : A -> M B) (l : list A) : M (list B) :=
  match l with
  | [] => ret []
  | x :: rest =>
      y <- f x ;;
      ys <- mapM f rest ;;
      ret (y :: ys)
  end.

Definition with_content (c : option string) (m : ChatMessage) : ChatMessage :=
  {| msg_id := msg_id m; msg_date := msg_date m; msg_role := msg_role m;
     msg_content := c; msg_streaming := msg_streaming m;
     msg_isError := msg_isError m; msg_urlDetail := msg_urlDetail m |}.

Definition with_streaming (b : bool) (m : ChatMessage) : ChatMessage :=
  {| msg_id := msg_id m; msg_date := msg_date m; msg_role := msg_role m;
     msg_content := msg_content m; msg_streaming := Some b;
     msg_isError := msg_isError m; msg_urlDetail := msg_urlDetail m |}.

Definition with_isError (b : bool) (m : ChatMessage) : ChatMessage :=
  {| msg_id := msg_id m; msg_date := msg_date m; msg_role := msg_role m;
     msg_content := msg_content m; msg_streaming := msg_streaming m;
     msg_isError := Some b; msg_urlDetail := msg_urlDetail m |}.

(** ** Collaborators (imports of the source that live outside it) *)

Class Collaborators : Type := {
  (** [nanoid()]: the identifier produced by the n-th call. *)
  nanoid : nat -> string;
  (** [new Date().toLocaleString()] at the n-th message creation. *)
  localeDate : nat -> string;
  (** [prettyObject] of [../utils/format]. *)
  prettyObject : ErrorObject -> string;
  (** [isURL] and [fetchSiteContent] of [../utils/url]. *)
  isURL : string -> bool;
  fetchSiteContent : string -> Error + URLDetailContent;
  (** [new PDFFile(file).getFileDetail()] and
      [new PlainTextFile(file).getFileDetail()] of [../utils/file]. *)
  pdfFileDetail : FileWrap -> Error + URLDetailContent;
  plainTextFileDetail : FileWrap -> Error + URLDetailContent
}.

(** Modelled from the spec: [ChatControllerPool] is imported from
    [../client/controller], which is missing here.  The registry is a table
    keyed by (session id, message id); [addController] overwrites an entry
    that is present and [remove] does nothing when the entry is absent. *)
Definition addController (s : string) (key : JsVal) (c : Controller) : M unit :=
  fun w => Some (tt, log (EvAddController s key c)
                       (set_pool (<[(s, key) := c]> (pool w)) w)).

Definition remove (s : string) (key : JsVal) : M unit :=
  fun w => Some (tt, log (EvRemove s key)
                       (set_pool (delete (s, key) (pool w)) w)).

(** [callbacks.onUpdateMessages(ms)]. *)
Definition onUpdateMessages (ms : list loc) : M unit :=
  emit (EvUpdateMessages ms).

Section Exchange.

Context `{Collab : Collaborators}.

(** ** Message factory (lines 29-37) *)

(** The object literal of [createMessage]: the four defaults, then the
    keys of [override] on top; [n] is the number of messages created
    before. *)
Definition message_literal (n : nat) (override : Override) : ChatMessage :=
  {| msg_id := default (JStr (nanoid n)) (o_id override);
     msg_date := default (localeDate n) (o_date override);
     msg_role := default "user" (o_role override);
     msg_content := default (Some EmptyString) (o_content override);
     msg_streaming := o_streaming override;
     msg_isError := o_isError override;
     msg_urlDetail := o_urlDetail override |}.

Definition createMessage (override : Override) : M loc :=
  n <- tick ;;
  alloc (message_literal n override).

(** ** Input classification and extraction (lines 57-108, 134-145) *)

Definition createTextInputMessage (content : string) : M (Error + loc) :=
  if isURL content then
    match fetchSiteContent content with
    | inl e => ret (inl e)
    | inr urlDetail =>
        let userContent := ud_content urlDetail in
        let urlDetail := delete_content urlDetail in
        l <- createMessage {| o_id := None; o_date := None;
                              o_role := Some "user";
                              o_content := Some userContent;
                              o_streaming := None; o_isError := None;
                              o_urlDetail := Some urlDetail |} ;;
        ret (inr l)
    end
  else
    l <- createMessage {| o_id := None; o_date := None;
                          o_role := Some "user";
                          o_content := Some (Some content);
                          o_streaming := None; o_isError := None;
                          o_urlDetail := None |} ;;
    ret (inr l).

Definition getDetailContentFromFile (file : FileWrap) : Error + URLDetailContent :=
  if String.eqb (extension file) "pdf" then pdfFileDetail file
  else if String.eqb (extension file) "txt" then plainTextFileDetail file
  else inl {| err_message := "Not supported file type" |}.

Definition createFileInputMessage (file : FileWrap) : M (Error + loc) :=
  match getDetailContentFromFile file with
  | inl e => ret (inl e)
  | inr fileDetail =>
      let textContent := ud_content fileDetail in
      let fileDetail := delete_content fileDetail in
      l <- createMessage {| o_id := None; o_date := None;
                            o_role := Some "user";
                            o_content := Some textContent;
                            o_streaming := None; o_isError := None;
                            o_urlDetail := Some fileDetail |} ;;
      ret (inr l)
  end.

Definition createUserMessage (content : string) (uploadedFile : option FileWrap)
  : M (Error + loc) :=
  match uploadedFile with
  | Some file => createFileInputMessage file
  | None => createTextInputMessage content
  end.

(** ** Transformations for sending (lines 110-132) *)

Definition summarize_instruction : string :=
  "Summarize the following text briefly in 200 words or less:".

Definition transformUserMessageForSending (userMessage : loc) : M Sent :=
  m <- load userMessage ;;
  match msg_urlDetail m with
  | None => ret (SentRef userMessage)
  | Some _ =>
      ret (SentNew {| rm_role := msg_role m;
                      rm_content :=
                        Some (summarize_instruction +:+ blank_line
                              +:+ js_str (msg_content m)) |})
  end.

Definition transformAssistantMessageForSending (message : loc) : M Sent :=
  m <- load message ;;
  if String.eqb (msg_role m) "URL"
  then ret (SentNew {| rm_role := "assistant"; rm_content := msg_content m |})
  else ret (SentRef message).

(** [x.content] for an element of type [RequestMessage]. *)
Definition sent_content (x : Sent) : M (option string) :=
  match x with
  | SentRef l => m <- load l ;; ret (msg_content m)
  | SentNew m => ret (rm_content m)
  end.

(** ** The exchange (lines 147-257) *)

(** The variables captured by the four hooks. *)
Record Closure : Type := mkClosure {
  userMessage : loc;
  botMessage : loc;
  messageIndex : nat
}.

Definition override_of_request (message : RequestMessage) : Override :=
  {| o_id := None; o_date := None;
     o_role := Some (rm_role message);
     o_content := Some (rm_content message);
     o_streaming := None; o_isError := None; o_urlDetail := None |}.

(** Lines 212-218. *)
Definition onUpdate (cl : Closure) (message : string) : M unit :=
  modify (botMessage cl) (with_streaming true) ;;
  (match message with
   | EmptyString => ret tt
   | _ => modify (botMessage cl) (with_content (Some message))
   end) ;;
  s <- getSession ;;
  onUpdateMessages (messages s).

(** Lines 219-229; the value is what is assigned to [result]. *)
Definition onFinish (cl : Closure) (newMessages : list RequestMessage)
  : M CallResult :=
  newChatMessages <-
    mapM (fun message =>
            l <- createMessage (override_of_request message) ;;
            m <- load l ;;
            alloc m) newMessages ;;
  s <- getSession ;;
  assignMessages (js_slice (messages s) 0 (Some (-2)%Z) ++ newChatMessages) ;;
  s <- getSession ;;
  onUpdateMessages (messages s) ;;
  b <- load (botMessage cl) ;;
  remove (sid s) (msg_id b) ;;
  ret (ResArray (js_slice newChatMessages (-1) None)).

(** Lines 230-246. *)
Definition onError (cl : Closure) (error : Error) : M CallResult :=
  let isAborted := includes "aborted" (err_message error) in
  modify (botMessage cl)
    (fun b => with_content
                (Some (js_str (msg_content b) +:+ blank_line +:+
                       prettyObject {| eo_error := true;
                                       eo_message := err_message error |}))
                b) ;;
  modify (botMessage cl) (with_streaming false) ;;
  modify (userMessage cl) (with_isError (negb isAborted)) ;;
  modify (botMessage cl) (with_isError (negb isAborted)) ;;
  s <- getSession ;;
  onUpdateMessages (messages s) ;;
  b <- load (botMessage cl) ;;
  remove (sid s) (js_nullish (msg_id b) (JNum (Z.of_nat (messageIndex cl)))) ;;
  ret (ResMessage (botMessage cl)).

(** Lines 247-254. *)
Definition onController (cl : Closure) (controller : Controller) : M unit :=
  s <- getSession ;;
  b <- load (botMessage cl) ;;
  addController (sid s)
    (js_nullish (msg_id b) (JNum (Z.of_nat (messageIndex cl)))) controller.

Definition fire (cl : Closure) (result : CallResult) (ev : BackendEvent)
  : M CallResult :=
  match ev with
  | OnController c => onController cl c ;; ret result
  | OnUpdate message => onUpdate cl message ;; ret result
  | OnFinish newMessages => onFinish cl newMessages
  | OnError error => onError cl error
  end.

Fixpoint fire_all (cl : Closure) (result : CallResult)
  (events : list BackendEvent) : M CallResult :=
  match events with
  | [] => ret result
  | ev :: rest =>
      result' <- fire cl result ev ;;
      fire_all cl result' rest
  end.

(** Modelled from the spec: [LLMApi.chat] is imported from
    [../client/platforms/llm], which is missing here.  One call receives
    the request and fires the hooks the backend decides on, one after the
    other, before it settles; [backend] is that sequence of hooks. *)
Definition chat (req : ChatRequest) (cl : Closure) (backend : list BackendEvent)
  : M CallResult :=
  emit (EvChat req) ;;
  fire_all cl ResUndefined backend.

Definition user_override (content : string) : Override :=
  {| o_id := None; o_date := None; o_role := Some "user";
     o_content := Some (Some content);
     o_streaming := None; o_isError := None; o_urlDetail := None |}.

(** Lines 188-190: the messages after the last clear-context index, or all
    of them when the index is [undefined] or [0]. *)
Definition recentMessages (s : ChatSession) : list loc :=
  match clearContextIndex s with
  | None => messages s
  | Some 0%Z => messages s
  | Some k => js_slice (messages s) k None
  end.

Definition callSession (content : string) (uploadedFile : option FileWrap)
  (backend : list BackendEvent) : M CallResult :=
  s <- getSession ;;
  let modelConfig := modelConfig (bot s) in
  r <- createUserMessage content uploadedFile ;;
  match r with
  | inl error =>
      userMessage <- createMessage (user_override content) ;;
      u <- load userMessage ;;
      botMessage <-
        createMessage
          {| o_id := Some (js_add_one (msg_id u)); o_date := None;
             o_role := Some "assistant";
             o_content :=
               Some (Some (prettyObject
                       {| eo_error := true;
                          eo_message := js_or_str (err_message error)
                                          "Invalid user message" |}));
             o_streaming := None; o_isError := None; o_urlDetail := None |} ;;
      s <- getSession ;;
      assignMessages (messages s ++ [userMessage; botMessage]) ;;
      s <- getSession ;;
      onUpdateMessages (messages s) ;;
      ret (ResMessage botMessage)
  | inr userMessage =>
      botMessage <-
        createMessage
          {| o_id := None; o_date := None; o_role := Some "assistant";
             o_content := None; o_streaming := Some true;
             o_isError := None; o_urlDetail := None |} ;;
      s <- getSession ;;
      let contextPrompts := context (bot s) in
      let recentMessages := recentMessages s in
      transformed <- mapM transformAssistantMessageForSending recentMessages ;;
      let sendMessages := (SentRef <$> contextPrompts) ++ transformed in
      let messageIndex := length (messages s) + 1 in
      u <- load userMessage ;;
      savedUserMessage <- alloc (with_content (Some content) u) ;;
      assignMessages (messages s ++ [savedUserMessage; botMessage]) ;;
      s <- getSession ;;
      onUpdateMessages (messages s) ;;
      sending <- transformUserMessageForSending userMessage ;;
      message <- sent_content sending ;;
      chat {| req_message := message;
              req_chatHistory := sendMessages;
              req_config := <["stream" := JBool true]> modelConfig |}
           {| userMessage := userMessage; botMessage := botMessage;
              messageIndex := messageIndex |}
           backend
  end.

End Exchange.

(** ** Sessions (lines 48-55) *)

Section Sessions.

Context `{Collab : Collaborators}.

(** [createEmptyBot] is imported from [./bot], which is missing here: it is
    whatever computation builds the default bot. *)
Variable createEmptyBot : M Bot.

(** The session id is the next identifier of the generator; the default
    bot is only built when no bot is passed. *)
Definition createEmptySession (bot : option Bot) : M ChatSession :=
  n <- tick ;;
  b <- match bot with
       | Some b => ret b
       | None => createEmptyBot
       end ;;
  ret {| sid := nanoid n; messages := []; clearContextIndex := None; bot := b |}.

End Sessions.

(** [callSession(s, ...)]: the world in which [s] is the session the call
    works on. *)
Definition with_session (s : ChatSession) (w : World) : World :=
  {| heap := heap w; created := created w; session := s;
     pool := pool w; trace := trace w |}.

(** * Vocabulary of the statements *)

Section Vocabulary.

Context `{Collab : Collaborators}.

(** Every message the session and its bot refer to is allocated. *)
Definition wf (w : World) : Prop :=
  Forall (fun l => l < length (heap w)) (messages (session w)) /\
  Forall (fun l => l < length (heap w)) (context (bot (session w))).

Definition placeholder_override : Override :=
  {| o_id := None; o_date := None; o_role := Some "assistant";
     o_content := None; o_streaming := Some true;
     o_isError := None; o_urlDetail := None |}.

(** What a successful construction of the user message leaves behind: one
    new object, the next in the heap. *)
Definition built (w : World) (um : ChatMessage) (u : loc) (w1 : World) : Prop :=
  u = length (heap w) /\
  w1 = set_heap (heap w ++ [um]) (set_created (S (created w)) w) /\
  msg_id um = JStr (nanoid (created w)) /\
  msg_role um = "user" /\
  msg_streaming um = None /\
  msg_isError um = None.

(** How one history entry derives from the session message it stands
    for: the object itself, or a re-tagged copy when its role is [URL]. *)
Definition forwarded (h : list ChatMessage) (l : loc) (x : Sent) : Prop :=
  exists m, h !! l = Some m /\
            x = if String.eqb (msg_role m) "URL"
                then SentNew {| rm_role := "assistant";
                                rm_content := msg_content m |}
                else SentRef l.

Definition sending_closure (w : World) : Closure :=
  {| userMessage := length (heap w);
     botMessage := S (length (heap w));
     messageIndex := length (messages (session w)) + 1 |}.

Definition sending_messages (w : World) : list loc :=
  messages (session w) ++ [S (S (length (heap w))); S (length (heap w))].

Definition sending_request (w : World) (um : ChatMessage) (ts : list Sent)
  : ChatRequest :=
  {| req_message :=
       match msg_urlDetail um with
       | None => msg_content um
       | Some _ => Some (summarize_instruction +:+ blank_line
                         +:+ js_str (msg_content um))
       end;
     req_chatHistory := (SentRef <$> context (bot (session w))) ++ ts;
     req_config := <["stream" := JBool true]> (modelConfig (bot (session w))) |}.

Definition sending_world (w : World) (um : ChatMessage) (content : string)
  (ts : list Sent) : World :=
  {| heap := heap w ++ [um; message_literal (S (created w)) placeholder_override;
                        with_content (Some content) um];
     created := S (S (created w));
     session := session (set_messages (sending_messages w) w);
     pool := pool w;
     trace := trace w ++ [EvSetMessages (sending_messages w);
                          EvUpdateMessages (sending_messages w);
                          EvChat (sending_request w um ts)] |}.

Definition nonterminal (ev : BackendEvent) : Prop :=
  match ev with
  | OnController _ | OnUpdate _ => True
  | OnFinish _ | OnError _ => False
  end.

Definition controllers (events : list BackendEvent) : list Controller :=
  omap (fun ev => match ev with OnController c => Some c | _ => None end) events.

(** The calls to the controller pool within a trace. *)
Definition is_registry_op (e : Event) : bool :=
  match e with
  | EvAddController _ _ _ | EvRemove _ _ => true
  | _ => false
  end.

Definition registry_ops (t : list Event) : list Event :=
  List.filter is_registry_op t.

(** The key under which the hooks of a closure address the pool, given the
    placeholder as it is in the heap. *)
Definition registry_key (cl : Closure) (b : ChatMessage) : JsVal :=
  js_nullish (msg_id b) (JNum (Z.of_nat (messageIndex cl))).

(** The placeholder after one [onUpdate]. *)
Definition updated (message : string) (b : ChatMessage) : ChatMessage :=
  match message with
  | EmptyString => with_streaming true b
  | _ => with_content (Some message) (with_streaming true b)
  end.

(** What a run of non-terminal hooks may change: the placeholder's content
    and streaming flag, the pool entry of the exchange, and the trace. *)
Record streamed (cl : Closure) (b : ChatMessage) (pre : list BackendEvent)
  (w w' : World) : Prop := {
  streamed_session : session w' = session w;
  streamed_created : created w' = created w;
  streamed_length : length (heap w') = length (heap w);
  streamed_others : forall l, l <> botMessage cl -> heap w' !! l = heap w !! l;
  streamed_bot : exists b',
      heap w' !! botMessage cl = Some b' /\
      msg_id b' = msg_id b /\ msg_role b' = msg_role b /\
      msg_isError b' = msg_isError b;
  streamed_pool :
    pool w' = foldl (fun p c => <[(sid (session w), registry_key cl b) := c]> p)
                    (pool w) (controllers pre);
  streamed_trace : exists t,
      trace w' = trace w ++ t /\
      registry_ops t =
        EvAddController (sid (session w)) (registry_key cl b) <$> controllers pre /\
      Forall (fun e => e = EvUpdateMessages (messages (session w)) \/
                       exists c, e = EvAddController (sid (session w))
                                       (registry_key cl b) c) t
}.

(** The callback mapped over the messages returned by the backend (lines
    220-222). *)
Definition normalized_copy (message : RequestMessage) : M loc :=
  l <- createMessage (override_of_request message) ;;
  m <- load l ;;
  alloc m.

Definition normalizes (h : list ChatMessage) (l : loc) (message : RequestMessage)
  : Prop :=
  exists m, h !! l = Some m /\
            msg_role m = rm_role message /\
            msg_content m = rm_content message /\
            msg_streaming m = None /\ msg_isError m = None /\
            msg_urlDetail m = None.

(** The placeholder and the object named [userMessage] after [onError]. *)
Definition failed_bot (error : Error) (b : ChatMessage) : ChatMessage :=
  with_isError (negb (includes "aborted" (err_message error)))
    (with_streaming false
       (with_content
          (Some (js_str (msg_content b) +:+ blank_line +:+
                 prettyObject {| eo_error := true;
                                 eo_message := err_message error |})) b)).

Definition failed_user (error : Error) (u : ChatMessage) : ChatMessage :=
  with_isError (negb (includes "aborted" (err_message error))) u.

Definition is_chat (e : Event) : bool :=
  match e with
  | EvChat _ => true
  | _ => false
  end.

(** The two objects captured by the hooks are allocated and distinct. *)
Definition live (cl : Closure) (w : World) : Prop :=
  userMessage cl < length (heap w) /\
  botMessage cl < length (heap w) /\
  userMessage cl <> botMessage cl.

(** Hooks leave every other allocated object alone and never call the
    backend. *)
Definition extends_from (cl : Closure) (w w' : World) : Prop :=
  length (heap w) <= length (heap w') /\
  (forall l, l < length (heap w) -> l <> userMessage cl -> l <> botMessage cl ->
             heap w' !! l = heap w !! l) /\
  exists t, trace w' = trace w ++ t /\ Forall (fun e => is_chat e = false) t.

(** The error exchange of lines 163-178. *)
Definition error_user (w : World) (content : string) : ChatMessage :=
  message_literal (created w) (user_override content).

Definition error_bot (w : World) (content : string) (error : Error) : ChatMessage :=
  message_literal (S (created w))
    {| o_id := Some (js_add_one (msg_id (error_user w content)));
       o_date := None; o_role := Some "assistant";
       o_content :=
         Some (Some (prettyObject
                 {| eo_error := true;
                    eo_message := js_or_str (err_message error)
                                    "Invalid user message" |}));
       o_streaming := None; o_isError := None; o_urlDetail := None |}.

Definition error_messages (w : World) : list loc :=
  messages (session w) ++ [length (heap w); S (length (heap w))].

Definition error_world (w : World) (content : string) (error : Error) : World :=
  {| heap := heap w ++ [error_user w content; error_bot w content error];
     created := S (S (created w));
     session := session (set_messages (error_messages w) w);
     pool := pool w;
     trace := trace w ++ [EvSetMessages (error_messages w);
                          EvUpdateMessages (error_messages w)] |}.

(** The window of section 4.3: everything without a clear-context index,
    the messages from index [k] onward with one. *)
Definition window (s : ChatSession) : list loc :=
  match clearContextIndex s with
  | None => messages s
  | Some k => drop (Z.to_nat k) (messages s)
  end.

Definition placeholder (w : World) : ChatMessage :=
  message_literal (S (created w)) placeholder_override.

Definition terminal (ev : BackendEvent) : Prop :=
  match ev with
  | OnFinish _ | OnError _ => True
  | OnController _ | OnUpdate _ => False
  end.

(** The partial contents streamed by a sequence of hooks, in order. *)
Definition updates (events : list BackendEvent) : list string :=
  omap (fun ev => match ev with OnUpdate m => Some m | _ => None end) events.

Definition nonempty (s : string) : bool :=
  match s with
  | EmptyString => false
  | _ => true
  end.

(** The last partial content that is not the empty string, if any. *)
Definition last_partial (events : list BackendEvent) : option string :=
  last (List.filter nonempty (updates events)).

(** What one non-terminal hook adds to the trace, for the session list
    [ms] and the pool key [(s, key)]. *)
Definition stream_event (ms : list loc) (s : string) (key : JsVal)
  (ev : BackendEvent) : list Event :=
  match ev with
  | OnController c => [EvAddController s key c]
  | OnUpdate _ => [EvUpdateMessages ms]
  | OnFinish _ | OnError _ => []
  end.

Definition stream_events (ms : list loc) (s : string) (key : JsVal)
  (events : list BackendEvent) : list Event :=
  List.flat_map (stream_event ms s key) events.

(** The placeholder after the updates of a sequence of hooks. *)
Definition bot_after (events : list BackendEvent) (b : ChatMessage)
  : ChatMessage :=
  foldl (fun b ev => match ev with OnUpdate m => updated m b | _ => b end)
        b events.

(** The world after a sequence of non-terminal hooks. *)
Definition streaming_world (cl : Closure) (b : ChatMessage)
  (events : list BackendEvent) (w : World) : World :=
  {| heap := <[botMessage cl := bot_after events b]> (heap w);
     created := created w;
     session := session w;
     pool := foldl (fun p c => <[(sid (session w), registry_key cl b) := c]> p)
                   (pool w) (controllers events);
     trace := trace w ++ stream_events (messages (session w)) (sid (session w))
                           (registry_key cl b) events |}.

(** A pool operation on the entry [(s, key)]; any other event qualifies. *)
Definition own_op (s : string) (key : JsVal) (e : Event) : Prop :=
  match e with
  | EvAddController s' k _ | EvRemove s' k => s' = s /\ k = key
  | _ => True
  end.

(** What every hook keeps, relative to the world [w0] in which the backend
    was called: the settings of the session, the objects other than the two
    captured ones, the allocation of the session's messages, the
    placeholder's id [i], the pool entries of other exchanges. *)
Record kept (cl : Closure) (i : string) (w0 w : World) : Prop := {
  kept_live : live cl w;
  kept_sid : sid (session w) = sid (session w0);
  kept_index : clearContextIndex (session w) = clearContextIndex (session w0);
  kept_bot : bot (session w) = bot (session w0);
  kept_created : created w0 <= created w;
  kept_length : length (heap w0) <= length (heap w);
  kept_heap : forall l, l < length (heap w0) -> l <> userMessage cl ->
                        l <> botMessage cl -> heap w !! l = heap w0 !! l;
  kept_allocated : Forall (fun l => l < length (heap w)) (messages (session w));
  kept_id : exists b, heap w !! botMessage cl = Some b /\ msg_id b = JStr i;
  kept_pool : forall k, k <> (sid (session w0), JStr i) ->
                        pool w !! k = pool w0 !! k;
  kept_trace : exists t,
      trace w = trace w0 ++ t /\
      Forall (fun e => is_chat e = false) t /\
      Forall (own_op (sid (session w0)) (JStr i)) t
}.

(** How a session message is passed on in the history: as the object it
    is when its role is not [URL], and otherwise as a new object with role
    [assistant] and the same content. *)
Definition passed_on (h : list ChatMessage) (l : loc) (x : Sent) : Prop :=
  exists m, h !! l = Some m /\
            (msg_role m <> "URL" /\ x = SentRef l \/
             msg_role m = "URL" /\
             x = SentNew {| rm_role := "assistant";
                            rm_content := msg_content m |}).

End Vocabulary.

(** ** A concrete set of collaborators, for running the model *)

Definition demo_pretty (o : ErrorObject) : string :=
  "{error: " +:+ (if eo_error o then "true" else "false") +:+
  ", message: " +:+ eo_message o +:+ "}".

Definition demo_fetch (url : string) : Error + URLDetailContent :=
  if String.eqb url "https://down.example" then
    inl {| err_message := "fetch failed" |}
  else
    inr {| ud_url := url; ud_size := 120; ud_type := TextHtml;
           ud_content := Some "ARTICLE BODY" |}.

Definition demo_file (mime : MimeType) (f : FileWrap) : Error + URLDetailContent :=
  inr {| ud_url := file_name f; ud_size := 42; ud_type := mime;
         ud_content := Some "FILE BODY" |}.

Definition demo_id (n : nat) : string :=
  String (ascii_of_nat (97 + n)) "id".

Definition demo : Collaborators :=
  {| nanoid := demo_id;
     localeDate := fun _ => "1/1/2024, 12:00:00 AM";
     prettyObject := demo_pretty;
     isURL := String.prefix "http";
     fetchSiteContent := demo_fetch;
     pdfFileDetail := demo_file ApplicationPdf;
     plainTextFileDetail := demo_file TextPlain |}.

Definition helpful : ChatMessage :=
  {| msg_id := JStr "ctx"; msg_date := "1/1/2024, 12:00:00 AM";
     msg_role := "system"; msg_content := Some "You are helpful.";
     msg_streaming := None; msg_isError := None; msg_urlDetail := None |}.

(** A session with empty history whose bot has one context prompt. *)
Definition w_empty : World :=
  {| heap := [helpful]; created := 0;
     session := {| sid := "S"; messages := []; clearContextIndex := None;
                   bot := {| context := [0]; modelConfig := ∅ |} |};
     pool := ∅; trace := [] |}.

Definition hello_reply : list RequestMessage :=
  [ {| rm_role := "user"; rm_content := Some "hello" |};
    {| rm_role := "assistant"; rm_content := Some "hi there" |} ].

(** A session with some history: a question, a page whose role is [URL],
    an answer; the context was cleared after the first message. *)
Definition greeting : ChatMessage :=
  {| msg_id := JStr "m1"; msg_date := "1/1/2024, 12:00:00 AM";
     msg_role := "user"; msg_content := Some "hi";
     msg_streaming := None; msg_isError := None; msg_urlDetail := None |}.

Definition page : ChatMessage :=
  {| msg_id := JStr "m2"; msg_date := "1/1/2024, 12:00:00 AM";
     msg_role := "URL"; msg_content := Some "PAGE TEXT";
     msg_streaming := None; msg_isError := None; msg_urlDetail := None |}.

Definition answer : ChatMessage :=
  {| msg_id := JStr "m3"; msg_date := "1/1/2024, 12:00:00 AM";
     msg_role := "assistant"; msg_content := Some "ok";
     msg_streaming := None; msg_isError := None; msg_urlDetail := None |}.

Definition w_chat : World :=
  {| heap := [helpful; greeting; page; answer]; created := 0;
     session := {| sid := "S"; messages := [1; 2; 3];
                   clearContextIndex := Some 1%Z;
                   bot := {| context := [0];
                             modelConfig := {["model" := JStr "gpt-4"]} |} |};
     pool := ∅; trace := [] |}.

(** [w_chat] once the user message for the input "hello" is built. *)
Definition w_chat_hello : World :=
  set_heap (heap w_chat ++ [message_literal (Collab := demo) 0 (user_override "hello")])
           (set_created 1 w_chat).

Definition article_url : string := "https://a.example".

Definition article : URLDetailContent :=
  {| ud_url := article_url; ud_size := 120; ud_type := TextHtml;
     ud_content := Some "ARTICLE BODY" |}.

Definition docx : FileWrap := {| extension := "docx"; file_name := "notes.docx" |}.

Definition streaming_hooks : list BackendEvent :=
  [OnController 7; OnUpdate "hi"].

Definition aborted_error : Error :=
  {| err_message := "The user aborted a request." |}.

(** Further inputs for running the model. *)
Definition mixed_hooks : list BackendEvent :=
  [OnController 7; OnUpdate "par"; OnUpdate EmptyString; OnController 8;
   OnUpdate "partial"; OnUpdate EmptyString].

Definition report : FileWrap := {| extension := "pdf"; file_name := "report.pdf" |}.

Definition report_detail : URLDetailContent :=
  {| ud_url := "report.pdf"; ud_size := 42; ud_type := ApplicationPdf;
     ud_content := Some "FILE BODY" |}.

Definition fetch_failed : Error := {| err_message := "fetch failed" |}.

(** [w_chat] with the context cleared after its last message. *)
Definition w_cleared : World :=
  with_session {| sid := "S"; messages := [1; 2; 3];
                  clearContextIndex := Some 3%Z;
                  bot := bot (session w_chat) |} w_chat.

Definition w_cleared_hello : World :=
  set_heap (heap w_cleared ++ [message_literal (Collab := demo) 0 (user_override "hello")])
           (set_created 1 w_cleared).

Definition w_empty_hello : World :=
  set_heap (heap w_empty ++ [message_literal (Collab := demo) 0 (user_override "hello")])
           (set_created 1 w_empty).

Definition helpful_bot : Bot := {| context := [0]; modelConfig := ∅ |}.

Definition default_bot : M Bot := ret {| context := []; modelConfig := ∅ |}.

(** * Properties *)

Section Facts.

Context `{Collab : Collaborators}.

(** ** The JavaScript operators on small inputs *)

Example slice_from_index : js_slice [10; 11; 12; 13] 1 None = [11; 12; 13].
Proof. reflexivity. Qed.

Example slice_without_pair : js_slice [10; 11; 12; 13] 0 (Some (-2)%Z) = [10; 11].
Proof. reflexivity. Qed.

Example slice_without_pair_short : js_slice [10] 0 (Some (-2)%Z) = [].
Proof. reflexivity. Qed.

Example slice_last_one : js_slice [10; 11; 12] (-1) None = [12].
Proof. reflexivity. Qed.

Example slice_last_of_none : js_slice (A := nat) [] (-1) None = [].
Proof. reflexivity. Qed.

Example includes_marker : includes "aborted" "The user aborted a request." = true.
Proof. reflexivity. Qed.

Example includes_no_marker : includes "aborted" "network failure" = false.
Proof. reflexivity. Qed.

Example add_one_to_string : js_add_one (JStr "V1StGX") = JStr "V1StGX1".
Proof. reflexivity. Qed.

Example empty_message_is_falsy :
  js_or_str EmptyString "Invalid user message"
  = "Invalid user message".
Proof. reflexivity. Qed.

(** ** Well-formed worlds and elementary runs *)

Lemma createMessage_run (o : Override) (w : World) :
  createMessage o w =
  Some (length (heap w),
        set_heap (heap w ++ [message_literal (created w) o])
                 (set_created (S (created w)) w)).
Proof. reflexivity. Qed.

Lemma lookup_snoc_here {A : Type} (l : list A) (x : A) :
  (l ++ [x]) !! length l = Some x.
Proof. rewrite lookup_app_r by lia. by rewrite Nat.sub_diag. Qed.

Lemma load_hit (l : loc) (m : ChatMessage) (w : World) :
  heap w !! l = Some m -> load l w = Some (m, w).
Proof. intros Hl. unfold load. by rewrite Hl. Qed.

Lemma modify_hit (l : loc) (f : ChatMessage -> ChatMessage) (m : ChatMessage)
  (w : World) :
  heap w !! l = Some m ->
  modify l f w = Some (tt, set_heap (<[l := f m]> (heap w)) w).
Proof. intros Hl. unfold modify. by rewrite Hl. Qed.

Lemma createUserMessage_inr (content : string) (file : option FileWrap)
  (w w1 : World) (u : loc) :
  createUserMessage content file w = Some (inr u, w1) ->
  exists um, built w um u w1.
Proof.
  unfold createUserMessage, createFileInputMessage, createTextInputMessage.
  destruct file as [f|].
  - destruct (getDetailContentFromFile f) as [e|d]; [discriminate|].
    unfold bind. rewrite createMessage_run. intros [= <- <-].
    eexists. by repeat split.
  - destruct (isURL content).
    + destruct (fetchSiteContent content) as [e|d]; [discriminate|].
      unfold bind. rewrite createMessage_run. intros [= <- <-].
      eexists. by repeat split.
    + unfold bind. rewrite createMessage_run. intros [= <- <-].
      eexists. by repeat split.
Qed.

Lemma createUserMessage_inl (content : string) (file : option FileWrap)
  (w w1 : World) (e : Error) :
  createUserMessage content file w = Some (inl e, w1) -> w1 = w.
Proof.
  unfold createUserMessage, createFileInputMessage, createTextInputMessage.
  destruct file as [f|].
  - destruct (getDetailContentFromFile f) as [e'|d]; [by intros [= _ <-]|].
    unfold bind. rewrite createMessage_run. discriminate.
  - destruct (isURL content).
    + destruct (fetchSiteContent content) as [e'|d]; [by intros [= _ <-]|].
      unfold bind. rewrite createMessage_run. discriminate.
    + unfold bind. rewrite createMessage_run. discriminate.
Qed.

(** Re-tagging reads one allocated message and writes nothing, so its
    outcome is the same in every world that extends the heap. *)
Lemma transform_history_stable (ls : list loc) (w : World) :
  Forall (fun l => l < length (heap w)) ls ->
  exists ts,
    forall w', (exists ext, heap w' = heap w ++ ext) ->
      mapM transformAssistantMessageForSending ls w' = Some (ts, w').
Proof.
  induction 1 as [|l ls Hl _ [ts IH]].
  - by exists [].
  - destruct (lookup_lt_is_Some_2 _ _ Hl) as [m Hm].
    exists ((if String.eqb (msg_role m) "URL"
             then SentNew {| rm_role := "assistant"; rm_content := msg_content m |}
             else SentRef l) :: ts).
    intros w' [ext Hext]. cbn [mapM]. unfold bind at 1.
    unfold transformAssistantMessageForSending at 1. unfold bind at 1.
    rewrite (load_hit l m).
    2:{ rewrite Hext. by apply lookup_app_l_Some. }
    destruct (String.eqb (msg_role m) "URL"); cbn [ret];
      unfold bind; (rewrite IH by eauto); reflexivity.
Qed.

Lemma transform_history_sources (ls : list loc) (ts : list Sent) (w w' : World) :
  mapM transformAssistantMessageForSending ls w = Some (ts, w') ->
  Forall2 (forwarded (heap w)) ls ts.
Proof.
  revert ts. induction ls as [|l ls IH]; intros ts.
  - intros [= <- _]. constructor.
  - cbn [mapM]. unfold bind at 1.
    unfold transformAssistantMessageForSending at 1. unfold bind at 1.
    unfold load. destruct (heap w !! l) as [m|] eqn:Hm; [|discriminate].
    assert (Hstep : forall x : Sent,
               x = (if String.eqb (msg_role m) "URL"
                    then SentNew {| rm_role := "assistant";
                                    rm_content := msg_content m |}
                    else SentRef l) ->
               (ys <- mapM transformAssistantMessageForSending ls ;; ret (x :: ys)) w
               = Some (ts, w') ->
               Forall2 (forwarded (heap w)) (l :: ls) ts).
    { intros x Hx. unfold bind.
      destruct (mapM transformAssistantMessageForSending ls w)
        as [[ts' w'']|] eqn:E; [|discriminate].
      intros [= <- <-]. constructor; [by exists m|]. by apply IH. }
    destruct (String.eqb (msg_role m) "URL"); cbn [ret]; by apply Hstep.
Qed.

(** ** The state in which the backend is called *)

Lemma world_eq (w1 w2 : World) :
  heap w1 = heap w2 -> created w1 = created w2 -> session w1 = session w2 ->
  pool w1 = pool w2 -> trace w1 = trace w2 -> w1 = w2.
Proof. destruct w1, w2. cbn. by intros -> -> -> -> ->. Qed.

Lemma callSession_sending (content : string) (file : option FileWrap)
  (w w1 : World) (um : ChatMessage) (u : loc) (ts : list Sent) :
  createUserMessage content file w = Some (inr u, w1) ->
  built w um u w1 ->
  (forall w', (exists ext, heap w' = heap w ++ ext) ->
     mapM transformAssistantMessageForSending (recentMessages (session w)) w'
     = Some (ts, w')) ->
  forall backend,
    callSession content file backend w =
    fire_all (sending_closure w) ResUndefined backend
             (sending_world w um content ts).
Proof.
  intros Hc Hb Hts backend. destruct Hb as (-> & -> & Hid & Hrole & Hstr & Herr).
  unfold callSession. unfold bind at 1. cbn [getSession].
  unfold bind at 1. rewrite Hc.
  unfold bind at 1. rewrite createMessage_run.
  cbn [set_heap set_created heap created session pool trace].
  unfold bind at 1.
  cbn [getSession set_heap set_created heap created session pool trace].
  unfold bind at 1. rewrite Hts.
  2:{ exists [um; message_literal (S (created w)) placeholder_override].
      cbn [heap set_heap]. by rewrite <- app_assoc. }
  unfold bind at 1. rewrite (load_hit (length (heap w)) um).
  2:{ cbn [heap set_heap]. rewrite <- app_assoc. by apply list_lookup_middle. }
  unfold bind at 1.
  cbn [alloc set_heap set_created heap created session pool trace].
  unfold bind at 1.
  cbn [assignMessages log set_messages set_heap set_created heap created
       session pool trace].
  unfold bind at 1.
  cbn [getSession log set_messages set_heap set_created heap created session
       pool trace messages].
  unfold bind at 1.
  cbn [onUpdateMessages emit log set_messages set_heap set_created heap
       created session pool trace messages].
  match goal with |- _ ?w2 = _ => set (sent := w2) end.
  assert (Hu : heap sent !! length (heap w) = Some um).
  { subst sent. cbn [heap log set_messages set_heap].
    rewrite <- !app_assoc. by apply list_lookup_middle. }
  assert (Hsent : log (EvChat (sending_request w um ts)) sent
                  = sending_world w um content ts).
  { apply world_eq; subst sent;
      cbn [heap created session pool trace log set_messages set_heap
           set_created sending_world sending_messages sid messages
           clearContextIndex bot];
      rewrite ?length_app; cbn [length];
      rewrite ?Nat.add_1_r, <- ?app_assoc; reflexivity. }
  assert (Hcl : {| userMessage := length (heap w);
                   botMessage := length (heap w ++ [um]);
                   messageIndex := length (messages (session w)) + 1 |}
                = sending_closure w).
  { unfold sending_closure. by rewrite length_app, Nat.add_1_r. }
  rewrite Hcl. clearbody sent.
  unfold bind at 1. unfold transformUserMessageForSending. unfold bind at 1.
  rewrite (load_hit _ um) by done. unfold sending_request in Hsent.
  destruct (msg_urlDetail um) as [d|]; cbn [ret].
  - unfold bind at 1. cbn [sent_content ret rm_content].
    unfold chat, bind, emit. by rewrite Hsent.
  - unfold bind at 1. cbn [sent_content]. unfold bind at 1.
    rewrite (load_hit _ um) by done. cbn [ret].
    unfold chat, bind, emit. by rewrite Hsent.
Qed.

(** ** The streaming phase: hooks fired before the terminal one *)

Lemma onUpdate_run (cl : Closure) (message : string) (b : ChatMessage)
  (w : World) :
  heap w !! botMessage cl = Some b ->
  onUpdate cl message w =
  Some (tt, log (EvUpdateMessages (messages (session w)))
              (set_heap (<[botMessage cl := updated message b]> (heap w)) w)).
Proof.
  intros Hb. pose proof (lookup_lt_Some _ _ _ Hb) as Hlt.
  unfold onUpdate. unfold bind at 1. rewrite (modify_hit _ _ b) by done.
  unfold bind at 1. destruct message as [|a message]; cbn [ret updated].
  - reflexivity.
  - rewrite (modify_hit _ _ (with_streaming true b)).
    2:{ cbn [heap set_heap]. by apply list_lookup_insert_eq. }
    unfold bind, getSession, onUpdateMessages, emit.
    cbn [heap set_heap session]. rewrite list_insert_insert_eq. reflexivity.
Qed.

Lemma onController_run (cl : Closure) (c : Controller) (b : ChatMessage)
  (w : World) :
  heap w !! botMessage cl = Some b ->
  onController cl c w =
  Some (tt, log (EvAddController (sid (session w)) (registry_key cl b) c)
              (set_pool (<[(sid (session w), registry_key cl b) := c]> (pool w)) w)).
Proof.
  intros Hb. unfold onController, bind, getSession.
  by rewrite (load_hit _ b).
Qed.

Lemma fire_all_streamed (cl : Closure) (pre : list BackendEvent) :
  Forall nonterminal pre ->
  forall (w : World) (b : ChatMessage) (r : CallResult),
    heap w !! botMessage cl = Some b ->
    exists w', fire_all cl r pre w = Some (r, w') /\ streamed cl b pre w w'.
Proof.
  induction 1 as [|ev pre Hev _ IH]; intros w b r Hb.
  - exists w. split; [done|]. split; try done.
    + by exists b.
    + exists []. by rewrite app_nil_r.
  - pose proof (lookup_lt_Some _ _ _ Hb) as Hlt.
    destruct ev as [c|message| |]; try done.
    + (* onController *)
      destruct (IH (log (EvAddController (sid (session w)) (registry_key cl b) c)
                      (set_pool (<[(sid (session w), registry_key cl b) := c]> (pool w)) w))
                   b r Hb) as (w' & Hrun & [Hs Hc Hl Ho (b' & Hb' & Hb'id) Hp (t & Ht & Hops & Hall)]).
      exists w'. split.
      { cbn [fire_all fire]. unfold bind at 1. unfold bind at 1.
        rewrite (onController_run _ _ b) by done. exact Hrun. }
      split; try done.
      * by exists b'.
      * eexists (_ :: t). split; [|split].
        -- rewrite Ht. cbn [trace log set_pool]. by rewrite <- app_assoc.
        -- cbn [controllers omap list_omap fmap list_fmap registry_ops
                   List.filter is_registry_op].
           f_equal. exact Hops.
        -- constructor; [right; by eexists|]. exact Hall.
    + (* onUpdate *)
      destruct (IH (log (EvUpdateMessages (messages (session w)))
                      (set_heap (<[botMessage cl := updated message b]> (heap w)) w))
                   (updated message b) r) as (w' & Hrun & [Hs Hc Hl Ho (b' & Hb' & Hb'id) Hp (t & Ht & Hops & Hall)]).
      { cbn [heap log set_heap]. by apply list_lookup_insert_eq. }
      assert (Hkey : registry_key cl (updated message b) = registry_key cl b).
      { unfold registry_key. by destruct message. }
      rewrite Hkey in *.
      exists w'. split.
      { cbn [fire_all fire]. unfold bind at 1. unfold bind at 1.
        rewrite (onUpdate_run _ _ b) by done. exact Hrun. }
      split; try done.
      * rewrite Hl. cbn [heap log set_heap]. by rewrite length_insert.
      * intros l Hne. rewrite Ho by done. cbn [heap log set_heap].
        by rewrite list_lookup_insert_ne.
      * exists b'. split; [done|]. destruct Hb'id as (-> & -> & ->).
        by destruct message.
      * eexists (_ :: t). split; [|split].
        -- rewrite Ht. cbn [trace log set_heap]. by rewrite <- app_assoc.
        -- exact Hops.
        -- constructor; [by left|]. exact Hall.
Qed.

Lemma fire_all_app (cl : Closure) (pre post : list BackendEvent)
  (r : CallResult) (w : World) :
  fire_all cl r (pre ++ post) w =
  match fire_all cl r pre w with
  | Some (r', w') => fire_all cl r' post w'
  | None => None
  end.
Proof.
  revert r w. induction pre as [|ev pre IH]; intros r w; [done|].
  cbn [app fire_all]. unfold bind.
  destruct (fire cl r ev w) as [[r' w']|]; [apply IH|done].
Qed.

(** ** [slice] at the three call shapes of the source *)

Lemma js_slice_from {A : Type} (l : list A) (k : Z) :
  (0 <= k)%Z -> js_slice l k None = drop (Z.to_nat k) l.
Proof.
  intros Hk. unfold js_slice, rel_index.
  destruct (Z.ltb_spec k 0); [lia|].
  destruct (Nat.min_spec (Z.to_nat k) (length l)) as [[Hlt ->]|[Hge ->]].
  - rewrite take_ge; [done|]. rewrite length_drop. lia.
  - rewrite Nat.sub_diag, take_0. by rewrite drop_ge by lia.
Qed.

Lemma js_slice_without_last_two {A : Type} (l : list A) :
  js_slice l 0 (Some (-2)%Z) = take (length l - 2) l.
Proof.
  unfold js_slice, rel_index. cbn [Z.ltb Z.compare Z.to_nat Nat.min drop].
  rewrite Nat.sub_0_r. f_equal. lia.
Qed.

Lemma js_slice_drops_pair {A : Type} (l : list A) (x y : A) :
  js_slice (l ++ [x; y]) 0 (Some (-2)%Z) = l.
Proof.
  rewrite js_slice_without_last_two, length_app. cbn [length].
  replace (length l + 2 - 2) with (length l) by lia.
  by rewrite take_app_length.
Qed.

Lemma js_slice_last {A : Type} (l : list A) :
  js_slice l (-1) None = match last l with Some x => [x] | None => [] end.
Proof.
  unfold js_slice, rel_index. cbn [Z.ltb Z.compare].
  destruct l as [|a l _] using rev_ind; [done|].
  rewrite last_snoc, length_app. cbn [length].
  replace (Z.to_nat (Z.max (Z.of_nat (length l + 1) + -1) 0)) with (length l) by lia.
  rewrite drop_app_length. by replace (length l + 1 - length l) with 1 by lia.
Qed.

(** ** The terminal hooks *)

Lemma normalized_copy_run (message : RequestMessage) (w : World) :
  normalized_copy message w =
  Some (S (length (heap w)),
        set_heap (heap w ++ [message_literal (created w) (override_of_request message);
                             message_literal (created w) (override_of_request message)])
                 (set_created (S (created w)) w)).
Proof.
  unfold normalized_copy. unfold bind at 1. rewrite createMessage_run.
  unfold bind at 1.
  rewrite (load_hit _ (message_literal (created w) (override_of_request message))).
  2:{ cbn [heap set_heap]. apply lookup_snoc_here. }
  unfold alloc. cbn [heap set_heap set_created created session pool trace].
  rewrite length_app, <- app_assoc. cbn [length app].
  by replace (length (heap w) + 1) with (S (length (heap w))) by lia.
Qed.

Lemma normalized_all_run (newMessages : list RequestMessage) (w : World) :
  exists news w1,
    mapM normalized_copy newMessages w = Some (news, w1) /\
    length news = length newMessages /\
    created w1 = created w + length newMessages /\
    session w1 = session w /\ pool w1 = pool w /\ trace w1 = trace w /\
    (exists ext, heap w1 = heap w ++ ext) /\
    Forall (fun l => length (heap w) <= l) news /\
    Forall2 (normalizes (heap w1)) news newMessages.
Proof.
  revert w. induction newMessages as [|message rest IH]; intros w.
  - exists [], w. split; [done|]. split; [done|].
    split; [cbn [length]; lia|]. split; [done|]. split; [done|].
    split; [done|]. split; [exists []; by rewrite app_nil_r|].
    split; constructor.
  - set (m := message_literal (created w) (override_of_request message)).
    destruct (IH (set_heap (heap w ++ [m; m]) (set_created (S (created w)) w)))
      as (news & w1 & Hrun & Hlen & Hcr & Hs & Hp & Ht & [ext Hext] & Hfresh & Hnorm).
    cbn [heap set_heap set_created created session pool trace] in *.
    exists (S (length (heap w)) :: news), w1.
    split; [|repeat split].
    + cbn [mapM]. unfold bind at 1. rewrite normalized_copy_run.
      fold m. unfold bind at 1. by rewrite Hrun.
    + cbn [length]. by rewrite Hlen.
    + rewrite Hcr. cbn [length]. lia.
    + done.
    + done.
    + done.
    + exists ([m; m] ++ ext). by rewrite Hext, <- app_assoc.
    + constructor; [lia|]. eapply Forall_impl; [exact Hfresh|].
      intros l. cbn beta. rewrite length_app. lia.
    + constructor; [|done]. exists m. split; [|done].
      rewrite Hext, <- app_assoc.
      rewrite lookup_app_r by lia.
      by replace (S (length (heap w)) - length (heap w)) with 1 by lia.
Qed.

Lemma onFinish_run (cl : Closure) (newMessages : list RequestMessage)
  (b : ChatMessage) (w : World) :
  heap w !! botMessage cl = Some b ->
  exists news w1 replaced,
    replaced = js_slice (messages (session w)) 0 (Some (-2)%Z) ++ news /\
    length news = length newMessages /\
    created w1 = created w + length newMessages /\
    (exists ext, heap w1 = heap w ++ ext) /\
    Forall2 (normalizes (heap w1)) news newMessages /\
    onFinish cl newMessages w =
    Some (ResArray (js_slice news (-1) None),
          {| heap := heap w1; created := created w1;
             session := session (set_messages replaced w);
             pool := delete (sid (session w), msg_id b) (pool w);
             trace := trace w ++ [EvSetMessages replaced;
                                  EvUpdateMessages replaced;
                                  EvRemove (sid (session w)) (msg_id b)] |}).
Proof.
  intros Hb.
  destruct (normalized_all_run newMessages w)
    as (news & w1 & Hrun & Hlen & Hcr & Hs & Hp & Ht & [ext Hext] & Hfresh & Hnorm).
  exists news, w1, (js_slice (messages (session w)) 0 (Some (-2)%Z) ++ news).
  split; [done|]. split; [done|]. split; [done|]. split; [by exists ext|].
  split; [done|].
  unfold onFinish. unfold bind at 1.
  change (mapM _ newMessages w) with (mapM normalized_copy newMessages w).
  rewrite Hrun. unfold bind at 1. cbn [getSession].
  unfold bind at 1. cbn [assignMessages].
  unfold bind at 1. cbn [getSession].
  unfold bind at 1. cbn [onUpdateMessages emit].
  unfold bind at 1. rewrite (load_hit _ b).
  2:{ cbn [heap log set_messages]. rewrite Hext. by apply lookup_app_l_Some. }
  unfold bind, remove, ret, log, set_pool, set_messages.
  cbn [heap created session pool trace sid messages clearContextIndex bot].
  rewrite Hs, Hp, Ht, <- !app_assoc. reflexivity.
Qed.

Lemma onError_run (cl : Closure) (error : Error) (b u : ChatMessage) (w : World) :
  heap w !! botMessage cl = Some b ->
  heap w !! userMessage cl = Some u ->
  userMessage cl <> botMessage cl ->
  onError cl error w =
  Some (ResMessage (botMessage cl),
        log (EvRemove (sid (session w)) (registry_key cl b))
          (set_pool (delete (sid (session w), registry_key cl b) (pool w))
             (log (EvUpdateMessages (messages (session w)))
                (set_heap (<[botMessage cl := failed_bot error b]>
                             (<[userMessage cl := failed_user error u]> (heap w)))
                          w)))).
Proof.
  intros Hb Hu Hne.
  pose proof (lookup_lt_Some _ _ _ Hb) as Hltb.
  pose proof (lookup_lt_Some _ _ _ Hu) as Hltu.
  unfold onError. unfold bind at 1. rewrite (modify_hit _ _ b) by done.
  unfold bind at 1. erewrite modify_hit.
  2:{ cbn [heap set_heap]. by apply list_lookup_insert_eq. }
  cbn [heap set_heap]. rewrite list_insert_insert_eq.
  unfold bind at 1. rewrite (modify_hit _ _ u).
  2:{ cbn [heap set_heap]. by rewrite list_lookup_insert_ne. }
  cbn [heap set_heap].
  unfold bind at 1. erewrite modify_hit.
  2:{ cbn [heap set_heap]. rewrite list_lookup_insert_ne by done.
      by apply list_lookup_insert_eq. }
  cbn [heap set_heap].
  unfold bind at 1. cbn [getSession]. unfold bind at 1.
  cbn [onUpdateMessages emit]. unfold bind at 1. erewrite load_hit.
  2:{ cbn [heap log set_heap]. apply list_lookup_insert_eq.
      by rewrite !length_insert. }
  unfold bind, remove, ret. cbn [session log set_heap sid messages pool].
  rewrite (list_insert_insert_ne _ (userMessage cl) (botMessage cl)) by done.
  rewrite list_insert_insert_eq. reflexivity.
Qed.

(** ** Any sequence of hooks runs to completion *)

Lemma extends_from_refl (cl : Closure) (w : World) : extends_from cl w w.
Proof.
  split; [done|]. split; [done|]. exists []. by rewrite app_nil_r.
Qed.

Lemma extends_from_trans (cl : Closure) (w1 w2 w3 : World) :
  extends_from cl w1 w2 -> extends_from cl w2 w3 -> extends_from cl w1 w3.
Proof.
  intros (Hl1 & Ho1 & t1 & Ht1 & Hc1) (Hl2 & Ho2 & t2 & Ht2 & Hc2).
  split; [lia|]. split.
  - intros l Hl Hu Hb. rewrite Ho2 by (done || lia). by apply Ho1.
  - exists (t1 ++ t2). split; [by rewrite Ht2, Ht1, app_assoc|].
    by apply Forall_app.
Qed.

Lemma fire_total (cl : Closure) (r : CallResult) (ev : BackendEvent) (w : World) :
  live cl w ->
  exists r' w', fire cl r ev w = Some (r', w') /\ live cl w' /\ extends_from cl w w'.
Proof.
  intros (Hu & Hb & Hne).
  destruct (lookup_lt_is_Some_2 _ _ Hu) as [um Hum].
  destruct (lookup_lt_is_Some_2 _ _ Hb) as [bm Hbm].
  destruct ev as [c|message|newMessages|error]; cbn [fire].
  - unfold bind. rewrite (onController_run _ _ bm) by done.
    do 2 eexists. split; [done|]. split; [done|].
    split; [done|]. split; [done|].
    eexists [_]. split; [done|]. by constructor.
  - unfold bind. rewrite (onUpdate_run _ _ bm) by done.
    do 2 eexists. split; [done|].
    unfold live, extends_from.
    cbn [heap log set_heap trace]. rewrite !length_insert.
    split; [done|]. split; [done|].
    split; [intros l _ _ Hlb; by rewrite list_lookup_insert_ne|].
    eexists [_]. split; [done|]. by constructor.
  - destruct (onFinish_run cl newMessages bm w Hbm)
      as (news & w1 & replaced & _ & _ & _ & [ext Hext] & _ & ->).
    do 2 eexists. split; [done|].
    unfold live, extends_from.
    cbn [heap trace].
    rewrite Hext, length_app.
    split; [repeat split; (lia || done)|].
    split; [lia|].
    split; [intros l Hl _ _; by rewrite lookup_app_l|].
    eexists [_; _; _]. split; [done|].
    by repeat constructor.
  - rewrite (onError_run _ _ bm um) by done.
    do 2 eexists. split; [done|].
    unfold live, extends_from.
    cbn [heap log set_heap set_pool trace]. rewrite !length_insert.
    split; [done|]. split; [done|].
    split; [intros l _ Hlu Hlb; by rewrite !list_lookup_insert_ne|].
    eexists [_; _]. split; [by rewrite <- !app_assoc|].
    by repeat constructor.
Qed.

Lemma fire_all_total (cl : Closure) (events : list BackendEvent) :
  forall (r : CallResult) (w : World),
    live cl w ->
    exists r' w', fire_all cl r events w = Some (r', w') /\
                  live cl w' /\ extends_from cl w w'.
Proof.
  induction events as [|ev events IH]; intros r w Hlive.
  - exists r, w. split; [done|]. split; [done|]. apply extends_from_refl.
  - destruct (fire_total cl r ev w Hlive) as (r1 & w1 & Hrun1 & Hlive1 & Hext1).
    destruct (IH r1 w1 Hlive1) as (r2 & w2 & Hrun2 & Hlive2 & Hext2).
    exists r2, w2. split; [|split; [done|by eapply extends_from_trans]].
    cbn [fire_all]. unfold bind. by rewrite Hrun1.
Qed.

(** ** From the call to the backend request *)

Lemma recentMessages_allocated (w : World) :
  wf w -> Forall (fun l => l < length (heap w)) (recentMessages (session w)).
Proof.
  intros [Hm _]. unfold recentMessages.
  destruct (clearContextIndex (session w)) as [[|k|k]|]; try done;
    unfold js_slice; by apply Forall_take, Forall_drop.
Qed.

Lemma callSession_reaches_backend (content : string) (file : option FileWrap)
  (w w1 : World) (u : loc) :
  wf w ->
  createUserMessage content file w = Some (inr u, w1) ->
  exists um ts,
    built w um u w1 /\
    mapM transformAssistantMessageForSending (recentMessages (session w)) w
      = Some (ts, w) /\
    live (sending_closure w) (sending_world w um content ts) /\
    forall backend,
      callSession content file backend w =
      fire_all (sending_closure w) ResUndefined backend
               (sending_world w um content ts).
Proof.
  intros Hwf Hc.
  destruct (createUserMessage_inr _ _ _ _ _ Hc) as [um Hb].
  destruct (transform_history_stable _ _ (recentMessages_allocated w Hwf))
    as [ts Hts].
  exists um, ts. split; [done|]. split; [|split].
  - apply Hts. exists []. by rewrite app_nil_r.
  - unfold live, sending_closure, sending_world.
    cbn [userMessage botMessage heap]. rewrite length_app. cbn [length]. lia.
  - intros backend. by eapply callSession_sending.
Qed.

Lemma callSession_failed (content : string) (file : option FileWrap)
  (w w1 : World) (error : Error) (backend : list BackendEvent) :
  createUserMessage content file w = Some (inl error, w1) ->
  callSession content file backend w =
  Some (ResMessage (S (length (heap w))), error_world w content error).
Proof.
  intros Hc. pose proof (createUserMessage_inl _ _ _ _ _ Hc) as ->.
  unfold callSession. unfold bind at 1. cbn [getSession].
  unfold bind at 1. rewrite Hc.
  unfold bind at 1. rewrite createMessage_run.
  unfold bind at 1. erewrite load_hit.
  2:{ cbn [heap set_heap]. apply lookup_snoc_here. }
  unfold bind at 1. rewrite createMessage_run.
  unfold bind, getSession, assignMessages, onUpdateMessages, emit, ret.
  unfold error_world, error_messages, error_bot, error_user, log,
    set_messages, set_heap, set_created.
  cbn [heap created session pool trace sid messages clearContextIndex bot].
  rewrite !length_app. cbn [length].
  replace (length (heap w) + 1) with (S (length (heap w))) by lia.
  by rewrite <- !app_assoc.
Qed.

(** ** Failed construction of the user message *)

(** C6.  An uploaded file whose extension is neither [pdf] nor [txt] makes
    the extraction fail with "Not supported file type".  The call then
    returns the assistant message of an error exchange: the heap gains
    exactly a user message carrying the raw input and an assistant message
    whose content is [prettyObject] of [{error: true, message}], the
    session list is extended by these two, in one assignment followed by
    one notification, the pool is untouched and the backend is never
    called (the trace grows by these two events only), whatever the
    backend would have done. *)
Theorem unsupported_file_error_exchange (content : string) (file : FileWrap)
  (backend : list BackendEvent) (w : World) :
  extension file <> "pdf" ->
  extension file <> "txt" ->
  getDetailContentFromFile file = inl {| err_message := "Not supported file type" |} /\
  exists (w' : World) (u b : loc) (um bm : ChatMessage),
    callSession content (Some file) backend w = Some (ResMessage b, w') /\
    heap w' = heap w ++ [um; bm] /\
    u = length (heap w) /\ b = S (length (heap w)) /\
    messages (session w') = messages (session w) ++ [u; b] /\
    msg_role um = "user" /\ msg_content um = Some content /\
    msg_role bm = "assistant" /\
    msg_content bm =
      Some (prettyObject {| eo_error := true;
                            eo_message := "Not supported file type" |}) /\
    trace w' = trace w ++ [EvSetMessages (messages (session w'));
                           EvUpdateMessages (messages (session w'))] /\
    Forall (fun e => is_chat e = false) (drop (length (trace w)) (trace w')) /\
    pool w' = pool w.
Proof.
  intros Hpdf Htxt.
  assert (Hx : getDetailContentFromFile file
               = inl {| err_message := "Not supported file type" |}).
  { unfold getDetailContentFromFile.
    destruct (String.eqb_spec (extension file) "pdf"); [done|].
    by destruct (String.eqb_spec (extension file) "txt"). }
  split; [exact Hx|].
  exists (error_world w content {| err_message := "Not supported file type" |}).
  exists (length (heap w)), (S (length (heap w))).
  do 2 eexists.
  split.
  { apply (callSession_failed _ _ _ w).
    cbn [createUserMessage]. unfold createFileInputMessage. by rewrite Hx. }
  split; [reflexivity|].
  repeat split.
  cbn [trace error_world]. rewrite drop_app_length. by repeat constructor.
Qed.

(** C9.  Whenever the construction of the user message fails, the call
    returns the bot message of the error exchange, the session list is
    extended by the user message and that bot message, and the bot
    message's id is the user message's id [+ 1]: the user message's id is a
    string of the identifier generator, so the bot's id is that string
    followed by the character 1. *)
Theorem error_exchange_bot_id (content : string) (file : option FileWrap)
  (backend : list BackendEvent) (w w1 : World) (error : Error) :
  createUserMessage content file w = Some (inl error, w1) ->
  exists (w' : World) (u b : loc) (um bm : ChatMessage),
    callSession content file backend w = Some (ResMessage b, w') /\
    messages (session w') = messages (session w) ++ [u; b] /\
    heap w' !! u = Some um /\ heap w' !! b = Some bm /\
    msg_role um = "user" /\ msg_role bm = "assistant" /\
    msg_id bm = js_add_one (msg_id um) /\
    msg_id um = JStr (nanoid (created w)) /\
    msg_id bm = JStr (nanoid (created w) +:+ "1").
Proof.
  intros Hc.
  exists (error_world w content error), (length (heap w)), (S (length (heap w))).
  exists (error_user w content), (error_bot w content error).
  split; [by eapply callSession_failed|].
  split; [reflexivity|].
  split; [cbn [heap error_world]; by apply list_lookup_middle|].
  split.
  { cbn [heap error_world].
    change (heap w ++ [error_user w content; error_bot w content error])
      with (heap w ++ [error_user w content] ++ [error_bot w content error]).
    rewrite app_assoc. rewrite lookup_app_r; rewrite length_app; cbn [length]; [|lia].
    by replace (S (length (heap w)) - (length (heap w) + 1)) with 0 by lia. }
  repeat split.
Qed.

(** ** Exchanges that reach the backend *)

Lemma lookup_app_S {A : Type} (h : list A) (x y : A) (l : list A) :
  (h ++ x :: y :: l) !! S (length h) = Some y.
Proof. rewrite lookup_app_r by lia. by replace (S (length h) - length h) with 1 by lia. Qed.

Lemma lookup_app_SS {A : Type} (h : list A) (x y z : A) (l : list A) :
  (h ++ x :: y :: z :: l) !! S (S (length h)) = Some z.
Proof.
  rewrite lookup_app_r by lia.
  by replace (S (S (length h)) - length h) with 2 by lia.
Qed.

Lemma built_inj (w w1 : World) (um um' : ChatMessage) (u u' : loc) :
  built w um u w1 -> built w um' u' w1 -> um = um'.
Proof.
  intros (_ & Hw & _) (_ & Hw' & _).
  rewrite Hw in Hw'. injection Hw' as Hh.
  apply app_inv_head in Hh. by injection Hh.
Qed.

(** Every exchange whose user message is built runs to completion, for any
    behaviour of the backend, and is the hooks fired from the state in
    which the backend was called. *)
Lemma callSession_completes (content : string) (file : option FileWrap)
  (w w1 : World) (u : loc) (backend : list BackendEvent) :
  wf w ->
  createUserMessage content file w = Some (inr u, w1) ->
  exists um ts r w',
    built w um u w1 /\
    mapM transformAssistantMessageForSending (recentMessages (session w)) w
      = Some (ts, w) /\
    callSession content file backend w = Some (r, w') /\
    callSession content file [] w
      = Some (ResUndefined, sending_world w um content ts) /\
    extends_from (sending_closure w) (sending_world w um content ts) w'.
Proof.
  intros Hwf Hc.
  destruct (callSession_reaches_backend _ _ _ _ _ Hwf Hc)
    as (um & ts & Hb & Hts & Hlive & Hrun).
  destruct (fire_all_total _ backend ResUndefined _ Hlive)
    as (r & w' & Hfire & _ & Hext).
  exists um, ts, r, w'. rewrite !Hrun.
  split; [done|]. split; [done|]. split; [done|]. split; [done|]. exact Hext.
Qed.

Lemma forwarded_refs_bounded (h : list ChatMessage) (ls : list loc)
  (ts : list Sent) (n : nat) (l : loc) :
  Forall2 (forwarded h) ls ts ->
  Forall (fun l' => l' < n) ls ->
  SentRef l ∈ ts -> l < n.
Proof.
  induction 1 as [|l' x ls xs Hx _ IH]; intros Hall Hin.
  - by apply elem_of_nil in Hin.
  - apply Forall_cons in Hall as [Hl' Hall].
    apply elem_of_cons in Hin as [Heq|Hin]; [|by apply IH].
    destruct Hx as (m & _ & Hx). rewrite Hx in Heq.
    destruct (String.eqb (msg_role m) "URL"); [done|]. by injection Heq as ->.
Qed.

Lemma history_refs_allocated (w : World) (ts : list Sent) (l : loc) :
  wf w ->
  mapM transformAssistantMessageForSending (recentMessages (session w)) w
    = Some (ts, w) ->
  SentRef l ∈ (SentRef <$> context (bot (session w))) ++ ts ->
  l < length (heap w).
Proof.
  intros Hwf Hts Hin. pose proof (recentMessages_allocated w Hwf) as Hrecent.
  destruct Hwf as [_ Hctx].
  apply elem_of_app in Hin as [Hin|Hin].
  - apply list_elem_of_fmap in Hin as (l' & Heq & Hl'). injection Heq as ->.
    by eapply (proj1 (Forall_forall _ _) Hctx).
  - apply transform_history_sources in Hts.
    by eapply forwarded_refs_bounded.
Qed.

(** C8.  When the user message is built, the call completes whatever the
    backend does, and what it appends to [session.messages] is a user
    message whose content is the raw input string, together with the
    placeholder assistant message (streaming, empty content): the two are
    appended by one assignment, followed by one notification, and only
    then is the backend called (once).  The appended user message still
    has the raw input as its content when the call returns. *)
Theorem raw_user_message_appended (content : string) (file : option FileWrap)
  (backend : list BackendEvent) (w w1 : World) (u : loc) :
  wf w ->
  createUserMessage content file w = Some (inr u, w1) ->
  exists (r : CallResult) (w' w0 : World) (saved placeholder : loc)
         (sm pm : ChatMessage) (req : ChatRequest) (t : list Event),
    callSession content file backend w = Some (r, w') /\
    trace w' =
      trace w ++ [EvSetMessages (messages (session w) ++ [saved; placeholder]);
                  EvUpdateMessages (messages (session w) ++ [saved; placeholder]);
                  EvChat req] ++ t /\
    Forall (fun e => is_chat e = false) t /\
    callSession content file [] w = Some (ResUndefined, w0) /\
    messages (session w0) = messages (session w) ++ [saved; placeholder] /\
    heap w0 !! saved = Some sm /\ heap w0 !! placeholder = Some pm /\
    msg_role sm = "user" /\ msg_content sm = Some content /\
    msg_role pm = "assistant" /\ msg_streaming pm = Some true /\
    msg_content pm = Some EmptyString /\
    heap w' !! saved = Some sm.
Proof.
  intros Hwf Hc.
  destruct (callSession_completes _ _ _ _ _ backend Hwf Hc)
    as (um & ts & r & w' & Hb & Hts & Hrun & Hrun0 & Hlen & Hother & t & Ht & Hnochat).
  destruct Hb as (-> & -> & Hid & Hrole & Hstr & Herr).
  exists r, w', (sending_world w um content ts).
  exists (S (S (length (heap w)))), (S (length (heap w))).
  exists (with_content (Some content) um),
         (message_literal (S (created w)) placeholder_override).
  exists (sending_request w um ts), t.
  split; [done|]. split.
  { rewrite Ht. cbn [trace sending_world]. by rewrite <- app_assoc. }
  split; [done|]. split; [done|]. split; [reflexivity|].
  assert (Hsaved : heap (sending_world w um content ts) !! S (S (length (heap w)))
                   = Some (with_content (Some content) um)).
  { cbn [heap sending_world]. apply lookup_app_SS. }
  split; [done|]. split; [cbn [heap sending_world]; apply lookup_app_S|].
  repeat split; try done.
  rewrite Hother; [done| | |].
  - cbn [heap sending_world]. rewrite length_app. cbn [length]. lia.
  - cbn [sending_closure userMessage]. lia.
  - cbn [sending_closure botMessage]. lia.
Qed.

Lemma js_slice_from_end {A : Type} (l : list A) (k : Z) :
  (k < 0)%Z -> js_slice l k None = drop (length l - Z.to_nat (- k)) l.
Proof.
  intros Hk. unfold js_slice, rel_index.
  destruct (Z.ltb_spec k 0); [|lia].
  replace (Z.to_nat (Z.max (Z.of_nat (length l) + k) 0))
    with (length l - Z.to_nat (- k)) by lia.
  apply take_ge. rewrite length_drop. lia.
Qed.

(** The window read by lines 188-190, case by case: the whole list without
    an index, the list from index [k] for [k >= 0], and the last [-k]
    messages for a negative [k]. *)
Lemma recentMessages_cases (s : ChatSession) :
  (clearContextIndex s = None -> recentMessages s = messages s) /\
  (forall k, clearContextIndex s = Some k -> (0 <= k)%Z ->
             recentMessages s = drop (Z.to_nat k) (messages s)) /\
  (forall k, clearContextIndex s = Some k -> (k < 0)%Z ->
             recentMessages s
             = drop (length (messages s) - Z.to_nat (- k)) (messages s)).
Proof.
  unfold recentMessages. split; [by intros ->|]. split.
  - intros k -> Hk. destruct k as [|k|k]; [done| |lia]. by rewrite js_slice_from.
  - intros k -> Hk. destruct k as [|k|k]; [lia|lia|]. by rewrite js_slice_from_end.
Qed.

(** C10.  For every exchange that reaches the backend call, the history of
    the request is assembled from the session list as it was when the call
    started, that is before the new user message and the placeholder were
    appended: it is the context prompts followed by one entry for each
    message of that list, in order (all of them without a clear-context
    index, those from index [k] on with an index [k >= 0], the last [-k]
    with a negative one), each entry being the message or its re-tagged
    copy; none of the three objects the call creates (the user message, its
    saved copy, the placeholder) occurs in it. *)
Theorem history_precedes_append (content : string) (file : option FileWrap)
  (backend : list BackendEvent) (w w1 : World) (u : loc) :
  wf w ->
  createUserMessage content file w = Some (inr u, w1) ->
  exists (r : CallResult) (w' : World) (saved placeholder : loc)
         (req : ChatRequest) (ts : list Sent) (t : list Event),
    callSession content file backend w = Some (r, w') /\
    trace w' =
      trace w ++ [EvSetMessages (messages (session w) ++ [saved; placeholder]);
                  EvUpdateMessages (messages (session w) ++ [saved; placeholder]);
                  EvChat req] ++ t /\
    Forall (fun e => is_chat e = false) t /\
    mapM transformAssistantMessageForSending (recentMessages (session w)) w
      = Some (ts, w) /\
    req_chatHistory req = (SentRef <$> context (bot (session w))) ++ ts /\
    (clearContextIndex (session w) = None ->
     Forall2 (forwarded (heap w)) (messages (session w)) ts) /\
    (forall k, clearContextIndex (session w) = Some k -> (0 <= k)%Z ->
       Forall2 (forwarded (heap w))
               (drop (Z.to_nat k) (messages (session w))) ts) /\
    (forall k, clearContextIndex (session w) = Some k -> (k < 0)%Z ->
       Forall2 (forwarded (heap w))
               (drop (length (messages (session w)) - Z.to_nat (- k))
                     (messages (session w))) ts) /\
    (SentRef u ∉ req_chatHistory req) /\
    (SentRef saved ∉ req_chatHistory req) /\
    (SentRef placeholder ∉ req_chatHistory req).
Proof.
  intros Hwf Hc.
  destruct (callSession_completes _ _ _ _ _ backend Hwf Hc)
    as (um & ts & r & w' & Hb & Hts & Hrun & Hrun0 & Hlen & Hother & t & Ht & Hnochat).
  destruct Hb as (-> & -> & Hid & Hrole & Hstr & Herr).
  pose proof (transform_history_sources _ _ _ _ Hts) as Hsrc.
  destruct (recentMessages_cases (session w)) as (Hall & Hfrom & Hend).
  exists r, w', (S (S (length (heap w)))), (S (length (heap w))).
  exists (sending_request w um ts), ts, t.
  split; [done|]. split.
  { rewrite Ht. cbn [trace sending_world]. by rewrite <- app_assoc. }
  split; [done|]. split; [done|]. split; [reflexivity|].
  split; [intros Hnone; by rewrite <- (Hall Hnone)|].
  split; [intros k Hk Hpos; by rewrite <- (Hfrom k Hk Hpos)|].
  split; [intros k Hk Hneg; by rewrite <- (Hend k Hk Hneg)|].
  cbn [req_chatHistory sending_request].
  repeat split; intros Hin;
    apply (history_refs_allocated w ts _ Hwf Hts) in Hin; lia.
Qed.

Lemma recentMessages_window (s : ChatSession) (k : Z) :
  clearContextIndex s = Some k -> (0 <= k)%Z ->
  recentMessages s = drop (Z.to_nat k) (messages s).
Proof.
  intros Hk Hpos. unfold recentMessages. rewrite Hk.
  destruct k as [|k|k]; [done| |lia]. by rewrite js_slice_from.
Qed.

(** C4.  For a session whose clear-context index, when set, is an index
    [k >= 0], the history sent to the backend is the bot's context prompts
    in their order, followed by one entry per session message from index
    [k] onward, in order (each the message itself, or its re-tagged copy
    when its role is [URL]); no entry stands for a message at an index
    below [k].  Without a clear-context index every session message has its
    entry. *)
Theorem history_window (content : string) (file : option FileWrap)
  (backend : list BackendEvent) (w w1 : World) (u : loc) :
  wf w ->
  createUserMessage content file w = Some (inr u, w1) ->
  (forall k, clearContextIndex (session w) = Some k -> (0 <= k)%Z) ->
  exists (r : CallResult) (w' : World) (req : ChatRequest) (ts : list Sent)
         (t0 t : list Event),
    callSession content file backend w = Some (r, w') /\
    trace w' = trace w ++ t0 ++ [EvChat req] ++ t /\
    Forall (fun e => is_chat e = false) (t0 ++ t) /\
    req_chatHistory req = (SentRef <$> context (bot (session w))) ++ ts /\
    mapM transformAssistantMessageForSending (window (session w)) w = Some (ts, w) /\
    Forall2 (forwarded (heap w)) (window (session w)) ts /\
    (forall k j x,
        clearContextIndex (session w) = Some k ->
        ts !! j = Some x ->
        exists l, messages (session w) !! (Z.to_nat k + j) = Some l /\
                  forwarded (heap w) l x) /\
    (clearContextIndex (session w) = None ->
     length ts = length (messages (session w))).
Proof.
  intros Hwf Hc Hk.
  destruct (callSession_completes _ _ _ _ _ backend Hwf Hc)
    as (um & ts & r & w' & Hb & Hts & Hrun & Hrun0 & Hlen & Hother & t & Ht & Hnochat).
  assert (Hwin : recentMessages (session w) = window (session w)).
  { unfold window. destruct (clearContextIndex (session w)) as [k|] eqn:E.
    - by apply recentMessages_window; [|apply Hk].
    - unfold recentMessages. by rewrite E. }
  rewrite Hwin in Hts.
  pose proof (transform_history_sources _ _ _ _ Hts) as Hsrc.
  exists r, w', (sending_request w um ts), ts.
  exists [EvSetMessages (sending_messages w); EvUpdateMessages (sending_messages w)], t.
  split; [done|]. split.
  { rewrite Ht. cbn [trace sending_world]. by rewrite <- app_assoc. }
  split; [by repeat constructor|].
  split; [reflexivity|]. split; [done|]. split; [done|]. split.
  - intros k j x Ek Hj. unfold window in Hsrc. rewrite Ek in Hsrc.
    destruct (Forall2_lookup_r _ _ _ _ _ Hsrc Hj) as (l & Hl & Hf).
    exists l. split; [|done]. by rewrite lookup_drop in Hl.
  - intros E. unfold window in Hsrc. rewrite E in Hsrc.
    symmetry. by eapply Forall2_length.
Qed.

(** C5.  For an input classified as a URL whose page is fetched, the user
    message produced has the body returned by the extractor as its content,
    and as its [urlDetail] the extraction result without a [content] key
    (same url, size and type); the call completes and the new-turn content
    of the one request sent to the backend is the fixed instruction, a
    blank line, and the extracted body. *)
Theorem url_input_summarized (content : string) (backend : list BackendEvent)
  (w : World) (d : URLDetailContent) :
  wf w ->
  isURL content = true ->
  fetchSiteContent content = inr d ->
  exists (r : CallResult) (w1 w' : World) (u : loc) (um : ChatMessage)
         (d' : URLDetailContent) (req : ChatRequest) (t0 t : list Event),
    createTextInputMessage content w = Some (inr u, w1) /\
    heap w1 !! u = Some um /\
    msg_role um = "user" /\
    msg_content um = ud_content d /\
    msg_urlDetail um = Some d' /\
    ud_content d' = None /\
    ud_url d' = ud_url d /\ ud_size d' = ud_size d /\ ud_type d' = ud_type d /\
    callSession content None backend w = Some (r, w') /\
    trace w' = trace w ++ t0 ++ [EvChat req] ++ t /\
    Forall (fun e => is_chat e = false) (t0 ++ t) /\
    req_message req =
      Some (summarize_instruction +:+ blank_line +:+ js_str (ud_content d)) /\
    (forall body, ud_content d = Some body ->
       req_message req =
         Some ("Summarize the following text briefly in 200 words or less:"
               +:+ String LF (String LF body))).
Proof.
  intros Hwf Hurl Hfetch.
  set (um := message_literal (created w)
               {| o_id := None; o_date := None; o_role := Some "user";
                  o_content := Some (ud_content d);
                  o_streaming := None; o_isError := None;
                  o_urlDetail := Some (delete_content d) |}).
  assert (Hc : createUserMessage content None w
               = Some (inr (length (heap w)),
                       set_heap (heap w ++ [um]) (set_created (S (created w)) w))).
  { cbn [createUserMessage]. unfold createTextInputMessage.
    rewrite Hurl, Hfetch. unfold bind. by rewrite createMessage_run. }
  destruct (callSession_completes _ _ _ _ _ backend Hwf Hc)
    as (um' & ts & r & w' & Hb & Hts & Hrun & Hrun0 & Hlen & Hother & t & Ht & Hnochat).
  assert (Hum : um = um').
  { eapply built_inj; [|exact Hb]. by repeat split. }
  subst um'.
  exists r, (set_heap (heap w ++ [um]) (set_created (S (created w)) w)), w'.
  exists (length (heap w)), um, (delete_content d), (sending_request w um ts).
  exists [EvSetMessages (sending_messages w); EvUpdateMessages (sending_messages w)], t.
  split; [exact Hc|].
  split; [cbn [heap set_heap]; apply lookup_snoc_here|].
  do 7 (split; [reflexivity|]).
  split; [done|]. split.
  { rewrite Ht. cbn [trace sending_world]. by rewrite <- app_assoc. }
  split; [by repeat constructor|].
  split; [reflexivity|].
  intros body Hbody. cbn [req_message sending_request um message_literal
                          msg_urlDetail o_urlDetail msg_content o_content default
                          from_option id].
  by rewrite Hbody.
Qed.

(** ** Exchanges that end with a terminal hook *)

Lemma fire_all_single (cl : Closure) (r : CallResult) (ev : BackendEvent)
  (w : World) :
  fire_all cl r [ev] w = fire cl r ev w.
Proof.
  cbn [fire_all]. unfold bind, ret. by destruct (fire cl r ev w) as [[r' w']|].
Qed.

(** The run up to the terminal hook: the session list is the one appended
    to at the start, and the complete run is the terminal hook fired from
    there. *)
Lemma callSession_before_terminal (content : string) (file : option FileWrap)
  (pre : list BackendEvent) (w w1 : World) (u : loc) :
  wf w ->
  createUserMessage content file w = Some (inr u, w1) ->
  Forall nonterminal pre ->
  exists um ts w_pre,
    built w um u w1 /\
    callSession content file pre w = Some (ResUndefined, w_pre) /\
    streamed (sending_closure w) (placeholder w) pre
             (sending_world w um content ts) w_pre /\
    forall ev, callSession content file (pre ++ [ev]) w
               = fire (sending_closure w) ResUndefined ev w_pre.
Proof.
  intros Hwf Hc Hpre.
  destruct (callSession_reaches_backend _ _ _ _ _ Hwf Hc)
    as (um & ts & Hb & Hts & Hlive & Hrun).
  destruct (fire_all_streamed (sending_closure w) pre Hpre
              (sending_world w um content ts) (placeholder w) ResUndefined)
    as (w_pre & Hfire & Hstr).
  { cbn [heap sending_world sending_closure botMessage]. apply lookup_app_S. }
  exists um, ts, w_pre. split; [done|]. split; [by rewrite Hrun|].
  split; [done|]. intros ev.
  by rewrite Hrun, fire_all_app, Hfire, fire_all_single.
Qed.

(** C2.  In every exchange that reaches the backend and in which
    [onFinish] fires with N messages after any number of non-terminal
    hooks, the session list just before the terminal hook is the initial
    list followed by the saved user message and the placeholder, and the
    list afterwards is that list without its last two entries followed by
    the N normalized messages (each a fresh message with the role and
    content of the returned one); its length is the prior length minus 2
    plus N. *)
Theorem onFinish_replaces_pair (content : string) (file : option FileWrap)
  (pre : list BackendEvent) (newMessages : list RequestMessage)
  (w w1 : World) (u : loc) :
  wf w ->
  createUserMessage content file w = Some (inr u, w1) ->
  Forall nonterminal pre ->
  exists (r0 r : CallResult) (w_pre w' : World) (saved bot_loc : loc)
         (news : list loc),
    callSession content file pre w = Some (r0, w_pre) /\
    callSession content file (pre ++ [OnFinish newMessages]) w = Some (r, w') /\
    messages (session w_pre) = messages (session w) ++ [saved; bot_loc] /\
    messages (session w')
      = js_slice (messages (session w_pre)) 0 (Some (-2)%Z) ++ news /\
    messages (session w')
      = take (length (messages (session w_pre)) - 2) (messages (session w_pre))
        ++ news /\
    messages (session w') = messages (session w) ++ news /\
    length news = length newMessages /\
    Forall2 (normalizes (heap w')) news newMessages /\
    (Z.of_nat (length (messages (session w')))
     = Z.of_nat (length (messages (session w_pre))) - 2
       + Z.of_nat (length newMessages))%Z.
Proof.
  intros Hwf Hc Hpre.
  destruct (callSession_before_terminal _ _ pre _ _ _ Hwf Hc Hpre)
    as (um & ts & w_pre & Hb & Hrun_pre & Hstr & Hrun).
  destruct Hstr as [Hs _ _ _ (b' & Hb' & _) _ _].
  destruct (onFinish_run (sending_closure w) newMessages b' w_pre Hb')
    as (news & wn & replaced & -> & Hlen & _ & _ & Hnorm & Hfin).
  assert (Hmsgs : messages (session w_pre)
                  = messages (session w)
                    ++ [S (S (length (heap w))); S (length (heap w))]).
  { by rewrite Hs. }
  do 4 eexists. exists (S (S (length (heap w)))), (S (length (heap w))), news.
  split; [exact Hrun_pre|]. split; [rewrite Hrun; exact Hfin|].
  cbn [session set_messages messages heap].
  split; [exact Hmsgs|]. split; [reflexivity|].
  split; [by rewrite js_slice_without_last_two|].
  rewrite Hmsgs, js_slice_drops_pair.
  split; [reflexivity|]. split; [exact Hlen|]. split; [exact Hnorm|].
  rewrite !length_app, Hlen. cbn [length]. lia.
Qed.

Lemma registry_ops_app (t1 t2 : list Event) :
  registry_ops (t1 ++ t2) = registry_ops t1 ++ registry_ops t2.
Proof. apply List.filter_app. Qed.

Lemma registered_last (k : string * JsVal) (cs : list Controller) (c : Controller)
  (p : gmap (string * JsVal) Controller) :
  last cs = Some c ->
  foldl (fun p c => <[k := c]> p) p cs !! k = Some c.
Proof.
  revert p. induction cs as [|c' cs IH]; intros p; [done|].
  destruct cs as [|c'' cs].
  - intros [= ->]. cbn [foldl]. by rewrite lookup_insert_eq.
  - intros Hl. cbn [foldl]. by apply (IH (<[k := c']> p)).
Qed.

(** C7.  In every exchange that reaches the backend and ends with a
    terminal hook ([onFinish] or [onError]) after any number of
    non-terminal hooks, every call to the controller pool uses the same
    key: the session id and the placeholder's id, a string of the
    identifier generator (the fallback index is never used).  Each
    [onController] registers under that key, so that the controller is
    found before the terminal hook, and the terminal hook removes under
    that key, so that no entry for the exchange is left when the call
    returns. *)
Theorem registry_entry_removed (content : string) (file : option FileWrap)
  (pre : list BackendEvent) (ev : BackendEvent) (w w1 : World) (u : loc) :
  wf w ->
  createUserMessage content file w = Some (inr u, w1) ->
  Forall nonterminal pre ->
  terminal ev ->
  exists (r0 r : CallResult) (w_pre w' : World) (key : JsVal) (t : list Event),
    callSession content file pre w = Some (r0, w_pre) /\
    callSession content file (pre ++ [ev]) w = Some (r, w') /\
    key = JStr (nanoid (S (created w))) /\
    trace w' = trace w ++ t /\
    registry_ops t
      = (EvAddController (sid (session w)) key <$> controllers pre)
        ++ [EvRemove (sid (session w)) key] /\
    (forall c, last (controllers pre) = Some c ->
               pool w_pre !! (sid (session w), key) = Some c) /\
    pool w' !! (sid (session w), key) = None.
Proof.
  intros Hwf Hc Hpre Hev.
  destruct (callSession_before_terminal _ _ pre _ _ _ Hwf Hc Hpre)
    as (um & ts & w_pre & Hb & Hrun_pre & Hstr & Hrun).
  destruct Hstr as [Hs _ Hlen Hothers (b' & Hb' & Hid & _) Hpool (t & Ht & Hops & _)].
  assert (Hkey : registry_key (sending_closure w) (placeholder w)
                 = JStr (nanoid (S (created w)))) by reflexivity.
  assert (Hkey' : registry_key (sending_closure w) b'
                  = JStr (nanoid (S (created w)))).
  { unfold registry_key. by rewrite Hid. }
  assert (Hid' : msg_id b' = JStr (nanoid (S (created w)))) by by rewrite Hid.
  rewrite Hkey in *.
  assert (Hsid : sid (session w_pre) = sid (session w)) by by rewrite Hs.
  assert (Hreg : forall c, last (controllers pre) = Some c ->
                 pool w_pre !! (sid (session w), JStr (nanoid (S (created w))))
                 = Some c).
  { intros c Hlast. rewrite Hpool. by apply registered_last. }
  destruct ev as [| |newMessages|error]; try done.
  - destruct (onFinish_run (sending_closure w) newMessages b' w_pre Hb')
      as (news & wn & replaced & _ & _ & _ & _ & _ & Hfin).
    do 4 eexists. exists (JStr (nanoid (S (created w)))). eexists.
    split; [exact Hrun_pre|]. split; [rewrite Hrun; exact Hfin|].
    split; [reflexivity|]. cbn [trace pool].
    split; [rewrite Ht; cbn [trace sending_world]; rewrite <- !app_assoc; reflexivity|].
    split; [|split; [exact Hreg|]].
    + rewrite !registry_ops_app, Hops, Hsid, Hid'. reflexivity.
    + rewrite Hsid, Hid'. apply lookup_delete_eq.
  - assert (Hu : exists um', heap w_pre !! userMessage (sending_closure w) = Some um').
    { apply lookup_lt_is_Some_2. rewrite Hlen.
      cbn [heap sending_world sending_closure userMessage].
      rewrite length_app. cbn [length]. lia. }
    destruct Hu as [um' Hum'].
    do 4 eexists. exists (JStr (nanoid (S (created w)))). eexists.
    split; [exact Hrun_pre|]. split.
    { rewrite Hrun. cbn [fire].
      apply (onError_run _ _ b' um'); [done|done|].
      cbn [sending_closure userMessage botMessage]. lia. }
    split; [reflexivity|]. cbn [trace pool log set_pool set_heap].
    split; [rewrite Ht; cbn [trace sending_world]; rewrite <- !app_assoc; reflexivity|].
    split; [|split; [exact Hreg|]].
    + rewrite !registry_ops_app, Hops, Hsid, Hkey'. reflexivity.
    + rewrite Hsid, Hkey'. apply lookup_delete_eq.
Qed.

(** The result of an exchange that ends with [onFinish] is the array
    [newChatMessages.slice(-1)], never a message. *)
Lemma onFinish_result (content : string) (file : option FileWrap)
  (pre : list BackendEvent) (newMessages : list RequestMessage)
  (w w1 : World) (u : loc) :
  wf w ->
  createUserMessage content file w = Some (inr u, w1) ->
  Forall nonterminal pre ->
  exists (w' : World) (news : list loc),
    callSession content file (pre ++ [OnFinish newMessages]) w
      = Some (ResArray (match last news with Some l => [l] | None => [] end), w') /\
    length news = length newMessages /\
    Forall2 (normalizes (heap w')) news newMessages.
Proof.
  intros Hwf Hc Hpre.
  destruct (callSession_before_terminal _ _ pre _ _ _ Hwf Hc Hpre)
    as (um & ts & w_pre & Hb & Hrun_pre & Hstr & Hrun).
  destruct Hstr as [_ _ _ _ (b' & Hb' & _) _ _].
  destruct (onFinish_run (sending_closure w) newMessages b' w_pre Hb')
    as (news & wn & replaced & _ & Hlen & _ & _ & Hnorm & Hfin).
  eexists. exists news. rewrite Hrun. cbn [fire].
  rewrite <- js_slice_last. split; [exact Hfin|]. by split.
Qed.

(** What [onError] leaves behind: the placeholder, which is the last
    message of the session, is no longer streaming, has the error block
    after its previous content and is flagged unless the error text
    contains "aborted"; the same flag is written to the object built by
    [createUserMessage], which is not the user message of the session: that
    one is the copy saved with the raw input, and it is never flagged. *)
Lemma onError_outcome (content : string) (file : option FileWrap)
  (pre : list BackendEvent) (error : Error) (w w1 : World) (u : loc) :
  wf w ->
  createUserMessage content file w = Some (inr u, w1) ->
  Forall nonterminal pre ->
  exists (r0 : CallResult) (w_pre w' : World) (saved bot_loc : loc)
         (um sm b_pre : ChatMessage),
    callSession content file pre w = Some (r0, w_pre) /\
    callSession content file (pre ++ [OnError error]) w
      = Some (ResMessage bot_loc, w') /\
    messages (session w') = messages (session w) ++ [saved; bot_loc] /\
    heap w_pre !! bot_loc = Some b_pre /\
    heap w' !! bot_loc = Some (failed_bot error b_pre) /\
    heap w_pre !! u = Some um /\
    heap w' !! u = Some (failed_user error um) /\
    u <> saved /\
    heap w' !! saved = Some sm /\
    msg_role sm = "user" /\ msg_content sm = Some content /\
    msg_isError sm = None.
Proof.
  intros Hwf Hc Hpre.
  destruct (callSession_before_terminal _ _ pre _ _ _ Hwf Hc Hpre)
    as (um & ts & w_pre & Hb & Hrun_pre & Hstr & Hrun).
  destruct Hstr as [Hs _ Hlen Hothers (b' & Hb' & _) _ _].
  cbn [sending_closure botMessage userMessage] in *.
  assert (Hum : heap w_pre !! length (heap w) = Some um).
  { rewrite Hothers by lia. cbn [heap sending_world]. by apply list_lookup_middle. }
  assert (Hsm : heap w_pre !! S (S (length (heap w)))
                = Some (with_content (Some content) um)).
  { rewrite Hothers by lia. cbn [heap sending_world]. apply lookup_app_SS. }
  pose proof (lookup_lt_Some _ _ _ Hb') as Hltb.
  pose proof (lookup_lt_Some _ _ _ Hum) as Hltu.
  destruct Hb as (-> & _ & Hid & Hrole & Hstr & Herr).
  exists ResUndefined, w_pre. eexists.
  exists (S (S (length (heap w)))), (S (length (heap w))).
  exists um, (with_content (Some content) um), b'.
  split; [exact Hrun_pre|]. split.
  { rewrite Hrun. cbn [fire].
    apply (onError_run (sending_closure w) _ b' um); [done|done|].
    cbn [sending_closure userMessage botMessage]. lia. }
  cbn [session heap log set_pool set_heap sending_closure botMessage userMessage].
  split; [by rewrite Hs|]. split; [done|].
  split; [apply list_lookup_insert_eq; by rewrite length_insert|].
  split; [done|].
  split; [rewrite list_lookup_insert_ne by lia; by apply list_lookup_insert_eq|].
  split; [lia|].
  split; [by rewrite !list_lookup_insert_ne by lia|].
  by repeat split.
Qed.

(** ** The streaming phase, explicitly *)

Lemma registry_key_updated (cl : Closure) (message : string) (b : ChatMessage) :
  registry_key cl (updated message b) = registry_key cl b.
Proof. unfold registry_key. by destruct message. Qed.

Lemma fire_all_streaming_world (cl : Closure) (pre : list BackendEvent) :
  Forall nonterminal pre ->
  forall (w : World) (b : ChatMessage) (r : CallResult),
    heap w !! botMessage cl = Some b ->
    fire_all cl r pre w = Some (r, streaming_world cl b pre w).
Proof.
  induction 1 as [|ev pre Hev _ IH]; intros w b r Hb.
  - cbn [fire_all]. unfold ret. f_equal. f_equal. apply world_eq; cbn; try done.
    + by rewrite list_insert_id.
    + by rewrite app_nil_r.
  - pose proof (lookup_lt_Some _ _ _ Hb) as Hlt.
    destruct ev as [c|message| |]; try done.
    + cbn [fire_all fire]. unfold bind at 1. unfold bind at 1.
      rewrite (onController_run _ _ b) by done. unfold ret. cbv beta iota.
      rewrite (IH _ b) by done. f_equal. f_equal.
      apply world_eq; cbn [heap created session pool trace streaming_world
                           log set_pool]; try done.
      cbn [stream_events List.flat_map stream_event app].
      by rewrite <- app_assoc.
    + cbn [fire_all fire]. unfold bind at 1. unfold bind at 1.
      rewrite (onUpdate_run _ _ b) by done. unfold ret. cbv beta iota.
      rewrite (IH _ (updated message b)).
      2:{ cbn [heap log set_heap]. by apply list_lookup_insert_eq. }
      f_equal. f_equal.
      apply world_eq; cbn [heap created session pool trace streaming_world
                           log set_heap]; rewrite ?registry_key_updated;
        try done.
      * by rewrite list_insert_insert_eq.
      * cbn [stream_events List.flat_map stream_event app].
        by rewrite <- app_assoc.
Qed.

Lemma bot_after_cons (ev : BackendEvent) (events : list BackendEvent)
  (b : ChatMessage) :
  bot_after (ev :: events) b
  = bot_after events (match ev with OnUpdate m => updated m b | _ => b end).
Proof. reflexivity. Qed.

Lemma bot_after_fields (events : list BackendEvent) (b : ChatMessage) :
  msg_id (bot_after events b) = msg_id b /\
  msg_date (bot_after events b) = msg_date b /\
  msg_role (bot_after events b) = msg_role b /\
  msg_isError (bot_after events b) = msg_isError b /\
  msg_urlDetail (bot_after events b) = msg_urlDetail b.
Proof.
  revert b. induction events as [|ev events IH]; intros b; [done|].
  rewrite bot_after_cons.
  destruct ev as [c|message| |]; try apply IH.
  destruct (IH (updated message b)) as (-> & -> & -> & -> & ->).
  by destruct message.
Qed.

Lemma bot_after_content (events : list BackendEvent) (b : ChatMessage) :
  msg_content (bot_after events b)
  = match last_partial events with
    | Some m => Some m
    | None => msg_content b
    end.
Proof.
  revert b. induction events as [|ev events IH]; intros b; [done|].
  rewrite bot_after_cons.
  destruct ev as [c|message| |]; try apply IH.
  rewrite IH. unfold last_partial. cbn [updates omap list_omap].
  fold (updates events). cbn [List.filter].
  destruct message as [|a message]; cbn [nonempty updated]; [done|].
  destruct (List.filter nonempty (updates events)) as [|m ms]; [reflexivity|].
  change (last (String a message :: m :: ms)) with (last (m :: ms)).
  destruct (last (m :: ms)) eqn:E; [reflexivity|].
  by apply last_None in E.
Qed.

Lemma bot_after_streaming (events : list BackendEvent) (b : ChatMessage) :
  msg_streaming (bot_after events b)
  = match updates events with
    | [] => msg_streaming b
    | _ => Some true
    end.
Proof.
  revert b. induction events as [|ev events IH]; intros b; [done|].
  rewrite bot_after_cons.
  destruct ev as [c|message| |]; try apply IH.
  rewrite IH. cbn [updates omap list_omap]. fold (updates events).
  destruct (updates events); by destruct message.
Qed.

(** ** What every hook keeps *)

Lemma js_slice_allocated (ls : list loc) (n : nat) (start : Z) (stop : option Z) :
  Forall (fun l => l < n) ls -> Forall (fun l => l < n) (js_slice ls start stop).
Proof. intros Hls. unfold js_slice. by apply Forall_take, Forall_drop. Qed.

Lemma normalizes_allocated (h : list ChatMessage) (news : list loc)
  (newMessages : list RequestMessage) :
  Forall2 (normalizes h) news newMessages ->
  Forall (fun l => l < length h) news.
Proof.
  induction 1 as [|l m news ms (x & Hx & _) _ IH]; constructor; [|done].
  by eapply lookup_lt_Some.
Qed.

Lemma fire_kept (cl : Closure) (i : string) (r : CallResult)
  (ev : BackendEvent) (w0 w : World) :
  kept cl i w0 w ->
  exists r' w', fire cl r ev w = Some (r', w') /\ kept cl i w0 w'.
Proof.
  intros [(Hu & Hb & Hne) Hsid Hidx Hbot Hcr Hlen Hheap Halloc (b & Hbm & Hid)
          Hpool (t & Ht & Hchat & Hown)].
  destruct (lookup_lt_is_Some_2 _ _ Hu) as [um Hum].
  assert (Hkey : registry_key cl b = JStr i).
  { unfold registry_key. by rewrite Hid. }
  destruct ev as [c|message|newMessages|error]; cbn [fire].
  - unfold bind. rewrite (onController_run _ _ b) by done.
    rewrite Hkey, Hsid. do 2 eexists. split; [done|].
    split; cbn [heap created session pool trace log set_pool]; try done.
    + by exists b.
    + intros k Hk. rewrite lookup_insert_ne by done. by apply Hpool.
    + eexists (t ++ [_]). split; [by rewrite Ht, <- app_assoc|].
      split; apply Forall_app; split; try done; by repeat constructor.
  - unfold bind. rewrite (onUpdate_run _ _ b) by done.
    do 2 eexists. split; [done|].
    split; cbn [heap created session pool trace log set_heap];
      rewrite ?length_insert; try done.
    + unfold live. cbn [heap log set_heap]. by rewrite length_insert.
    + intros l Hl Hlu Hlb. rewrite list_lookup_insert_ne by done. by apply Hheap.
    + exists (updated message b). split; [by apply list_lookup_insert_eq|].
      by destruct message.
    + eexists (t ++ [_]). split; [by rewrite Ht, <- app_assoc|].
      split; apply Forall_app; split; try done; by repeat constructor.
  - destruct (onFinish_run cl newMessages b w Hbm)
      as (news & w1 & replaced & -> & Hn & Hcr1 & [ext Hext] & Hnorm & ->).
    rewrite Hid, Hsid. do 2 eexists. split; [done|].
    pose proof (normalizes_allocated _ _ _ Hnorm) as Hnews.
    split; cbn [heap created session pool trace set_messages sid messages
                clearContextIndex bot]; try done.
    + unfold live. cbn [heap]. rewrite Hext, length_app.
      repeat split; (lia || done).
    + lia.
    + rewrite Hext, length_app. lia.
    + intros l Hl Hlu Hlb. rewrite Hext, lookup_app_l by lia. by apply Hheap.
    + apply Forall_app. split; [|done]. apply js_slice_allocated.
      eapply Forall_impl; [exact Halloc|]. intros l. cbn beta.
      rewrite Hext, length_app. lia.
    + exists b. split; [|done]. rewrite Hext. by apply lookup_app_l_Some.
    + intros k Hk. rewrite lookup_delete_ne by done. by apply Hpool.
    + eexists (t ++ [_; _; _]). split; [by rewrite Ht, <- app_assoc|].
      split; apply Forall_app; split; try done; by repeat constructor.
  - rewrite (onError_run _ _ b um) by done.
    rewrite Hkey, Hsid. do 2 eexists. split; [done|].
    split; cbn [heap created session pool trace log set_pool set_heap];
      rewrite ?length_insert; try done.
    + unfold live. cbn [heap log set_pool set_heap]. by rewrite !length_insert.
    + intros l Hl Hlu Hlb. rewrite !list_lookup_insert_ne by done. by apply Hheap.
    + exists (failed_bot error b). split; [|done].
      apply list_lookup_insert_eq. by rewrite length_insert.
    + intros k Hk. rewrite lookup_delete_ne by done. by apply Hpool.
    + eexists (t ++ [_; _]). split; [by rewrite Ht, <- !app_assoc|].
      split; apply Forall_app; split; try done; by repeat constructor.
Qed.

Lemma fire_all_kept (cl : Closure) (i : string) (events : list BackendEvent)
  (w0 : World) :
  forall (r : CallResult) (w : World),
    kept cl i w0 w ->
    exists r' w', fire_all cl r events w = Some (r', w') /\ kept cl i w0 w'.
Proof.
  induction events as [|ev events IH]; intros r w Hk.
  - by exists r, w.
  - destruct (fire_kept cl i r ev w0 w Hk) as (r1 & w1 & Hrun1 & Hk1).
    destruct (IH r1 w1 Hk1) as (r2 & w2 & Hrun2 & Hk2).
    exists r2, w2. split; [|done]. cbn [fire_all]. unfold bind. by rewrite Hrun1.
Qed.

Lemma kept_sending (w : World) (um : ChatMessage) (content : string)
  (ts : list Sent) :
  wf w ->
  kept (sending_closure w) (nanoid (S (created w)))
       (sending_world w um content ts) (sending_world w um content ts).
Proof.
  intros [Hm _].
  split; cbn [heap created session pool trace sending_world sending_closure
              userMessage botMessage set_messages messages]; try done.
  - unfold live. cbn [heap sending_world sending_closure userMessage botMessage].
    rewrite length_app. cbn [length]. lia.
  - unfold sending_messages. apply Forall_app. split.
    + eapply Forall_impl; [exact Hm|]. intros l. cbn beta.
      rewrite length_app. lia.
    + rewrite length_app. cbn [length]. repeat constructor; lia.
  - eexists. split; [apply lookup_app_S|reflexivity].
  - exists []. by rewrite app_nil_r.
Qed.

(** The whole of a call that reaches the backend, for any behaviour of the
    backend. *)
Lemma callSession_kept (content : string) (file : option FileWrap)
  (backend : list BackendEvent) (w w1 : World) (u : loc) :
  wf w ->
  createUserMessage content file w = Some (inr u, w1) ->
  exists um ts r w',
    built w um u w1 /\
    mapM transformAssistantMessageForSending (recentMessages (session w)) w
      = Some (ts, w) /\
    callSession content file backend w = Some (r, w') /\
    kept (sending_closure w) (nanoid (S (created w)))
         (sending_world w um content ts) w'.
Proof.
  intros Hwf Hc.
  destruct (callSession_reaches_backend _ _ _ _ _ Hwf Hc)
    as (um & ts & Hb & Hts & Hlive & Hrun).
  destruct (fire_all_kept _ _ backend _ ResUndefined _
              (kept_sending w um content ts Hwf)) as (r & w' & Hfire & Hk).
  exists um, ts, r, w'. by rewrite Hrun.
Qed.

(** The construction of the user message either throws, leaving the world
    as it was, or allocates one message. *)
Lemma createUserMessage_cases (content : string) (file : option FileWrap)
  (w : World) :
  (exists e, createUserMessage content file w = Some (inl e, w)) \/
  (exists um, createUserMessage content file w
              = Some (inr (length (heap w)),
                      set_heap (heap w ++ [um]) (set_created (S (created w)) w))).
Proof.
  unfold createUserMessage, createFileInputMessage, createTextInputMessage.
  destruct file as [f|].
  - destruct (getDetailContentFromFile f) as [e|d]; [left; by exists e|].
    right. unfold bind. rewrite createMessage_run. by eexists.
  - destruct (isURL content).
    + destruct (fetchSiteContent content) as [e|d]; [left; by exists e|].
      right. unfold bind. rewrite createMessage_run. by eexists.
    + right. unfold bind. rewrite createMessage_run. by eexists.
Qed.

(** ** Further properties of the call as a whole *)

Lemma error_world_wf (w : World) (content : string) (error : Error) :
  wf w -> wf (error_world w content error).
Proof.
  intros [Hm Hc].
  split; cbn [heap session error_world set_messages messages bot];
    rewrite length_app; cbn [length].
  - unfold error_messages. apply Forall_app. split.
    + eapply Forall_impl; [exact Hm|]. intros l. cbn beta. lia.
    + repeat constructor; lia.
  - eapply Forall_impl; [exact Hc|]. intros l. cbn beta. lia.
Qed.

Lemma callSession_total_wf (content : string) (file : option FileWrap)
  (backend : list BackendEvent) (w : World) :
  wf w ->
  exists r w', callSession content file backend w = Some (r, w') /\ wf w'.
Proof.
  intros Hwf.
  destruct (createUserMessage_cases content file w) as [[e He]|[um Hum]].
  - do 2 eexists. split; [by eapply callSession_failed|].
    by apply error_world_wf.
  - destruct (callSession_kept _ _ backend _ _ _ Hwf Hum)
      as (um' & ts & r & w' & _ & _ & Hrun & Hk).
    exists r, w'. split; [done|]. destruct Hk. split; [done|].
    rewrite kept_bot0. cbn [session sending_world set_messages bot].
    destruct Hwf as [_ Hc]. eapply Forall_impl; [exact Hc|].
    intros l. cbn beta. cbn [heap sending_world] in kept_length0.
    rewrite length_app in kept_length0. lia.
Qed.


(** X4.  A call changes nothing that existed before it except the list of
    the session: the id, the clear-context index and the bot of the session
    are as before, and every message object that was allocated is
    unchanged, whatever the input and whatever the backend does; the
    messages are only ever added to. *)
Theorem callSession_frame (content : string) (file : option FileWrap)
  (backend : list BackendEvent) (w : World) :
  wf w ->
  exists (r : CallResult) (w' : World),
    callSession content file backend w = Some (r, w') /\
    sid (session w') = sid (session w) /\
    clearContextIndex (session w') = clearContextIndex (session w) /\
    bot (session w') = bot (session w) /\
    length (heap w) < length (heap w') /\
    (forall l m, heap w !! l = Some m -> heap w' !! l = Some m).
Proof.
  intros Hwf.
  destruct (createUserMessage_cases content file w) as [[e He]|[um Hum]].
  - do 2 eexists. split; [by eapply callSession_failed|].
    cbn [session heap error_world set_messages sid clearContextIndex bot].
    rewrite length_app. cbn [length].
    repeat split; [lia|]. intros l m Hl. by apply lookup_app_l_Some.
  - destruct (callSession_kept _ _ backend _ _ _ Hwf Hum)
      as (um' & ts & r & w' & _ & _ & Hrun & Hk).
    exists r, w'. split; [done|]. destruct Hk.
    cbn [session heap sending_world sending_closure set_messages sid
         clearContextIndex bot userMessage botMessage] in *.
    rewrite length_app in *. cbn [length] in *.
    repeat split; [done|done|done|lia|].
    intros l m Hl. pose proof (lookup_lt_Some _ _ _ Hl) as Hlt.
    rewrite kept_heap0 by lia. by apply lookup_app_l_Some.
Qed.

(** X5.  A call only ever addresses the controller pool under one key, the
    session id paired with the id of the placeholder it creates: every
    registration and removal recorded during the call uses that key, and
    the entries registered under any other key are left as they were,
    whatever the input and whatever sequence of hooks the backend fires. *)
Theorem callSession_own_registry_key (content : string) (file : option FileWrap)
  (backend : list BackendEvent) (w : World) :
  wf w ->
  exists (r : CallResult) (w' : World) (t : list Event),
    callSession content file backend w = Some (r, w') /\
    trace w' = trace w ++ t /\
    Forall (own_op (sid (session w)) (JStr (nanoid (S (created w))))) t /\
    forall k, k <> (sid (session w), JStr (nanoid (S (created w)))) ->
              pool w' !! k = pool w !! k.
Proof.
  intros Hwf.
  destruct (createUserMessage_cases content file w) as [[e He]|[um Hum]].
  - do 3 eexists. split; [by eapply callSession_failed|].
    split; [reflexivity|]. split; [by repeat constructor|done].
  - destruct (callSession_kept _ _ backend _ _ _ Hwf Hum)
      as (um' & ts & r & w' & _ & _ & Hrun & Hk).
    destruct Hk as [_ _ _ _ _ _ _ _ _ Hpool (t & Ht & _ & Hown)].
    cbn [session pool trace sending_world set_messages sid] in *.
    exists r, w'. eexists. split; [done|].
    split; [rewrite Ht, <- app_assoc; reflexivity|].
    split; [|done]. apply Forall_app. split; [by repeat constructor|done].
Qed.

(** ** The three kinds of input *)

(** X1.  For an input that is not classified as a URL, with no uploaded
    file, nothing is fetched: the user message is built with the input as
    its content and without [urlDetail], the copy saved in the session is
    equal to it field by field (a second object), and the content sent to
    the backend as the new turn is the input itself, without the
    summarizing instruction. *)
Theorem plain_text_sent_verbatim (content : string)
  (backend : list BackendEvent) (w : World) :
  wf w ->
  isURL content = false ->
  exists (r : CallResult) (w' w0 : World) (u saved : loc) (um : ChatMessage)
         (req : ChatRequest) (t0 t : list Event),
    callSession content None backend w = Some (r, w') /\
    trace w' = trace w ++ t0 ++ [EvChat req] ++ t /\
    Forall (fun e => is_chat e = false) (t0 ++ t) /\
    req_message req = Some content /\
    callSession content None [] w = Some (ResUndefined, w0) /\
    heap w0 !! u = Some um /\
    heap w0 !! saved = Some um /\
    u <> saved /\
    messages (session w0) = messages (session w) ++ [saved; S u] /\
    msg_id um = JStr (nanoid (created w)) /\
    msg_role um = "user" /\
    msg_content um = Some content /\
    msg_urlDetail um = None.
Proof.
  intros Hwf Hurl.
  set (um := message_literal (created w) (user_override content)).
  assert (Hc : createUserMessage content None w
               = Some (inr (length (heap w)),
                       set_heap (heap w ++ [um]) (set_created (S (created w)) w))).
  { cbn [createUserMessage]. unfold createTextInputMessage.
    rewrite Hurl. unfold bind. by rewrite createMessage_run. }
  destruct (callSession_completes _ _ _ _ _ backend Hwf Hc)
    as (um' & ts & r & w' & Hb & Hts & Hrun & Hrun0 & Hlen & Hother & t & Ht & Hnochat).
  assert (Hum : um = um').
  { eapply built_inj; [|exact Hb]. by repeat split. }
  subst um'.
  exists r, w', (sending_world w um content ts).
  exists (length (heap w)), (S (S (length (heap w)))), um.
  exists (sending_request w um ts).
  exists [EvSetMessages (sending_messages w); EvUpdateMessages (sending_messages w)], t.
  split; [done|]. split.
  { rewrite Ht. cbn [trace sending_world]. by rewrite <- app_assoc. }
  split; [by repeat constructor|].
  split; [reflexivity|]. split; [done|].
  split; [cbn [heap sending_world]; by apply list_lookup_middle|].
  split; [cbn [heap sending_world]; apply lookup_app_SS|].
  split; [lia|]. by repeat split.
Qed.

(** X2.  For an uploaded file whose extension is [pdf] or [txt] and whose
    extractor (the PDF one for [pdf], the plain-text one for [txt])
    succeeds, the typed text plays no part in building the user message
    (it is not even classified): the message has the extracted body as its
    content and the extraction result without its [content] key (and with
    the same url, size and type) as [urlDetail].  The copy saved in the
    session has the typed text as its
    content and keeps the id and the [urlDetail]; what is sent to the
    backend is the summarizing instruction, a blank line and the body. *)
Theorem file_input_summarized (content : string) (file : FileWrap)
  (backend : list BackendEvent) (w : World) (d : URLDetailContent) :
  wf w ->
  (extension file = "pdf" /\ pdfFileDetail file = inr d \/
   extension file = "txt" /\ plainTextFileDetail file = inr d) ->
  exists (r : CallResult) (w' w0 : World) (u saved : loc) (um sm : ChatMessage)
         (d' : URLDetailContent) (req : ChatRequest) (t0 t : list Event),
    callSession content (Some file) backend w = Some (r, w') /\
    trace w' = trace w ++ t0 ++ [EvChat req] ++ t /\
    Forall (fun e => is_chat e = false) (t0 ++ t) /\
    req_message req
      = Some (summarize_instruction +:+ blank_line +:+ js_str (ud_content d)) /\
    callSession content (Some file) [] w = Some (ResUndefined, w0) /\
    messages (session w0) = messages (session w) ++ [saved; S u] /\
    heap w0 !! u = Some um /\
    msg_role um = "user" /\
    msg_content um = ud_content d /\
    msg_urlDetail um = Some (delete_content d) /\
    heap w0 !! saved = Some sm /\
    msg_content sm = Some content /\
    msg_urlDetail sm = Some (delete_content d) /\
    msg_id sm = msg_id um /\
    msg_urlDetail um = Some d' /\
    msg_urlDetail sm = Some d' /\
    ud_content d' = None /\
    ud_url d' = ud_url d /\ ud_size d' = ud_size d /\ ud_type d' = ud_type d.
Proof.
  intros Hwf Hfile.
  set (um := message_literal (created w)
               {| o_id := None; o_date := None; o_role := Some "user";
                  o_content := Some (ud_content d);
                  o_streaming := None; o_isError := None;
                  o_urlDetail := Some (delete_content d) |}).
  assert (Hd : getDetailContentFromFile file = inr d).
  { unfold getDetailContentFromFile.
    destruct Hfile as [[-> Hd]|[-> Hd]]; cbn; exact Hd. }
  assert (Hc : createUserMessage content (Some file) w
               = Some (inr (length (heap w)),
                       set_heap (heap w ++ [um]) (set_created (S (created w)) w))).
  { cbn [createUserMessage]. unfold createFileInputMessage.
    rewrite Hd. unfold bind. by rewrite createMessage_run. }
  destruct (callSession_completes _ _ _ _ _ backend Hwf Hc)
    as (um' & ts & r & w' & Hb & Hts & Hrun & Hrun0 & Hlen & Hother & t & Ht & Hnochat).
  assert (Hum : um = um').
  { eapply built_inj; [|exact Hb]. by repeat split. }
  subst um'.
  exists r, w', (sending_world w um content ts).
  exists (length (heap w)), (S (S (length (heap w)))), um,
         (with_content (Some content) um).
  exists (delete_content d), (sending_request w um ts).
  exists [EvSetMessages (sending_messages w); EvUpdateMessages (sending_messages w)], t.
  split; [done|]. split.
  { rewrite Ht. cbn [trace sending_world]. by rewrite <- app_assoc. }
  split; [by repeat constructor|].
  split; [reflexivity|]. split; [done|]. split; [reflexivity|].
  split; [cbn [heap sending_world]; by apply list_lookup_middle|].
  do 3 (split; [reflexivity|]).
  split; [cbn [heap sending_world]; apply lookup_app_SS|].
  by repeat split.
Qed.

(** X3.  When the extraction behind the user message fails (the extractor
    of an uploaded file, or the fetch of a URL-classified input), the
    backend is not called and nothing is thrown: the call returns the
    assistant message of an error exchange whose content is [prettyObject]
    of [{error: true, message}], the message being the error's own text, or
    "Invalid user message" when that text is empty.  Exactly two objects
    are allocated and appended to the session list, by one assignment and
    one notification; neither carries an [isError] or [streaming] flag, and
    the pool is untouched. *)
Theorem extraction_failure_error_exchange (content : string)
  (file : option FileWrap) (backend : list BackendEvent) (w : World)
  (error : Error) :
  ((exists f, file = Some f /\ getDetailContentFromFile f = inl error) \/
   (file = None /\ isURL content = true /\
    fetchSiteContent content = inl error)) ->
  exists (w' : World) (u b : loc) (um bm : ChatMessage),
    callSession content file backend w = Some (ResMessage b, w') /\
    heap w' = heap w ++ [um; bm] /\
    u = length (heap w) /\ b = S u /\
    messages (session w') = messages (session w) ++ [u; b] /\
    trace w' = trace w ++ [EvSetMessages (messages (session w'));
                           EvUpdateMessages (messages (session w'))] /\
    pool w' = pool w /\
    msg_role um = "user" /\ msg_content um = Some content /\
    msg_role bm = "assistant" /\
    (err_message error = EmptyString ->
     msg_content bm
     = Some (prettyObject {| eo_error := true;
                             eo_message := "Invalid user message" |})) /\
    (err_message error <> EmptyString ->
     msg_content bm
     = Some (prettyObject {| eo_error := true;
                             eo_message := err_message error |})) /\
    msg_isError um = None /\ msg_isError bm = None /\
    msg_streaming um = None /\ msg_streaming bm = None.
Proof.
  intros Hfail.
  assert (Hc : createUserMessage content file w = Some (inl error, w)).
  { destruct Hfail as [(f & -> & Hf)|(-> & Hurl & Hfetch)].
    - cbn [createUserMessage]. unfold createFileInputMessage. by rewrite Hf.
    - cbn [createUserMessage]. unfold createTextInputMessage.
      by rewrite Hurl, Hfetch. }
  exists (error_world w content error), (length (heap w)), (S (length (heap w))).
  exists (error_user w content), (error_bot w content error).
  split; [by eapply callSession_failed|].
  do 9 (split; [reflexivity|]).
  split; [|split; [|by repeat split]].
  - intros He. cbn [msg_content error_bot message_literal o_content default
                    from_option id]. by rewrite He.
  - intros He. cbn [msg_content error_bot message_literal o_content default
                    from_option id]. by destruct (err_message error).
Qed.

(** ** Streaming and the terminal hooks, explicitly *)

(** The run up to the terminal hook, as an explicit world. *)
Lemma callSession_streaming (content : string) (file : option FileWrap)
  (pre : list BackendEvent) (w w1 : World) (u : loc) :
  wf w ->
  createUserMessage content file w = Some (inr u, w1) ->
  Forall nonterminal pre ->
  exists um ts,
    built w um u w1 /\
    callSession content file pre w
      = Some (ResUndefined,
              streaming_world (sending_closure w) (placeholder w) pre
                              (sending_world w um content ts)) /\
    forall ev, callSession content file (pre ++ [ev]) w
               = fire (sending_closure w) ResUndefined ev
                      (streaming_world (sending_closure w) (placeholder w) pre
                                       (sending_world w um content ts)).
Proof.
  intros Hwf Hc Hpre.
  destruct (callSession_reaches_backend _ _ _ _ _ Hwf Hc)
    as (um & ts & Hb & Hts & Hlive & Hrun).
  assert (Hp : heap (sending_world w um content ts)
               !! botMessage (sending_closure w) = Some (placeholder w)).
  { cbn [heap sending_world sending_closure botMessage]. apply lookup_app_S. }
  exists um, ts. split; [done|]. split.
  - rewrite Hrun. by apply fire_all_streaming_world.
  - intros ev. rewrite Hrun, fire_all_app.
    rewrite (fire_all_streaming_world _ _ Hpre _ _ _ Hp).
    apply fire_all_single.
Qed.

Lemma streaming_world_bot (cl : Closure) (b : ChatMessage)
  (pre : list BackendEvent) (w : World) :
  heap w !! botMessage cl = Some b ->
  heap (streaming_world cl b pre w) !! botMessage cl = Some (bot_after pre b).
Proof.
  intros Hb. cbn [heap streaming_world]. apply list_lookup_insert_eq.
  by eapply lookup_lt_Some.
Qed.

(** X6.  While the backend streams, the placeholder, which is the last
    message of the session list, holds the last partial content that was
    not the empty string (the empty string as long as there was none): an
    update with empty content changes nothing but the streaming flag, and
    controllers arriving in between change nothing of the message.  The
    placeholder stays an unflagged, streaming assistant message and the
    list itself stays as it was appended. *)
Theorem partial_content_is_last_update (content : string)
  (file : option FileWrap) (pre : list BackendEvent) (w w1 : World) (u : loc) :
  wf w ->
  createUserMessage content file w = Some (inr u, w1) ->
  Forall nonterminal pre ->
  exists (w_pre : World) (saved bot_loc : loc) (pm : ChatMessage),
    callSession content file pre w = Some (ResUndefined, w_pre) /\
    messages (session w_pre) = messages (session w) ++ [saved; bot_loc] /\
    heap w_pre !! bot_loc = Some pm /\
    msg_content pm = Some (default EmptyString (last_partial pre)) /\
    msg_streaming pm = Some true /\
    msg_role pm = "assistant" /\
    msg_isError pm = None /\
    msg_id pm = JStr (nanoid (S (created w))).
Proof.
  intros Hwf Hc Hpre.
  destruct (callSession_streaming _ _ pre _ _ _ Hwf Hc Hpre)
    as (um & ts & Hb & Hrun & _).
  eexists. exists (S (S (length (heap w)))), (S (length (heap w))).
  exists (bot_after pre (placeholder w)).
  split; [exact Hrun|]. split; [reflexivity|].
  split.
  { apply (streaming_world_bot (sending_closure w)).
    cbn [heap sending_world sending_closure botMessage]. apply lookup_app_S. }
  destruct (bot_after_fields pre (placeholder w)) as (Hid & _ & Hrole & Herr & _).
  rewrite bot_after_content, bot_after_streaming, Hid, Hrole, Herr.
  split; [by destruct (last_partial pre)|].
  split; [by destruct (updates pre)|]. by repeat split.
Qed.

(** X7.  The calls an exchange makes, in order, when the backend fires
    non-terminal hooks and then one terminal hook: one assignment of the
    list with the two new messages and one notification; the single
    backend call; one notification with that same list per [onUpdate] and
    one registration per [onController], in the order of the hooks; then,
    for [onFinish], one assignment of the final list, one notification and
    the removal from the pool, and for [onError], one notification with the
    unchanged list and the removal.  Nothing else is recorded. *)
Theorem exchange_trace (content : string) (file : option FileWrap)
  (pre : list BackendEvent) (ev : BackendEvent) (w w1 : World) (u : loc) :
  wf w ->
  createUserMessage content file w = Some (inr u, w1) ->
  Forall nonterminal pre ->
  terminal ev ->
  exists (r : CallResult) (w' : World) (req : ChatRequest)
         (saved bot_loc : loc) (key : JsVal),
    callSession content file (pre ++ [ev]) w = Some (r, w') /\
    key = JStr (nanoid (S (created w))) /\
    trace w' =
      trace w
      ++ [EvSetMessages (messages (session w) ++ [saved; bot_loc]);
          EvUpdateMessages (messages (session w) ++ [saved; bot_loc]);
          EvChat req]
      ++ stream_events (messages (session w) ++ [saved; bot_loc])
                       (sid (session w)) key pre
      ++ match ev with
         | OnFinish _ =>
             [EvSetMessages (messages (session w'));
              EvUpdateMessages (messages (session w'));
              EvRemove (sid (session w)) key]
         | _ =>
             [EvUpdateMessages (messages (session w) ++ [saved; bot_loc]);
              EvRemove (sid (session w)) key]
         end.
Proof.
  intros Hwf Hc Hpre Hev.
  destruct (callSession_streaming _ _ pre _ _ _ Hwf Hc Hpre)
    as (um & ts & Hb & _ & Hrun).
  set (cl := sending_closure w) in *.
  set (ws := streaming_world cl (placeholder w) pre
                             (sending_world w um content ts)) in *.
  assert (Hbot : heap ws !! botMessage cl = Some (bot_after pre (placeholder w))).
  { apply streaming_world_bot.
    cbn [heap sending_world cl sending_closure botMessage]. apply lookup_app_S. }
  destruct (bot_after_fields pre (placeholder w)) as (Hid & _).
  destruct ev as [| |newMessages|error]; try done.
  - destruct (onFinish_run cl newMessages _ ws Hbot)
      as (news & wn & replaced & -> & _ & _ & _ & _ & Hfin).
    do 3 eexists. exists (S (S (length (heap w)))), (S (length (heap w))).
    eexists. split; [rewrite Hrun; exact Hfin|]. split; [reflexivity|].
    cbn [trace session set_messages messages ws streaming_world sending_world sid].
    rewrite Hid. by rewrite <- !app_assoc.
  - assert (Hu : heap ws !! userMessage cl = Some um).
    { cbn [heap ws streaming_world cl sending_closure userMessage botMessage].
      rewrite list_lookup_insert_ne by lia.
      cbn [heap sending_world]. by apply list_lookup_middle. }
    do 3 eexists. exists (S (S (length (heap w)))), (S (length (heap w))).
    eexists. split.
    { rewrite Hrun. cbn [fire].
      apply (onError_run cl _ _ um _ Hbot Hu).
      cbn [cl sending_closure userMessage botMessage]. lia. }
    split; [reflexivity|].
    cbn [trace log set_pool set_heap session set_messages messages ws
         streaming_world sending_world sid].
    unfold registry_key. rewrite Hid. by rewrite <- !app_assoc.
Qed.

(** X9.  When the backend reports an error after streaming, the exchange
    stays in the session: the list is the one appended at the start, its
    last message is the placeholder, which is also what the call returns,
    and no object is allocated.  The placeholder's content is the last
    non-empty partial content (nothing if there was none), a blank line,
    and the pretty-printed error; it is no longer streaming, and it is
    flagged exactly when the error text does not contain "aborted". *)
Theorem onError_keeps_exchange (content : string) (file : option FileWrap)
  (pre : list BackendEvent) (error : Error) (w w1 : World) (u : loc) :
  wf w ->
  createUserMessage content file w = Some (inr u, w1) ->
  Forall nonterminal pre ->
  exists (w_pre w' : World) (saved bot_loc : loc) (bm : ChatMessage),
    callSession content file pre w = Some (ResUndefined, w_pre) /\
    callSession content file (pre ++ [OnError error]) w
      = Some (ResMessage bot_loc, w') /\
    messages (session w') = messages (session w) ++ [saved; bot_loc] /\
    messages (session w') = messages (session w_pre) /\
    last (messages (session w')) = Some bot_loc /\
    length (heap w') = length (heap w_pre) /\
    created w' = created w_pre /\
    heap w' !! bot_loc = Some bm /\
    msg_role bm = "assistant" /\
    msg_content bm
      = Some (default EmptyString (last_partial pre) +:+ blank_line +:+
              prettyObject {| eo_error := true;
                              eo_message := err_message error |}) /\
    msg_streaming bm = Some false /\
    msg_isError bm = Some (negb (includes "aborted" (err_message error))).
Proof.
  intros Hwf Hc Hpre.
  destruct (callSession_streaming _ _ pre _ _ _ Hwf Hc Hpre)
    as (um & ts & Hb & Hrun_pre & Hrun).
  set (cl := sending_closure w) in *.
  set (ws := streaming_world cl (placeholder w) pre
                             (sending_world w um content ts)) in *.
  assert (Hbot : heap ws !! botMessage cl = Some (bot_after pre (placeholder w))).
  { apply streaming_world_bot.
    cbn [heap sending_world cl sending_closure botMessage]. apply lookup_app_S. }
  assert (Hu : heap ws !! userMessage cl = Some um).
  { cbn [heap ws streaming_world cl sending_closure userMessage botMessage].
    rewrite list_lookup_insert_ne by lia.
    cbn [heap sending_world]. by apply list_lookup_middle. }
  destruct (bot_after_fields pre (placeholder w)) as (_ & _ & Hrole & _).
  pose proof (bot_after_content pre (placeholder w)) as Hcontent.
  exists ws. eexists. exists (S (S (length (heap w)))), (S (length (heap w))).
  exists (failed_bot error (bot_after pre (placeholder w))).
  split; [exact Hrun_pre|]. split.
  { rewrite Hrun. cbn [fire].
    apply (onError_run cl _ _ um _ Hbot Hu).
    cbn [cl sending_closure userMessage botMessage]. lia. }
  cbn [session heap created log set_pool set_heap].
  split; [reflexivity|]. split; [reflexivity|].
  split.
  { cbn [session ws streaming_world sending_world set_messages messages].
    unfold sending_messages. by rewrite last_app. }
  split; [by rewrite !length_insert|]. split; [reflexivity|].
  split.
  { apply list_lookup_insert_eq. rewrite length_insert.
    by eapply lookup_lt_Some. }
  split; [exact Hrole|]. split; [|by split].
  cbn [msg_content failed_bot with_isError with_streaming with_content].
  rewrite Hcontent. by destruct (last_partial pre).
Qed.

(** ** The messages installed by [onFinish] *)

Lemma normalized_all_fresh (newMessages : list RequestMessage) (w : World) :
  exists news w1,
    mapM normalized_copy newMessages w = Some (news, w1) /\
    (exists ext, heap w1 = heap w ++ ext) /\
    Forall (fun l => length (heap w) < l) news /\
    NoDup news /\
    (forall j l, news !! j = Some l ->
       exists m, heap w1 !! l = Some m /\
                 msg_id m = JStr (nanoid (created w + j)) /\
                 msg_date m = localeDate (created w + j)).
Proof.
  revert w. induction newMessages as [|message rest IH]; intros w.
  - exists [], w. split; [done|]. split; [exists []; by rewrite app_nil_r|].
    split; [constructor|]. split; [constructor|]. by intros j l.
  - set (m := message_literal (created w) (override_of_request message)).
    destruct (IH (set_heap (heap w ++ [m; m]) (set_created (S (created w)) w)))
      as (news & w1 & Hrun & [ext Hext] & Hfresh & Hnodup & Hids).
    cbn [heap set_heap set_created created] in *.
    rewrite length_app in Hfresh. cbn [length] in Hfresh.
    exists (S (length (heap w)) :: news), w1.
    split; [|split; [|split; [|split]]].
    + cbn [mapM]. unfold bind at 1. rewrite normalized_copy_run.
      fold m. unfold bind at 1. by rewrite Hrun.
    + exists ([m; m] ++ ext). by rewrite Hext, <- app_assoc.
    + constructor; [lia|]. eapply Forall_impl; [exact Hfresh|].
      intros l. cbn beta. lia.
    + constructor; [|done]. intros Hin.
      apply (proj1 (Forall_forall _ _) Hfresh) in Hin. lia.
    + intros [|j] l Hl.
      * injection Hl as <-. exists m. split; [|by rewrite Nat.add_0_r].
        rewrite Hext, <- app_assoc. apply lookup_app_S.
      * destruct (Hids j l Hl) as (x & Hx & Hid & Hdate).
        exists x. split; [done|].
        by replace (created w + S j) with (S (created w) + j) by lia.
Qed.

Lemma onFinish_eq (cl : Closure) (newMessages : list RequestMessage)
  (b : ChatMessage) (w w1 : World) (news : list loc) :
  mapM normalized_copy newMessages w = Some (news, w1) ->
  heap w !! botMessage cl = Some b ->
  onFinish cl newMessages w =
  Some (ResArray (js_slice news (-1) None),
        {| heap := heap w1; created := created w1;
           session := session
             (set_messages
                (js_slice (messages (session w)) 0 (Some (-2)%Z) ++ news) w);
           pool := delete (sid (session w), msg_id b) (pool w);
           trace := trace w ++
             [EvSetMessages
                (js_slice (messages (session w)) 0 (Some (-2)%Z) ++ news);
              EvUpdateMessages
                (js_slice (messages (session w)) 0 (Some (-2)%Z) ++ news);
              EvRemove (sid (session w)) (msg_id b)] |}).
Proof.
  intros Hrun Hb.
  destruct (normalized_all_run newMessages w)
    as (news' & w1' & Hrun' & _ & _ & Hs & Hp & Ht & [ext Hext] & _).
  rewrite Hrun in Hrun'. injection Hrun' as <- <-.
  unfold onFinish. unfold bind at 1.
  change (mapM _ newMessages w) with (mapM normalized_copy newMessages w).
  rewrite Hrun. unfold bind at 1. cbn [getSession].
  unfold bind at 1. cbn [assignMessages].
  unfold bind at 1. cbn [getSession].
  unfold bind at 1. cbn [onUpdateMessages emit].
  unfold bind at 1. rewrite (load_hit _ b).
  2:{ cbn [heap log set_messages]. rewrite Hext. by apply lookup_app_l_Some. }
  unfold bind, remove, ret, log, set_pool, set_messages.
  cbn [heap created session pool trace sid messages clearContextIndex bot].
  rewrite Hs, Hp, Ht, <- !app_assoc. reflexivity.
Qed.

(** X8.  After [onFinish] the session list is the list the call started
    from followed by the normalized messages, and these are objects of
    their own: pairwise distinct, allocated after everything the call had
    created before, each with the next id of the identifier generator in the
    order returned.  Neither the saved user message nor the placeholder is
    in the list any more; the placeholder object itself is left as the
    streaming left it, still marked as streaming. *)
Theorem onFinish_installs_fresh_messages (content : string)
  (file : option FileWrap) (pre : list BackendEvent)
  (newMessages : list RequestMessage) (w w1 : World) (u : loc) :
  wf w ->
  createUserMessage content file w = Some (inr u, w1) ->
  Forall nonterminal pre ->
  exists (r : CallResult) (w_pre w' : World) (saved bot_loc : loc)
         (news : list loc) (pm : ChatMessage),
    callSession content file pre w = Some (ResUndefined, w_pre) /\
    messages (session w_pre) = messages (session w) ++ [saved; bot_loc] /\
    callSession content file (pre ++ [OnFinish newMessages]) w = Some (r, w') /\
    messages (session w') = messages (session w) ++ news /\
    length news = length newMessages /\
    NoDup news /\
    Forall (fun l => saved < l /\ bot_loc < l /\ u < l) news /\
    (saved ∉ messages (session w')) /\
    (bot_loc ∉ messages (session w')) /\
    (forall j l, news !! j = Some l ->
       exists m, heap w' !! l = Some m /\
                 msg_id m = JStr (nanoid (S (S (created w)) + j))) /\
    heap w' !! bot_loc = Some pm /\
    msg_streaming pm = Some true /\
    msg_content pm = Some (default EmptyString (last_partial pre)).
Proof.
  intros Hwf Hc Hpre.
  destruct (callSession_streaming _ _ pre _ _ _ Hwf Hc Hpre)
    as (um & ts & Hb & Hrun_pre & Hrun).
  destruct Hb as (-> & _).
  set (cl := sending_closure w) in *.
  set (ws := streaming_world cl (placeholder w) pre
                             (sending_world w um content ts)) in *.
  assert (Hbot : heap ws !! botMessage cl = Some (bot_after pre (placeholder w))).
  { apply streaming_world_bot.
    cbn [heap sending_world cl sending_closure botMessage]. apply lookup_app_S. }
  destruct (normalized_all_fresh newMessages ws)
    as (news & wn & Hnorm & [ext Hext] & Hfresh & Hnodup & Hids).
  destruct (normalized_all_run newMessages ws)
    as (news' & wn' & Hnorm' & Hlen & _).
  rewrite Hnorm in Hnorm'. injection Hnorm' as <- <-.
  assert (Hlenws : length (heap ws) = length (heap w) + 3).
  { cbn [heap ws streaming_world sending_world]. rewrite length_insert, length_app.
    by cbn [length]. }
  rewrite Hlenws in Hfresh.
  assert (Hnew : Forall (fun l => length (heap w) + 3 <= l) news).
  { eapply Forall_impl; [exact Hfresh|]. intros l. cbn beta. lia. }
  exists (ResArray (js_slice news (-1) None)), ws. eexists.
  exists (S (S (length (heap w)))), (S (length (heap w))), news.
  exists (bot_after pre (placeholder w)).
  split; [exact Hrun_pre|]. split; [reflexivity|].
  split; [rewrite Hrun; cbn [fire]; by apply onFinish_eq|].
  cbn [session heap set_messages messages ws streaming_world sending_world].
  unfold sending_messages. rewrite js_slice_drops_pair.
  split; [reflexivity|]. split; [done|]. split; [done|].
  split; [eapply Forall_impl; [exact Hnew|]; intros l; cbn beta; lia|].
  assert (Hout : forall x, length (heap w) <= x -> x < length (heap w) + 3 ->
                           x ∉ messages (session w) ++ news).
  { intros x Hge Hlt Hin. apply elem_of_app in Hin as [Hin|Hin].
    - destruct Hwf as [Hm _].
      apply (proj1 (Forall_forall _ _) Hm) in Hin. lia.
    - apply (proj1 (Forall_forall _ _) Hnew) in Hin. lia. }
  split; [apply Hout; lia|]. split; [apply Hout; lia|].
  split.
  { intros j l Hl. destruct (Hids j l Hl) as (m & Hm & Hid & _).
    exists m. split; [done|]. exact Hid. }
  split.
  { rewrite Hext. apply lookup_app_l_Some. exact Hbot. }
  rewrite bot_after_streaming, bot_after_content.
  split; [by destruct (updates pre)|]. by destruct (last_partial pre).
Qed.

(** ** The request *)

(** X10.  Every request sent to the backend carries the model
    configuration of the session's bot with [stream] forced to [true]: the
    key is set whatever the configuration said, and every other key is
    passed on unchanged. *)
Theorem request_forces_streaming (content : string) (file : option FileWrap)
  (backend : list BackendEvent) (w w1 : World) (u : loc) :
  wf w ->
  createUserMessage content file w = Some (inr u, w1) ->
  exists (r : CallResult) (w' : World) (req : ChatRequest) (t0 t : list Event),
    callSession content file backend w = Some (r, w') /\
    trace w' = trace w ++ t0 ++ [EvChat req] ++ t /\
    Forall (fun e => is_chat e = false) (t0 ++ t) /\
    req_config req !! "stream" = Some (JBool true) /\
    (forall k, k <> "stream" ->
               req_config req !! k = modelConfig (bot (session w)) !! k).
Proof.
  intros Hwf Hc.
  destruct (callSession_completes _ _ _ _ _ backend Hwf Hc)
    as (um & ts & r & w' & Hb & Hts & Hrun & Hrun0 & Hlen & Hother & t & Ht & Hnochat).
  exists r, w', (sending_request w um ts).
  exists [EvSetMessages (sending_messages w); EvUpdateMessages (sending_messages w)], t.
  split; [done|]. split.
  { rewrite Ht. cbn [trace sending_world]. by rewrite <- app_assoc. }
  split; [by repeat constructor|].
  cbn [req_config sending_request].
  split; [apply lookup_insert_eq|].
  intros k Hk. by rewrite lookup_insert_ne.
Qed.

Lemma forwarded_role (h : list ChatMessage) (ls : list loc) (ts : list Sent) :
  Forall2 (forwarded h) ls ts ->
  Forall (fun x =>
            exists l m, l ∈ ls /\ h !! l = Some m /\
              (msg_role m <> "URL" /\ x = SentRef l \/
               msg_role m = "URL" /\
               x = SentNew {| rm_role := "assistant";
                              rm_content := msg_content m |})) ts.
Proof.
  induction 1 as [|l x ls xs (m & Hm & ->) _ IH]; constructor.
  - exists l, m. split; [apply list_elem_of_here|]. split; [done|].
    destruct (String.eqb_spec (msg_role m) "URL"); [by right|by left].
  - eapply Forall_impl; [exact IH|]. intros y (l' & m' & Hin & Hrest).
    exists l', m'. split; [by apply list_elem_of_further|done].
Qed.

Lemma recentMessages_subseteq (s : ChatSession) :
  recentMessages s ⊆ messages s.
Proof.
  unfold recentMessages.
  destruct (clearContextIndex s) as [[|k|k]|]; try done;
    unfold js_slice; (etrans; [apply subseteq_take|apply subseteq_drop]).
Qed.

Lemma forwarded_passed_on (h : list ChatMessage) (ls : list loc)
  (ts : list Sent) :
  Forall2 (forwarded h) ls ts -> Forall2 (passed_on h) ls ts.
Proof.
  intros Hf. eapply Forall2_impl; [exact Hf|].
  intros l x (m & Hm & ->). exists m. split; [done|].
  destruct (String.eqb_spec (msg_role m) "URL"); [by right|by left].
Qed.

(** X11.  What the history sent to the backend is made of: first the bot's
    context prompts, each passed as the object it is, whatever its role;
    then exactly one entry per message of the window, paired in order (the
    whole list without a clear-context index, the list from index [k] for
    [k >= 0], the last [-k] messages for a negative [k]), which is the
    message object itself when its role is not [URL], and otherwise a new
    object with role [assistant] and the same content.  No message of the
    session with role [URL] is ever passed on as it is. *)
Theorem history_entries (content : string) (file : option FileWrap)
  (backend : list BackendEvent) (w w1 : World) (u : loc) :
  wf w ->
  createUserMessage content file w = Some (inr u, w1) ->
  exists (r : CallResult) (w' : World) (req : ChatRequest) (ts : list Sent)
         (t0 t : list Event),
    callSession content file backend w = Some (r, w') /\
    trace w' = trace w ++ t0 ++ [EvChat req] ++ t /\
    Forall (fun e => is_chat e = false) (t0 ++ t) /\
    req_chatHistory req = (SentRef <$> context (bot (session w))) ++ ts /\
    (clearContextIndex (session w) = None ->
     Forall2 (passed_on (heap w)) (messages (session w)) ts) /\
    (forall k, clearContextIndex (session w) = Some k -> (0 <= k)%Z ->
       Forall2 (passed_on (heap w))
               (drop (Z.to_nat k) (messages (session w))) ts) /\
    (forall k, clearContextIndex (session w) = Some k -> (k < 0)%Z ->
       Forall2 (passed_on (heap w))
               (drop (length (messages (session w)) - Z.to_nat (- k))
                     (messages (session w))) ts) /\
    length ts = length (recentMessages (session w)) /\
    Forall (fun x =>
              exists l m, l ∈ messages (session w) /\ heap w !! l = Some m /\
                (msg_role m <> "URL" /\ x = SentRef l \/
                 msg_role m = "URL" /\
                 x = SentNew {| rm_role := "assistant";
                                rm_content := msg_content m |})) ts.
Proof.
  intros Hwf Hc.
  destruct (callSession_completes _ _ _ _ _ backend Hwf Hc)
    as (um & ts & r & w' & Hb & Hts & Hrun & Hrun0 & Hlen & Hother & t & Ht & Hnochat).
  pose proof (transform_history_sources _ _ _ _ Hts) as Hsrc.
  pose proof (forwarded_passed_on _ _ _ Hsrc) as Hpass.
  destruct (recentMessages_cases (session w)) as (Hall & Hfrom & Hend).
  exists r, w', (sending_request w um ts), ts.
  exists [EvSetMessages (sending_messages w); EvUpdateMessages (sending_messages w)], t.
  split; [done|]. split.
  { rewrite Ht. cbn [trace sending_world]. by rewrite <- app_assoc. }
  split; [by repeat constructor|]. split; [reflexivity|].
  split; [intros Hnone; by rewrite <- (Hall Hnone)|].
  split; [intros k Hk Hpos; by rewrite <- (Hfrom k Hk Hpos)|].
  split; [intros k Hk Hneg; by rewrite <- (Hend k Hk Hneg)|].
  split; [symmetry; by eapply Forall2_length|].
  eapply Forall_impl; [by apply forwarded_role|].
  intros x (l & m & Hin & Hrest). exists l, m. split; [|done].
  by apply recentMessages_subseteq.
Qed.

(** X12.  When the clear-context index is at or beyond the end of the
    session list (as it is right after the context was cleared), no message
    of the session is sent: the history of the request is the bot's context
    prompts and nothing else. *)
Theorem cleared_context_sends_prompts_only (content : string)
  (file : option FileWrap) (backend : list BackendEvent) (w w1 : World)
  (u : loc) (k : Z) :
  wf w ->
  createUserMessage content file w = Some (inr u, w1) ->
  clearContextIndex (session w) = Some k ->
  (Z.of_nat (length (messages (session w))) <= k)%Z ->
  exists (r : CallResult) (w' : World) (req : ChatRequest) (t0 t : list Event),
    callSession content file backend w = Some (r, w') /\
    trace w' = trace w ++ t0 ++ [EvChat req] ++ t /\
    Forall (fun e => is_chat e = false) (t0 ++ t) /\
    req_chatHistory req = SentRef <$> context (bot (session w)).
Proof.
  intros Hwf Hc Hk Hge.
  destruct (callSession_completes _ _ _ _ _ backend Hwf Hc)
    as (um & ts & r & w' & Hb & Hts & Hrun & Hrun0 & Hlen & Hother & t & Ht & Hnochat).
  assert (Hrecent : recentMessages (session w) = []).
  { rewrite (recentMessages_window _ k) by (done || lia).
    apply drop_ge. lia. }
  rewrite Hrecent in Hts. injection Hts as <-.
  exists r, w', (sending_request w um []).
  exists [EvSetMessages (sending_messages w); EvUpdateMessages (sending_messages w)], t.
  split; [done|]. split.
  { rewrite Ht. cbn [trace sending_world]. by rewrite <- app_assoc. }
  split; [by repeat constructor|].
  cbn [req_chatHistory sending_request]. by rewrite app_nil_r.
Qed.

(** ** Sessions and successive exchanges *)

(** The requests a call sends to the backend: none that was not sent
    before when the user message cannot be built, and otherwise one, whose
    history is the context prompts followed by the re-tagged window of the
    session list the call started from. *)
Lemma callSession_requests (content : string) (file : option FileWrap)
  (backend : list BackendEvent) (w : World) :
  wf w ->
  exists r w',
    callSession content file backend w = Some (r, w') /\
    forall req, EvChat req ∈ trace w' ->
      EvChat req ∈ trace w \/
      exists ts,
        mapM transformAssistantMessageForSending (recentMessages (session w)) w
          = Some (ts, w) /\
        req_chatHistory req = (SentRef <$> context (bot (session w))) ++ ts.
Proof.
  intros Hwf.
  destruct (createUserMessage_cases content file w) as [[e He]|[um Hum]].
  - do 2 eexists. split; [by eapply callSession_failed|].
    intros req Hin. left. cbn [trace error_world] in Hin.
    apply elem_of_app in Hin as [Hin|Hin]; [done|].
    apply elem_of_cons in Hin as [Hin|Hin]; [done|].
    apply elem_of_cons in Hin as [Hin|Hin]; [done|].
    by apply elem_of_nil in Hin.
  - destruct (callSession_completes _ _ _ _ _ backend Hwf Hum)
      as (um' & ts & r & w' & Hb & Hts & Hrun & _ & _ & _ & t & Ht & Hnochat).
    exists r, w'. split; [done|]. intros req Hin.
    rewrite Ht in Hin. cbn [trace sending_world] in Hin.
    apply elem_of_app in Hin as [Hin|Hin].
    + apply elem_of_app in Hin as [Hin|Hin]; [by left|].
      apply elem_of_cons in Hin as [Hin|Hin]; [done|].
      apply elem_of_cons in Hin as [Hin|Hin]; [done|].
      apply elem_of_cons in Hin as [Hin|Hin]; [|by apply elem_of_nil in Hin].
      injection Hin as ->. right. by exists ts.
    + apply (proj1 (Forall_forall _ _) Hnochat) in Hin. done.
Qed.

(** X13.  [createEmptySession(bot)] takes the next identifier of the
    generator as the session id and returns a session without messages and
    without clear-context index, bound to the bot passed (the default bot is
    built only when none is passed); it touches nothing else.  A call on
    such a session runs to completion, and a request it sends carries the
    bot's context prompts as its whole history. *)
Theorem first_exchange_of_empty_session (createEmptyBot : M Bot) (b : Bot)
  (w : World) :
  Forall (fun l => l < length (heap w)) (context b) ->
  exists (s : ChatSession) (w1 : World),
    createEmptySession createEmptyBot (Some b) w = Some (s, w1) /\
    s = {| sid := nanoid (created w); messages := [];
           clearContextIndex := None; bot := b |} /\
    w1 = set_created (S (created w)) w /\
    (forall b' w2,
        createEmptyBot w1 = Some (b', w2) ->
        createEmptySession createEmptyBot None w
        = Some ({| sid := nanoid (created w); messages := [];
                   clearContextIndex := None; bot := b' |}, w2)) /\
    forall content file backend,
      exists r w',
        callSession content file backend (with_session s w1) = Some (r, w') /\
        forall req, EvChat req ∈ trace w' ->
          EvChat req ∈ trace w \/
          req_chatHistory req = SentRef <$> context b.
Proof.
  intros Hctx. do 2 eexists. split; [reflexivity|].
  split; [reflexivity|]. split; [reflexivity|]. split.
  { intros b' w2 Hb'. unfold createEmptySession, bind, tick, ret.
    by rewrite Hb'. }
  intros content file backend.
  match goal with |- context [with_session ?s ?w1] => set (w0 := with_session s w1) end.
  assert (Hwf : wf w0) by (split; [constructor|exact Hctx]).
  destruct (callSession_requests content file backend w0 Hwf)
    as (r & w' & Hrun & Hreq).
  exists r, w'. split; [done|]. intros req Hin.
  destruct (Hreq req Hin) as [Hold|(ts & Hts & Hhist)]; [by left|].
  right. injection Hts as <-. by rewrite Hhist, app_nil_r.
Qed.

(** X14.  What the backend returns is part of the next context: after an
    exchange that ended with [onFinish] on a session without clear-context
    index, a further call runs to completion, and the history of a request
    it sends is the context prompts followed by one entry for each message
    the session had before and for each normalized message installed by
    [onFinish], in that order. *)
Theorem next_exchange_sees_reply (content : string) (file : option FileWrap)
  (pre : list BackendEvent) (newMessages : list RequestMessage)
  (w w1 : World) (u : loc) :
  wf w ->
  createUserMessage content file w = Some (inr u, w1) ->
  Forall nonterminal pre ->
  clearContextIndex (session w) = None ->
  exists (r : CallResult) (w' : World) (news : list loc),
    callSession content file (pre ++ [OnFinish newMessages]) w = Some (r, w') /\
    messages (session w') = messages (session w) ++ news /\
    Forall2 (normalizes (heap w')) news newMessages /\
    forall content2 file2 backend2,
      exists r2 w2,
        callSession content2 file2 backend2 w' = Some (r2, w2) /\
        forall req, EvChat req ∈ trace w2 ->
          EvChat req ∈ trace w' \/
          exists ts,
            req_chatHistory req = (SentRef <$> context (bot (session w))) ++ ts /\
            Forall2 (forwarded (heap w')) (messages (session w) ++ news) ts.
Proof.
  intros Hwf Hc Hpre Hnone.
  destruct (callSession_streaming _ _ pre _ _ _ Hwf Hc Hpre)
    as (um & ts & Hb & _ & Hrun).
  set (cl := sending_closure w) in *.
  set (ws := streaming_world cl (placeholder w) pre
                             (sending_world w um content ts)) in *.
  assert (Hbot : heap ws !! botMessage cl = Some (bot_after pre (placeholder w))).
  { apply streaming_world_bot.
    cbn [heap sending_world cl sending_closure botMessage]. apply lookup_app_S. }
  destruct (normalized_all_run newMessages ws)
    as (news & wn & Hnorm & _ & _ & _ & _ & _ & _ & _ & Hnormal).
  pose proof (onFinish_eq cl newMessages _ ws wn news Hnorm Hbot) as Hfin.
  destruct (callSession_total_wf content file (pre ++ [OnFinish newMessages]) w Hwf)
    as (r & w' & Hrun' & Hwf').
  rewrite Hrun in Hrun'. cbn [fire] in Hrun'. rewrite Hfin in Hrun'.
  injection Hrun' as <- <-.
  match goal with Hw : wf ?w0 |- _ => set (w' := w0) in * end.
  assert (Hmsgs : messages (session w') = messages (session w) ++ news).
  { cbn [w' session set_messages messages ws streaming_world sending_world].
    unfold sending_messages. by rewrite js_slice_drops_pair. }
  exists (ResArray (js_slice news (-1) None)), w', news.
  split; [rewrite Hrun; cbn [fire]; exact Hfin|].
  split; [exact Hmsgs|]. split; [exact Hnormal|].
  intros c2 f2 b2.
  destruct (callSession_requests c2 f2 b2 w' Hwf') as (r2 & w2 & Hrun2 & Hreq).
  exists r2, w2. split; [done|]. intros req Hin.
  destruct (Hreq req Hin) as [Hold|(ts2 & Hts2 & Hhist)]; [by left|].
  right. exists ts2. split; [exact Hhist|].
  apply transform_history_sources in Hts2.
  assert (Hrecent : recentMessages (session w') = messages (session w) ++ news).
  { unfold recentMessages. rewrite <- Hmsgs.
    assert (Hidx : clearContextIndex (session w') = None) by exact Hnone.
    by rewrite Hidx. }
  by rewrite Hrecent in Hts2.
Qed.

(** ** The value returned *)

Lemma fire_result (cl : Closure) (i : string) (r : CallResult)
  (ev : BackendEvent) (w0 w : World) :
  kept cl i w0 w ->
  exists r' w',
    fire cl r ev w = Some (r', w') /\ kept cl i w0 w' /\
    match ev with
    | OnController _ | OnUpdate _ => r' = r
    | OnFinish _ => exists ls, r' = ResArray ls
    | OnError _ => r' = ResMessage (botMessage cl)
    end.
Proof.
  intros Hk.
  destruct (fire_kept cl i r ev w0 w Hk) as (r' & w' & Hrun & Hk').
  exists r', w'. split; [done|]. split; [done|].
  destruct Hk as [(Hu & Hb & Hne) _ _ _ _ _ _ _ (b & Hbm & _) _ _].
  destruct (lookup_lt_is_Some_2 _ _ Hu) as [um Hum].
  destruct ev as [c|message|newMessages|error]; cbn [fire] in Hrun.
  - unfold bind in Hrun. rewrite (onController_run _ _ b) in Hrun by done.
    by injection Hrun as <- _.
  - unfold bind in Hrun. rewrite (onUpdate_run _ _ b) in Hrun by done.
    by injection Hrun as <- _.
  - destruct (onFinish_run cl newMessages b w Hbm)
      as (news & w1 & replaced & _ & _ & _ & _ & _ & Hfin).
    rewrite Hfin in Hrun. injection Hrun as <- _. by eexists.
  - rewrite (onError_run _ _ b um) in Hrun by done. by injection Hrun as <- _.
Qed.

Lemma fire_all_result (cl : Closure) (i : string) (events : list BackendEvent)
  (w0 : World) :
  forall (r : CallResult) (w : World),
    kept cl i w0 w ->
    exists r' w',
      fire_all cl r events w = Some (r', w') /\
      (r' = ResUndefined <-> r = ResUndefined /\ Forall nonterminal events) /\
      (forall l, r' = ResMessage l -> r = ResMessage l \/ l = botMessage cl).
Proof.
  induction events as [|ev events IH]; intros r w Hk.
  - exists r, w. split; [done|]. split; [|by left].
    split; [by intros ->|by intros [-> _]].
  - destruct (fire_result cl i r ev w0 w Hk) as (r1 & w1 & Hrun1 & Hk1 & Hr1).
    destruct (IH r1 w1 Hk1) as (r2 & w2 & Hrun2 & Hund & Hmsg).
    exists r2, w2. split; [cbn [fire_all]; unfold bind; by rewrite Hrun1|].
    split.
    + rewrite Hund, Forall_cons.
      destruct ev as [c|message|newMessages|error]; cbn [nonterminal].
      * subst r1. tauto.
      * subst r1. tauto.
      * destruct Hr1 as [ls ->]. split.
        -- intros [Hx _]. discriminate.
        -- intros [_ [Hf _]]. destruct Hf.
      * subst r1. split.
        -- intros [Hx _]. discriminate.
        -- intros [_ [Hf _]]. destruct Hf.
    + intros l Hl. destruct (Hmsg l Hl) as [Hr | ->]; [|by right].
      destruct ev as [c|message|newMessages|error].
      * left. by rewrite <- Hr1.
      * left. by rewrite <- Hr1.
      * destruct Hr1 as [ls Hls]. rewrite Hls in Hr. discriminate.
      * right. rewrite Hr1 in Hr. by injection Hr.
Qed.

(** X15.  In an exchange that reaches the backend, the call resolves to
    [undefined] exactly when the backend fires no terminal hook at all;
    and whenever it resolves to a message, that message is the placeholder
    the call appended to the session, whatever the order of the hooks. *)
Theorem result_undefined_without_terminal_hook (content : string)
  (file : option FileWrap) (backend : list BackendEvent) (w w1 : World)
  (u : loc) :
  wf w ->
  createUserMessage content file w = Some (inr u, w1) ->
  exists (r : CallResult) (w' w0 : World) (saved bot_loc : loc),
    callSession content file backend w = Some (r, w') /\
    callSession content file [] w = Some (ResUndefined, w0) /\
    messages (session w0) = messages (session w) ++ [saved; bot_loc] /\
    (r = ResUndefined <-> Forall nonterminal backend) /\
    (forall l, r = ResMessage l -> l = bot_loc).
Proof.
  intros Hwf Hc.
  destruct (callSession_reaches_backend _ _ _ _ _ Hwf Hc)
    as (um & ts & Hb & Hts & Hlive & Hrun).
  destruct (fire_all_result _ _ backend _ ResUndefined _
              (kept_sending w um content ts Hwf))
    as (r & w' & Hfire & Hund & Hmsg).
  exists r, w', (sending_world w um content ts).
  exists (S (S (length (heap w)))), (S (length (heap w))).
  rewrite !Hrun. split; [done|]. split; [reflexivity|]. split; [reflexivity|].
  split; [rewrite Hund; tauto|].
  intros l Hl. by destruct (Hmsg l Hl).
Qed.

(** ** Hooks fired after the terminal one *)

(** X16.  Hooks that the backend fires after [onFinish] no longer reach the
    session: further updates and controllers leave the list and every
    message in it as [onFinish] left them and do not change the result
    (updates only write to the placeholder, which the list no longer
    holds).  A controller that arrives so late is registered all the same,
    under the key of the exchange, and nothing removes it afterwards. *)
Theorem late_hooks_after_finish (content : string) (file : option FileWrap)
  (pre late : list BackendEvent) (newMessages : list RequestMessage)
  (w w1 : World) (u : loc) :
  wf w ->
  createUserMessage content file w = Some (inr u, w1) ->
  Forall nonterminal pre ->
  Forall nonterminal late ->
  exists (r : CallResult) (w' w2 : World),
    callSession content file (pre ++ [OnFinish newMessages]) w = Some (r, w') /\
    callSession content file (pre ++ [OnFinish newMessages] ++ late) w
      = Some (r, w2) /\
    messages (session w2) = messages (session w') /\
    Forall (fun l => heap w2 !! l = heap w' !! l) (messages (session w2)) /\
    length (heap w2) = length (heap w') /\
    pool w' !! (sid (session w), JStr (nanoid (S (created w)))) = None /\
    (forall c, last (controllers late) = Some c ->
       pool w2 !! (sid (session w), JStr (nanoid (S (created w)))) = Some c).
Proof.
  intros Hwf Hc Hpre Hlate.
  destruct (callSession_reaches_backend _ _ _ _ _ Hwf Hc)
    as (um & ts & Hb & Hts & Hlive & Hrun).
  set (cl := sending_closure w) in *.
  set (sw := sending_world w um content ts) in *.
  assert (Hp : heap sw !! botMessage cl = Some (placeholder w)).
  { cbn [heap sw sending_world cl sending_closure botMessage]. apply lookup_app_S. }
  set (ws := streaming_world cl (placeholder w) pre sw).
  set (b := bot_after pre (placeholder w)).
  assert (Hbot : heap ws !! botMessage cl = Some b).
  { by apply streaming_world_bot. }
  destruct (normalized_all_fresh newMessages ws)
    as (news & wn & Hnorm & [ext Hext] & Hfresh & _).
  pose proof (onFinish_eq cl newMessages _ ws wn news Hnorm Hbot) as Hfin.
  match type of Hfin with _ = Some (?r0, ?w0) => set (r := r0) in *; set (w' := w0) in * end.
  assert (Hbot' : heap w' !! botMessage cl = Some b).
  { cbn [w' heap]. rewrite Hext. by apply lookup_app_l_Some. }
  assert (Hid : msg_id b = JStr (nanoid (S (created w)))).
  { unfold b. by destruct (bot_after_fields pre (placeholder w)) as (-> & _). }
  assert (Hkey : registry_key cl b = JStr (nanoid (S (created w)))).
  { unfold registry_key. by rewrite Hid. }
  exists r, w', (streaming_world cl b late w').
  split.
  { rewrite Hrun, fire_all_app.
    rewrite (fire_all_streaming_world _ _ Hpre _ _ _ Hp).
    rewrite fire_all_single. exact Hfin. }
  split.
  { rewrite Hrun, fire_all_app.
    rewrite (fire_all_streaming_world _ _ Hpre _ _ _ Hp).
    rewrite fire_all_app, fire_all_single. cbn [fire]. fold ws. rewrite Hfin.
    by apply fire_all_streaming_world. }
  split; [reflexivity|]. split.
  { cbn [session heap streaming_world].
    apply Forall_forall. intros l Hin. apply list_lookup_insert_ne.
    intros <-. revert Hin.
    cbn [w' session set_messages messages ws sw streaming_world sending_world].
    unfold sending_messages. rewrite js_slice_drops_pair.
    intros Hin. apply elem_of_app in Hin as [Hin|Hin].
    - destruct Hwf as [Hm _]. apply (proj1 (Forall_forall _ _) Hm) in Hin.
      cbn [cl sending_closure botMessage] in Hin. lia.
    - apply (proj1 (Forall_forall _ _) Hfresh) in Hin.
      cbn [heap ws sw streaming_world sending_world cl sending_closure
           botMessage] in Hin.
      rewrite length_insert, length_app in Hin. cbn [length] in Hin. lia. }
  split; [cbn [heap streaming_world]; by rewrite length_insert|].
  split.
  { cbn [w' pool session ws sw streaming_world sending_world set_messages sid].
    fold b. rewrite Hid. apply lookup_delete_eq. }
  intros c Hlast. cbn [pool streaming_world]. rewrite Hkey.
  by apply registered_last.
Qed.

End Facts.

(** * Concrete runs *)

(** C1.  A session with empty history, the input "hello", and a backend
    that registers a controller, streams one update and finishes with the
    two messages (user "hello", assistant "hi there"): the call returns
    [result], which [onFinish] set to [newChatMessages.slice(-1)], an array
    holding the last normalized message, and not that message itself (the
    declared return type is [ChatMessage | undefined], and [onError]
    assigns the message object). *)
Theorem finish_result_is_an_array :
  exists (w' : World) (m : ChatMessage),
    callSession (Collab := demo) "hello" None
      [OnController 7; OnUpdate "hi"; OnFinish hello_reply] w_empty
      = Some (ResArray [7], w') /\
    messages (session w') = [5; 7] /\
    heap w' !! 7 = Some m /\
    msg_role m = "assistant" /\ msg_content m = Some "hi there".
Proof.
  do 2 eexists. split; [vm_compute; reflexivity|].
  split; [reflexivity|]. split; [reflexivity|]. split; reflexivity.
Qed.

(** C3.  The same session and input, with a backend that registers a
    controller, streams "partial" and then fails with "network failure"
    (not a cancellation).  The placeholder (the last message of the
    session) ends flagged, not streaming, with the error block after
    "partial"; the flag meant for the user message is written to the
    object returned by [createUserMessage] (location 1), while the user
    message of the session is the copy made on line 198 (location 3),
    whose [isError] stays [undefined]. *)
Theorem error_flag_misses_session_user_message :
  exists (w' : World) (local_user session_user bot : ChatMessage),
    callSession (Collab := demo) "hello" None
      [OnController 7; OnUpdate "partial";
       OnError {| err_message := "network failure" |}] w_empty
      = Some (ResMessage 2, w') /\
    includes "aborted" "network failure" = false /\
    messages (session w') = [3; 2] /\
    heap w' !! 3 = Some session_user /\
    msg_role session_user = "user" /\
    msg_content session_user = Some "hello" /\
    msg_isError session_user = None /\
    heap w' !! 1 = Some local_user /\
    msg_isError local_user = Some true /\
    heap w' !! 2 = Some bot /\
    msg_isError bot = Some true /\
    msg_streaming bot = Some false /\
    msg_content bot
      = Some ("partial" +:+ blank_line +:+
              prettyObject (Collaborators := demo)
                {| eo_error := true; eo_message := "network failure" |}).
Proof.
  do 4 eexists. split; [vm_compute; reflexivity|].
  repeat (split; [reflexivity|]). reflexivity.
Qed.

#[local] Existing Instance demo.

Lemma unsupported_file_error_exchange_witness :
  (extension docx <> "pdf") /\
  (extension docx <> "txt") /\
  (getDetailContentFromFile docx = inl {| err_message := "Not supported file type" |} /\
  exists (w' : World) (u b : loc) (um bm : ChatMessage),
    callSession "see attachment" (Some docx) streaming_hooks w_empty = Some (ResMessage b, w') /\
    heap w' = heap w_empty ++ [um; bm] /\
    u = length (heap w_empty) /\ b = S (length (heap w_empty)) /\
    messages (session w') = messages (session w_empty) ++ [u; b] /\
    msg_role um = "user" /\ msg_content um = Some "see attachment" /\
    msg_role bm = "assistant" /\
    msg_content bm =
      Some (prettyObject {| eo_error := true;
                            eo_message := "Not supported file type" |}) /\
    trace w' = trace w_empty ++ [EvSetMessages (messages (session w'));
                           EvUpdateMessages (messages (session w'))] /\
    Forall (fun e => is_chat e = false) (drop (length (trace w_empty)) (trace w')) /\
    pool w' = pool w_empty).
Proof.
  assert (H1 : extension docx <> "pdf").
  { discriminate. }
  assert (H2 : extension docx <> "txt").
  { discriminate. }
  split; [exact H1|].
  split; [exact H2|].
  exact (unsupported_file_error_exchange _ _ _ _ H1 H2).
Defined.

Lemma error_exchange_bot_id_witness :
  (createUserMessage "https://down.example" None w_empty = Some (inl {| err_message := "fetch failed" |}, w_empty)) /\
  (exists (w' : World) (u b : loc) (um bm : ChatMessage),
    callSession "https://down.example" None streaming_hooks w_empty = Some (ResMessage b, w') /\
    messages (session w') = messages (session w_empty) ++ [u; b] /\
    heap w' !! u = Some um /\ heap w' !! b = Some bm /\
    msg_role um = "user" /\ msg_role bm = "assistant" /\
    msg_id bm = js_add_one (msg_id um) /\
    msg_id um = JStr (nanoid (created w_empty)) /\
    msg_id bm = JStr (nanoid (created w_empty) +:+ "1")).
Proof.
  assert (H1 : createUserMessage "https://down.example" None w_empty = Some (inl {| err_message := "fetch failed" |}, w_empty)).
  { reflexivity. }
  split; [exact H1|].
  exact (error_exchange_bot_id _ _ _ _ _ _ H1).
Defined.

Lemma raw_user_message_appended_witness :
  (wf w_chat) /\
  (createUserMessage "hello" None w_chat = Some (inr 4, w_chat_hello)) /\
  (exists (r : CallResult) (w' w0 : World) (saved placeholder : loc)
         (sm pm : ChatMessage) (req : ChatRequest) (t : list Event),
    callSession "hello" None (streaming_hooks ++ [OnFinish hello_reply]) w_chat = Some (r, w') /\
    trace w' =
      trace w_chat ++ [EvSetMessages (messages (session w_chat) ++ [saved; placeholder]);
                  EvUpdateMessages (messages (session w_chat) ++ [saved; placeholder]);
                  EvChat req] ++ t /\
    Forall (fun e => is_chat e = false) t /\
    callSession "hello" None [] w_chat = Some (ResUndefined, w0) /\
    messages (session w0) = messages (session w_chat) ++ [saved; placeholder] /\
    heap w0 !! saved = Some sm /\ heap w0 !! placeholder = Some pm /\
    msg_role sm = "user" /\ msg_content sm = Some "hello" /\
    msg_role pm = "assistant" /\ msg_streaming pm = Some true /\
    msg_content pm = Some EmptyString /\
    heap w' !! saved = Some sm).
Proof.
  assert (H1 : wf w_chat).
  { split; repeat (constructor; [cbn; lia|]); constructor. }
  assert (H2 : createUserMessage "hello" None w_chat = Some (inr 4, w_chat_hello)).
  { reflexivity. }
  split; [exact H1|].
  split; [exact H2|].
  exact (raw_user_message_appended _ _ _ _ _ _ H1 H2).
Defined.

Lemma history_precedes_append_witness :
  (wf w_chat) /\
  (createUserMessage "hello" None w_chat = Some (inr 4, w_chat_hello)) /\
  (exists (r : CallResult) (w' : World) (saved placeholder : loc)
         (req : ChatRequest) (ts : list Sent) (t : list Event),
    callSession "hello" None (streaming_hooks ++ [OnFinish hello_reply]) w_chat = Some (r, w') /\
    trace w' =
      trace w_chat ++ [EvSetMessages (messages (session w_chat) ++ [saved; placeholder]);
                  EvUpdateMessages (messages (session w_chat) ++ [saved; placeholder]);
                  EvChat req] ++ t /\
    Forall (fun e => is_chat e = false) t /\
    mapM transformAssistantMessageForSending (recentMessages (session w_chat)) w_chat
      = Some (ts, w_chat) /\
    req_chatHistory req = (SentRef <$> context (bot (session w_chat))) ++ ts /\
    (clearContextIndex (session w_chat) = None ->
     Forall2 (forwarded (heap w_chat)) (messages (session w_chat)) ts) /\
    (forall k, clearContextIndex (session w_chat) = Some k -> (0 <= k)%Z ->
       Forall2 (forwarded (heap w_chat))
               (drop (Z.to_nat k) (messages (session w_chat))) ts) /\
    (forall k, clearContextIndex (session w_chat) = Some k -> (k < 0)%Z ->
       Forall2 (forwarded (heap w_chat))
               (drop (length (messages (session w_chat)) - Z.to_nat (- k))
                     (messages (session w_chat))) ts) /\
    (SentRef 4 ∉ req_chatHistory req) /\
    (SentRef saved ∉ req_chatHistory req) /\
    (SentRef placeholder ∉ req_chatHistory req)).
Proof.
  assert (H1 : wf w_chat).
  { split; repeat (constructor; [cbn; lia|]); constructor. }
  assert (H2 : createUserMessage "hello" None w_chat = Some (inr 4, w_chat_hello)).
  { reflexivity. }
  split; [exact H1|].
  split; [exact H2|].
  exact (history_precedes_append _ _ _ _ _ _ H1 H2).
Defined.

Lemma history_window_witness :
  (wf w_chat) /\
  (createUserMessage "hello" None w_chat = Some (inr 4, w_chat_hello)) /\
  ((forall k, clearContextIndex (session w_chat) = Some k -> (0 <= k)%Z)) /\
  (exists (r : CallResult) (w' : World) (req : ChatRequest) (ts : list Sent)
         (t0 t : list Event),
    callSession "hello" None (streaming_hooks ++ [OnFinish hello_reply]) w_chat = Some (r, w') /\
    trace w' = trace w_chat ++ t0 ++ [EvChat req] ++ t /\
    Forall (fun e => is_chat e = false) (t0 ++ t) /\
    req_chatHistory req = (SentRef <$> context (bot (session w_chat))) ++ ts /\
    mapM transformAssistantMessageForSending (window (session w_chat)) w_chat = Some (ts, w_chat) /\
    Forall2 (forwarded (heap w_chat)) (window (session w_chat)) ts /\
    (forall k j x,
        clearContextIndex (session w_chat) = Some k ->
        ts !! j = Some x ->
        exists l, messages (session w_chat) !! (Z.to_nat k + j) = Some l /\
                  forwarded (heap w_chat) l x) /\
    (clearContextIndex (session w_chat) = None ->
     length ts = length (messages (session w_chat)))).
Proof.
  assert (H1 : wf w_chat).
  { split; repeat (constructor; [cbn; lia|]); constructor. }
  assert (H2 : createUserMessage "hello" None w_chat = Some (inr 4, w_chat_hello)).
  { reflexivity. }
  assert (H3 : (forall k, clearContextIndex (session w_chat) = Some k -> (0 <= k)%Z)).
  { intros k [= <-]. lia. }
  split; [exact H1|].
  split; [exact H2|].
  split; [exact H3|].
  exact (history_window _ _ _ _ _ _ H1 H2 H3).
Defined.

Lemma url_input_summarized_witness :
  (wf w_chat) /\
  (isURL article_url = true) /\
  (fetchSiteContent article_url = inr article) /\
  (exists (r : CallResult) (w1 w' : World) (u : loc) (um : ChatMessage)
         (d' : URLDetailContent) (req : ChatRequest) (t0 t : list Event),
    createTextInputMessage article_url w_chat = Some (inr u, w1) /\
    heap w1 !! u = Some um /\
    msg_role um = "user" /\
    msg_content um = ud_content article /\
    msg_urlDetail um = Some d' /\
    ud_content d' = None /\
    ud_url d' = ud_url article /\ ud_size d' = ud_size article /\ ud_type d' = ud_type article /\
    callSession article_url None (streaming_hooks ++ [OnFinish hello_reply]) w_chat = Some (r, w') /\
    trace w' = trace w_chat ++ t0 ++ [EvChat req] ++ t /\
    Forall (fun e => is_chat e = false) (t0 ++ t) /\
    req_message req =
      Some (summarize_instruction +:+ blank_line +:+ js_str (ud_content article)) /\
    (forall body, ud_content article = Some body ->
       req_message req =
         Some ("Summarize the following text briefly in 200 words or less:"
               +:+ String LF (String LF body)))).
Proof.
  assert (H1 : wf w_chat).
  { split; repeat (constructor; [cbn; lia|]); constructor. }
  assert (H2 : isURL article_url = true).
  { reflexivity. }
  assert (H3 : fetchSiteContent article_url = inr article).
  { reflexivity. }
  split; [exact H1|].
  split; [exact H2|].
  split; [exact H3|].
  exact (url_input_summarized _ _ _ _ H1 H2 H3).
Defined.

Lemma onFinish_replaces_pair_witness :
  (wf w_chat) /\
  (createUserMessage "hello" None w_chat = Some (inr 4, w_chat_hello)) /\
  (Forall nonterminal streaming_hooks) /\
  (exists (r0 r : CallResult) (w_pre w' : World) (saved bot_loc : loc)
         (news : list loc),
    callSession "hello" None streaming_hooks w_chat = Some (r0, w_pre) /\
    callSession "hello" None (streaming_hooks ++ [OnFinish hello_reply]) w_chat = Some (r, w') /\
    messages (session w_pre) = messages (session w_chat) ++ [saved; bot_loc] /\
    messages (session w')
      = js_slice (messages (session w_pre)) 0 (Some (-2)%Z) ++ news /\
    messages (session w')
      = take (length (messages (session w_pre)) - 2) (messages (session w_pre))
        ++ news /\
    messages (session w') = messages (session w_chat) ++ news /\
    length news = length hello_reply /\
    Forall2 (normalizes (heap w')) news hello_reply /\
    (Z.of_nat (length (messages (session w')))
     = Z.of_nat (length (messages (session w_pre))) - 2
       + Z.of_nat (length hello_reply))%Z).
Proof.
  assert (H1 : wf w_chat).
  { split; repeat (constructor; [cbn; lia|]); constructor. }
  assert (H2 : createUserMessage "hello" None w_chat = Some (inr 4, w_chat_hello)).
  { reflexivity. }
  assert (H3 : Forall nonterminal streaming_hooks).
  { repeat constructor. }
  split; [exact H1|].
  split; [exact H2|].
  split; [exact H3|].
  exact (onFinish_replaces_pair _ _ _ _ _ _ _ H1 H2 H3).
Defined.

Lemma registry_entry_removed_witness :
  (wf w_chat) /\
  (createUserMessage "hello" None w_chat = Some (inr 4, w_chat_hello)) /\
  (Forall nonterminal streaming_hooks) /\
  (terminal (OnError aborted_error)) /\
  (exists (r0 r : CallResult) (w_pre w' : World) (key : JsVal) (t : list Event),
    callSession "hello" None streaming_hooks w_chat = Some (r0, w_pre) /\
    callSession "hello" None (streaming_hooks ++ [(OnError aborted_error)]) w_chat = Some (r, w') /\
    key = JStr (nanoid (S (created w_chat))) /\
    trace w' = trace w_chat ++ t /\
    registry_ops t
      = (EvAddController (sid (session w_chat)) key <$> controllers streaming_hooks)
        ++ [EvRemove (sid (session w_chat)) key] /\
    (forall c, last (controllers streaming_hooks) = Some c ->
               pool w_pre !! (sid (session w_chat), key) = Some c) /\
    pool w' !! (sid (session w_chat), key) = None).
Proof.
  assert (H1 : wf w_chat).
  { split; repeat (constructor; [cbn; lia|]); constructor. }
  assert (H2 : createUserMessage "hello" None w_chat = Some (inr 4, w_chat_hello)).
  { reflexivity. }
  assert (H3 : Forall nonterminal streaming_hooks).
  { repeat constructor. }
  assert (H4 : terminal (OnError aborted_error)).
  { exact I. }
  split; [exact H1|].
  split; [exact H2|].
  split; [exact H3|].
  split; [exact H4|].
  exact (registry_entry_removed _ _ _ _ _ _ _ H1 H2 H3 H4).
Defined.


Lemma callSession_frame_witness :
  (wf w_chat) /\
  (exists (r : CallResult) (w' : World),
    callSession "hello" None (streaming_hooks ++ [OnFinish hello_reply]) w_chat = Some (r, w') /\
    sid (session w') = sid (session w_chat) /\
    clearContextIndex (session w') = clearContextIndex (session w_chat) /\
    bot (session w') = bot (session w_chat) /\
    length (heap w_chat) < length (heap w') /\
    (forall l m, heap w_chat !! l = Some m -> heap w' !! l = Some m)).
Proof.
  assert (H1 : wf w_chat).
  { split; repeat (constructor; [cbn; lia|]); constructor. }
  split; [exact H1|].
  exact (callSession_frame _ _ _ _ H1).
Defined.

Lemma callSession_own_registry_key_witness :
  (wf w_chat) /\
  (exists (r : CallResult) (w' : World) (t : list Event),
    callSession "hello" None (mixed_hooks ++ [OnError aborted_error]) w_chat = Some (r, w') /\
    trace w' = trace w_chat ++ t /\
    Forall (own_op (sid (session w_chat)) (JStr (nanoid (S (created w_chat))))) t /\
    forall k, k <> (sid (session w_chat), JStr (nanoid (S (created w_chat)))) ->
              pool w' !! k = pool w_chat !! k).
Proof.
  assert (H1 : wf w_chat).
  { split; repeat (constructor; [cbn; lia|]); constructor. }
  split; [exact H1|].
  exact (callSession_own_registry_key _ _ _ _ H1).
Defined.

Lemma plain_text_sent_verbatim_witness :
  (wf w_chat) /\
  (isURL "hello" = false) /\
  (exists (r : CallResult) (w' w0 : World) (u saved : loc) (um : ChatMessage)
         (req : ChatRequest) (t0 t : list Event),
    callSession "hello" None (streaming_hooks ++ [OnFinish hello_reply]) w_chat = Some (r, w') /\
    trace w' = trace w_chat ++ t0 ++ [EvChat req] ++ t /\
    Forall (fun e => is_chat e = false) (t0 ++ t) /\
    req_message req = Some "hello" /\
    callSession "hello" None [] w_chat = Some (ResUndefined, w0) /\
    heap w0 !! u = Some um /\
    heap w0 !! saved = Some um /\
    u <> saved /\
    messages (session w0) = messages (session w_chat) ++ [saved; S u] /\
    msg_id um = JStr (nanoid (created w_chat)) /\
    msg_role um = "user" /\
    msg_content um = Some "hello" /\
    msg_urlDetail um = None).
Proof.
  assert (H1 : wf w_chat).
  { split; repeat (constructor; [cbn; lia|]); constructor. }
  assert (H2 : isURL "hello" = false).
  { reflexivity. }
  split; [exact H1|].
  split; [exact H2|].
  exact (plain_text_sent_verbatim _ _ _ H1 H2).
Defined.

Lemma file_input_summarized_witness :
  (wf w_chat) /\
  ((extension report = "pdf" /\ pdfFileDetail report = inr report_detail \/
   extension report = "txt" /\ plainTextFileDetail report = inr report_detail)) /\
  (exists (r : CallResult) (w' w0 : World) (u saved : loc) (um sm : ChatMessage)
         (d' : URLDetailContent) (req : ChatRequest) (t0 t : list Event),
    callSession "please summarize" (Some report) (streaming_hooks ++ [OnFinish hello_reply]) w_chat = Some (r, w') /\
    trace w' = trace w_chat ++ t0 ++ [EvChat req] ++ t /\
    Forall (fun e => is_chat e = false) (t0 ++ t) /\
    req_message req
      = Some (summarize_instruction +:+ blank_line +:+ js_str (ud_content report_detail)) /\
    callSession "please summarize" (Some report) [] w_chat = Some (ResUndefined, w0) /\
    messages (session w0) = messages (session w_chat) ++ [saved; S u] /\
    heap w0 !! u = Some um /\
    msg_role um = "user" /\
    msg_content um = ud_content report_detail /\
    msg_urlDetail um = Some (delete_content report_detail) /\
    heap w0 !! saved = Some sm /\
    msg_content sm = Some "please summarize" /\
    msg_urlDetail sm = Some (delete_content report_detail) /\
    msg_id sm = msg_id um /\
    msg_urlDetail um = Some d' /\
    msg_urlDetail sm = Some d' /\
    ud_content d' = None /\
    ud_url d' = ud_url report_detail /\ ud_size d' = ud_size report_detail /\ ud_type d' = ud_type report_detail).
Proof.
  assert (H1 : wf w_chat).
  { split; repeat (constructor; [cbn; lia|]); constructor. }
  assert (H2 : (extension report = "pdf" /\ pdfFileDetail report = inr report_detail \/
   extension report = "txt" /\ plainTextFileDetail report = inr report_detail)).
  { left. split; reflexivity. }
  split; [exact H1|].
  split; [exact H2|].
  exact (file_input_summarized _ _ _ _ _ H1 H2).
Defined.

Lemma extraction_failure_error_exchange_witness :
  (((exists f, (@None FileWrap) = Some f /\ getDetailContentFromFile f = inl fetch_failed) \/
   ((@None FileWrap) = None /\ isURL "https://down.example" = true /\
    fetchSiteContent "https://down.example" = inl fetch_failed))) /\
  (exists (w' : World) (u b : loc) (um bm : ChatMessage),
    callSession "https://down.example" (@None FileWrap) (streaming_hooks ++ [OnFinish hello_reply]) w_empty = Some (ResMessage b, w') /\
    heap w' = heap w_empty ++ [um; bm] /\
    u = length (heap w_empty) /\ b = S u /\
    messages (session w') = messages (session w_empty) ++ [u; b] /\
    trace w' = trace w_empty ++ [EvSetMessages (messages (session w'));
                           EvUpdateMessages (messages (session w'))] /\
    pool w' = pool w_empty /\
    msg_role um = "user" /\ msg_content um = Some "https://down.example" /\
    msg_role bm = "assistant" /\
    (err_message fetch_failed = EmptyString ->
     msg_content bm
     = Some (prettyObject {| eo_error := true;
                             eo_message := "Invalid user message" |})) /\
    (err_message fetch_failed <> EmptyString ->
     msg_content bm
     = Some (prettyObject {| eo_error := true;
                             eo_message := err_message fetch_failed |})) /\
    msg_isError um = None /\ msg_isError bm = None /\
    msg_streaming um = None /\ msg_streaming bm = None).
Proof.
  assert (H1 : ((exists f, (@None FileWrap) = Some f /\ getDetailContentFromFile f = inl fetch_failed) \/
   ((@None FileWrap) = None /\ isURL "https://down.example" = true /\
    fetchSiteContent "https://down.example" = inl fetch_failed))).
  { right. repeat split; reflexivity. }
  split; [exact H1|].
  exact (extraction_failure_error_exchange _ _ _ _ _ H1).
Defined.

Lemma partial_content_is_last_update_witness :
  (wf w_chat) /\
  (createUserMessage "hello" None w_chat = Some (inr 4, w_chat_hello)) /\
  (Forall nonterminal mixed_hooks) /\
  (exists (w_pre : World) (saved bot_loc : loc) (pm : ChatMessage),
    callSession "hello" None mixed_hooks w_chat = Some (ResUndefined, w_pre) /\
    messages (session w_pre) = messages (session w_chat) ++ [saved; bot_loc] /\
    heap w_pre !! bot_loc = Some pm /\
    msg_content pm = Some (default EmptyString (last_partial mixed_hooks)) /\
    msg_streaming pm = Some true /\
    msg_role pm = "assistant" /\
    msg_isError pm = None /\
    msg_id pm = JStr (nanoid (S (created w_chat)))).
Proof.
  assert (H1 : wf w_chat).
  { split; repeat (constructor; [cbn; lia|]); constructor. }
  assert (H2 : createUserMessage "hello" None w_chat = Some (inr 4, w_chat_hello)).
  { reflexivity. }
  assert (H3 : Forall nonterminal mixed_hooks).
  { repeat constructor. }
  split; [exact H1|].
  split; [exact H2|].
  split; [exact H3|].
  exact (partial_content_is_last_update _ _ _ _ _ _ H1 H2 H3).
Defined.

Lemma exchange_trace_witness :
  (wf w_chat) /\
  (createUserMessage "hello" None w_chat = Some (inr 4, w_chat_hello)) /\
  (Forall nonterminal mixed_hooks) /\
  (terminal (OnFinish hello_reply)) /\
  (exists (r : CallResult) (w' : World) (req : ChatRequest)
         (saved bot_loc : loc) (key : JsVal),
    callSession "hello" None (mixed_hooks ++ [(OnFinish hello_reply)]) w_chat = Some (r, w') /\
    key = JStr (nanoid (S (created w_chat))) /\
    trace w' =
      trace w_chat
      ++ [EvSetMessages (messages (session w_chat) ++ [saved; bot_loc]);
          EvUpdateMessages (messages (session w_chat) ++ [saved; bot_loc]);
          EvChat req]
      ++ stream_events (messages (session w_chat) ++ [saved; bot_loc])
                       (sid (session w_chat)) key mixed_hooks
      ++ match (OnFinish hello_reply) with
         | OnFinish _ =>
             [EvSetMessages (messages (session w'));
              EvUpdateMessages (messages (session w'));
              EvRemove (sid (session w_chat)) key]
         | _ =>
             [EvUpdateMessages (messages (session w_chat) ++ [saved; bot_loc]);
              EvRemove (sid (session w_chat)) key]
         end).
Proof.
  assert (H1 : wf w_chat).
  { split; repeat (constructor; [cbn; lia|]); constructor. }
  assert (H2 : createUserMessage "hello" None w_chat = Some (inr 4, w_chat_hello)).
  { reflexivity. }
  assert (H3 : Forall nonterminal mixed_hooks).
  { repeat constructor. }
  assert (H4 : terminal (OnFinish hello_reply)).
  { exact I. }
  split; [exact H1|].
  split; [exact H2|].
  split; [exact H3|].
  split; [exact H4|].
  exact (exchange_trace _ _ _ _ _ _ _ H1 H2 H3 H4).
Defined.

Lemma onError_keeps_exchange_witness :
  (wf w_chat) /\
  (createUserMessage "hello" None w_chat = Some (inr 4, w_chat_hello)) /\
  (Forall nonterminal mixed_hooks) /\
  (exists (w_pre w' : World) (saved bot_loc : loc) (bm : ChatMessage),
    callSession "hello" None mixed_hooks w_chat = Some (ResUndefined, w_pre) /\
    callSession "hello" None (mixed_hooks ++ [OnError aborted_error]) w_chat
      = Some (ResMessage bot_loc, w') /\
    messages (session w') = messages (session w_chat) ++ [saved; bot_loc] /\
    messages (session w') = messages (session w_pre) /\
    last (messages (session w')) = Some bot_loc /\
    length (heap w') = length (heap w_pre) /\
    created w' = created w_pre /\
    heap w' !! bot_loc = Some bm /\
    msg_role bm = "assistant" /\
    msg_content bm
      = Some (default EmptyString (last_partial mixed_hooks) +:+ blank_line +:+
              prettyObject {| eo_error := true;
                              eo_message := err_message aborted_error |}) /\
    msg_streaming bm = Some false /\
    msg_isError bm = Some (negb (includes "aborted" (err_message aborted_error)))).
Proof.
  assert (H1 : wf w_chat).
  { split; repeat (constructor; [cbn; lia|]); constructor. }
  assert (H2 : createUserMessage "hello" None w_chat = Some (inr 4, w_chat_hello)).
  { reflexivity. }
  assert (H3 : Forall nonterminal mixed_hooks).
  { repeat constructor. }
  split; [exact H1|].
  split; [exact H2|].
  split; [exact H3|].
  exact (onError_keeps_exchange _ _ _ _ _ _ _ H1 H2 H3).
Defined.

Lemma onFinish_installs_fresh_messages_witness :
  (wf w_chat) /\
  (createUserMessage "hello" None w_chat = Some (inr 4, w_chat_hello)) /\
  (Forall nonterminal mixed_hooks) /\
  (exists (r : CallResult) (w_pre w' : World) (saved bot_loc : loc)
         (news : list loc) (pm : ChatMessage),
    callSession "hello" None mixed_hooks w_chat = Some (ResUndefined, w_pre) /\
    messages (session w_pre) = messages (session w_chat) ++ [saved; bot_loc] /\
    callSession "hello" None (mixed_hooks ++ [OnFinish hello_reply]) w_chat = Some (r, w') /\
    messages (session w') = messages (session w_chat) ++ news /\
    length news = length hello_reply /\
    NoDup news /\
    Forall (fun l => saved < l /\ bot_loc < l /\ 4 < l) news /\
    (saved ∉ messages (session w')) /\
    (bot_loc ∉ messages (session w')) /\
    (forall j l, news !! j = Some l ->
       exists m, heap w' !! l = Some m /\
                 msg_id m = JStr (nanoid (S (S (created w_chat)) + j))) /\
    heap w' !! bot_loc = Some pm /\
    msg_streaming pm = Some true /\
    msg_content pm = Some (default EmptyString (last_partial mixed_hooks))).
Proof.
  assert (H1 : wf w_chat).
  { split; repeat (constructor; [cbn; lia|]); constructor. }
  assert (H2 : createUserMessage "hello" None w_chat = Some (inr 4, w_chat_hello)).
  { reflexivity. }
  assert (H3 : Forall nonterminal mixed_hooks).
  { repeat constructor. }
  split; [exact H1|].
  split; [exact H2|].
  split; [exact H3|].
  exact (onFinish_installs_fresh_messages _ _ _ _ _ _ _ H1 H2 H3).
Defined.

Lemma request_forces_streaming_witness :
  (wf w_chat) /\
  (createUserMessage "hello" None w_chat = Some (inr 4, w_chat_hello)) /\
  (exists (r : CallResult) (w' : World) (req : ChatRequest) (t0 t : list Event),
    callSession "hello" None (streaming_hooks ++ [OnFinish hello_reply]) w_chat = Some (r, w') /\
    trace w' = trace w_chat ++ t0 ++ [EvChat req] ++ t /\
    Forall (fun e => is_chat e = false) (t0 ++ t) /\
    req_config req !! "stream" = Some (JBool true) /\
    (forall k, k <> "stream" ->
               req_config req !! k = modelConfig (bot (session w_chat)) !! k)).
Proof.
  assert (H1 : wf w_chat).
  { split; repeat (constructor; [cbn; lia|]); constructor. }
  assert (H2 : createUserMessage "hello" None w_chat = Some (inr 4, w_chat_hello)).
  { reflexivity. }
  split; [exact H1|].
  split; [exact H2|].
  exact (request_forces_streaming _ _ _ _ _ _ H1 H2).
Defined.

Lemma history_entries_witness :
  (wf w_chat) /\
  (createUserMessage "hello" None w_chat = Some (inr 4, w_chat_hello)) /\
  (exists (r : CallResult) (w' : World) (req : ChatRequest) (ts : list Sent)
         (t0 t : list Event),
    callSession "hello" None (streaming_hooks ++ [OnFinish hello_reply]) w_chat = Some (r, w') /\
    trace w' = trace w_chat ++ t0 ++ [EvChat req] ++ t /\
    Forall (fun e => is_chat e = false) (t0 ++ t) /\
    req_chatHistory req = (SentRef <$> context (bot (session w_chat))) ++ ts /\
    (clearContextIndex (session w_chat) = None ->
     Forall2 (passed_on (heap w_chat)) (messages (session w_chat)) ts) /\
    (forall k, clearContextIndex (session w_chat) = Some k -> (0 <= k)%Z ->
       Forall2 (passed_on (heap w_chat))
               (drop (Z.to_nat k) (messages (session w_chat))) ts) /\
    (forall k, clearContextIndex (session w_chat) = Some k -> (k < 0)%Z ->
       Forall2 (passed_on (heap w_chat))
               (drop (length (messages (session w_chat)) - Z.to_nat (- k))
                     (messages (session w_chat))) ts) /\
    length ts = length (recentMessages (session w_chat)) /\
    Forall (fun x =>
              exists l m, l ∈ messages (session w_chat) /\ heap w_chat !! l = Some m /\
                (msg_role m <> "URL" /\ x = SentRef l \/
                 msg_role m = "URL" /\
                 x = SentNew {| rm_role := "assistant";
                                rm_content := msg_content m |})) ts).
Proof.
  assert (H1 : wf w_chat).
  { split; repeat (constructor; [cbn; lia|]); constructor. }
  assert (H2 : createUserMessage "hello" None w_chat = Some (inr 4, w_chat_hello)).
  { reflexivity. }
  split; [exact H1|].
  split; [exact H2|].
  exact (history_entries _ _ _ _ _ _ H1 H2).
Defined.

Lemma cleared_context_sends_prompts_only_witness :
  (wf w_cleared) /\
  (createUserMessage "hello" None w_cleared = Some (inr 4, w_cleared_hello)) /\
  (clearContextIndex (session w_cleared) = Some 3%Z) /\
  ((Z.of_nat (length (messages (session w_cleared))) <= 3%Z)%Z) /\
  (exists (r : CallResult) (w' : World) (req : ChatRequest) (t0 t : list Event),
    callSession "hello" None (streaming_hooks ++ [OnFinish hello_reply]) w_cleared = Some (r, w') /\
    trace w' = trace w_cleared ++ t0 ++ [EvChat req] ++ t /\
    Forall (fun e => is_chat e = false) (t0 ++ t) /\
    req_chatHistory req = SentRef <$> context (bot (session w_cleared))).
Proof.
  assert (H1 : wf w_cleared).
  { split; repeat (constructor; [cbn; lia|]); constructor. }
  assert (H2 : createUserMessage "hello" None w_cleared = Some (inr 4, w_cleared_hello)).
  { reflexivity. }
  assert (H3 : clearContextIndex (session w_cleared) = Some 3%Z).
  { reflexivity. }
  assert (H4 : (Z.of_nat (length (messages (session w_cleared))) <= 3%Z)%Z).
  { cbn. lia. }
  split; [exact H1|].
  split; [exact H2|].
  split; [exact H3|].
  split; [exact H4|].
  exact (cleared_context_sends_prompts_only _ _ _ _ _ _ _ H1 H2 H3 H4).
Defined.

Lemma first_exchange_of_empty_session_witness :
  (Forall (fun l => l < length (heap w_empty)) (context helpful_bot)) /\
  (exists (s : ChatSession) (w1 : World),
    createEmptySession default_bot (Some helpful_bot) w_empty = Some (s, w1) /\
    s = {| sid := nanoid (created w_empty); messages := [];
           clearContextIndex := None; bot := helpful_bot |} /\
    w1 = set_created (S (created w_empty)) w_empty /\
    (forall b' w2,
        default_bot w1 = Some (b', w2) ->
        createEmptySession default_bot None w_empty
        = Some ({| sid := nanoid (created w_empty); messages := [];
                   clearContextIndex := None; bot := b' |}, w2)) /\
    forall content file backend,
      exists r w',
        callSession content file backend (with_session s w1) = Some (r, w') /\
        forall req, EvChat req ∈ trace w' ->
          EvChat req ∈ trace w_empty \/
          req_chatHistory req = SentRef <$> context helpful_bot).
Proof.
  assert (H1 : Forall (fun l => l < length (heap w_empty)) (context helpful_bot)).
  { repeat (constructor; [cbn; lia|]); constructor. }
  split; [exact H1|].
  exact (first_exchange_of_empty_session _ _ _ H1).
Defined.

Lemma next_exchange_sees_reply_witness :
  (wf w_empty) /\
  (createUserMessage "hello" None w_empty = Some (inr 1, w_empty_hello)) /\
  (Forall nonterminal mixed_hooks) /\
  (clearContextIndex (session w_empty) = None) /\
  (exists (r : CallResult) (w' : World) (news : list loc),
    callSession "hello" None (mixed_hooks ++ [OnFinish hello_reply]) w_empty = Some (r, w') /\
    messages (session w') = messages (session w_empty) ++ news /\
    Forall2 (normalizes (heap w')) news hello_reply /\
    forall content2 file2 backend2,
      exists r2 w2,
        callSession content2 file2 backend2 w' = Some (r2, w2) /\
        forall req, EvChat req ∈ trace w2 ->
          EvChat req ∈ trace w' \/
          exists ts,
            req_chatHistory req = (SentRef <$> context (bot (session w_empty))) ++ ts /\
            Forall2 (forwarded (heap w')) (messages (session w_empty) ++ news) ts).
Proof.
  assert (H1 : wf w_empty).
  { split; repeat (constructor; [cbn; lia|]); constructor. }
  assert (H2 : createUserMessage "hello" None w_empty = Some (inr 1, w_empty_hello)).
  { reflexivity. }
  assert (H3 : Forall nonterminal mixed_hooks).
  { repeat constructor. }
  assert (H4 : clearContextIndex (session w_empty) = None).
  { reflexivity. }
  split; [exact H1|].
  split; [exact H2|].
  split; [exact H3|].
  split; [exact H4|].
  exact (next_exchange_sees_reply _ _ _ _ _ _ _ H1 H2 H3 H4).
Defined.

Lemma result_undefined_without_terminal_hook_witness :
  (wf w_chat) /\
  (createUserMessage "hello" None w_chat = Some (inr 4, w_chat_hello)) /\
  (exists (r : CallResult) (w' w0 : World) (saved bot_loc : loc),
    callSession "hello" None mixed_hooks w_chat = Some (r, w') /\
    callSession "hello" None [] w_chat = Some (ResUndefined, w0) /\
    messages (session w0) = messages (session w_chat) ++ [saved; bot_loc] /\
    (r = ResUndefined <-> Forall nonterminal mixed_hooks) /\
    (forall l, r = ResMessage l -> l = bot_loc)).
Proof.
  assert (H1 : wf w_chat).
  { split; repeat (constructor; [cbn; lia|]); constructor. }
  assert (H2 : createUserMessage "hello" None w_chat = Some (inr 4, w_chat_hello)).
  { reflexivity. }
  split; [exact H1|].
  split; [exact H2|].
  exact (result_undefined_without_terminal_hook _ _ _ _ _ _ H1 H2).
Defined.

Lemma late_hooks_after_finish_witness :
  (wf w_chat) /\
  (createUserMessage "hello" None w_chat = Some (inr 4, w_chat_hello)) /\
  (Forall nonterminal streaming_hooks) /\
  (Forall nonterminal mixed_hooks) /\
  (exists (r : CallResult) (w' w2 : World),
    callSession "hello" None (streaming_hooks ++ [OnFinish hello_reply]) w_chat = Some (r, w') /\
    callSession "hello" None (streaming_hooks ++ [OnFinish hello_reply] ++ mixed_hooks) w_chat
      = Some (r, w2) /\
    messages (session w2) = messages (session w') /\
    Forall (fun l => heap w2 !! l = heap w' !! l) (messages (session w2)) /\
    length (heap w2) = length (heap w') /\
    pool w' !! (sid (session w_chat), JStr (nanoid (S (created w_chat)))) = None /\
    (forall c, last (controllers mixed_hooks) = Some c ->
       pool w2 !! (sid (session w_chat), JStr (nanoid (S (created w_chat)))) = Some c)).
Proof.
  assert (H1 : wf w_chat).
  { split; repeat (constructor; [cbn; lia|]); constructor. }
  assert (H2 : createUserMessage "hello" None w_chat = Some (inr 4, w_chat_hello)).
  { reflexivity. }
  assert (H3 : Forall nonterminal streaming_hooks).
  { repeat constructor. }
  assert (H4 : Forall nonterminal mixed_hooks).
  { repeat constructor. }
  split; [exact H1|].
  split; [exact H2|].
  split; [exact H3|].
  split; [exact H4|].
  exact (late_hooks_after_finish _ _ _ _ _ _ _ _ H1 H2 H3 H4).
Defined.
